(** * SkillForage-X: the resume-analysis pipeline and its Redis cache layer

    A shallow embedding of the JavaScript sources
    [userDashboardCache.js], [server.js], [processResume.js],
    [nerProcessor.js], [redisClient.js] and the content prioritizer (the
    unnamed module that exports [fetchDevBlogs]), followed by the theorems
    that settle the specification's claims against that embedding.

    Modelling conventions.
    - A JavaScript string is a [string]: a sequence of code units below 256.
    - A JavaScript number is a [Z] where the code only handles integer
      quantities (skill levels, progress, counts) and a [Q] where halves or
      ratios appear (scores, relevance); rounding of IEEE doubles is not
      modelled.  An absent property, [null] and [NaN] are explicit
      constructors where the code can produce them.
    - The Redis server is one state [Redis] threaded through every cache
      operation; a command may reject, which is driven by a fault schedule
      carried in the state.  [JSON.stringify]/[JSON.parse] are the identity on
      well-typed values, except that [NaN] is written as [null] and absent
      properties are dropped.
    - [redisGet], [redisSet] and [redisDel] are the Redis commands [GET],
      [SET] and [DEL].
    - A method of the cache module runs with the module object as [this]
      when it is called on that object; a method taken off the object and
      called bare does not ([Receiver]).
    - [async] functions are run to completion one after the other; a rejected
      promise or a thrown exception is the [Err] result.  External services
      and libraries (the file decoders, the inference services, the [natural]
      tokenizers, the clock, [Math.random]) are parameters, given by their
      outcome. *)

From Stdlib Require Import ZArith QArith Qround Qminmax Lia Lqa Sorted Permutation.
From Stdlib Require Import Ascii String List DecimalString HexadecimalString.
From stdpp Require Import base option list gmap strings.

Local Open Scope Z_scope.

(* ===================================================================== *)
(** * Part I: the embedding                                               *)
(* ===================================================================== *)

(** ** Exceptions and promises *)

Inductive Result (A : Type) : Type :=
| Ok (a : A)
| Err (message : string).
Arguments Ok {A} a.
Arguments Err {A} message.

Definition is_ok {A} (r : Result A) : bool :=
  match r with Ok _ => true | Err _ => false end.

(** ** JavaScript strings *)

Module JsString.

Definition code (c : ascii) : N := N_of_ascii c.

Definition between (lo hi : N) (c : ascii) : bool :=
  ((lo <=? code c) && (code c <=? hi))%N.

(** [A-Z], [a-z], [\d], [\w] and [\s] of a regular expression without the
    [u] flag, on code units below 256. *)
Definition isUpper (c : ascii) : bool := between 65 90 c.
Definition isLower (c : ascii) : bool := between 97 122 c.
Definition isLetter (c : ascii) : bool := isUpper c || isLower c.
Definition isDigit (c : ascii) : bool := between 48 57 c.
Definition isWord (c : ascii) : bool :=
  isLetter c || isDigit c || (code c =? 95)%N.
Definition isSpace (c : ascii) : bool :=
  between 9 13 c || (code c =? 32)%N || (code c =? 160)%N.

(** [String.prototype.toLowerCase], one code unit at a time: the ASCII
    capitals and the Latin-1 capitals (all of 192..222 but the sign 215). *)
Definition lowerChar (c : ascii) : ascii :=
  if isUpper c || (between 192 222 c && negb (code c =? 215)%N)
  then ascii_of_N (code c + 32)
  else c.

Fixpoint toLowerCase (s : string) : string :=
  match s with
  | EmptyString => EmptyString
  | String c r => String (lowerChar c) (toLowerCase r)
  end.

Fixpoint startsWith (p s : string) : bool :=
  match p, s with
  | EmptyString, _ => true
  | String a p', String b s' => Ascii.eqb a b && startsWith p' s'
  | String _ _, EmptyString => false
  end.

(** [s.includes(p)] *)
Fixpoint includes (s p : string) : bool :=
  startsWith p s ||
  match s with
  | EmptyString => false
  | String _ r => includes r p
  end.

Fixpoint trimStart (s : string) : string :=
  match s with
  | String c r => if isSpace c then trimStart r else s
  | EmptyString => EmptyString
  end.

(** Drops the trailing white space: a white-space character is kept only
    when something that is kept follows it. *)
Fixpoint trimEnd (s : string) : string :=
  match s with
  | EmptyString => EmptyString
  | String c r =>
      match trimEnd r with
      | EmptyString => if isSpace c then EmptyString else String c EmptyString
      | t => String c t
      end
  end.

Definition trim (s : string) : string := trimEnd (trimStart s).

Fixpoint forallb (f : ascii -> bool) (s : string) : bool :=
  match s with
  | EmptyString => true
  | String c r => f c && forallb f r
  end.

Fixpoint existsb (f : ascii -> bool) (s : string) : bool :=
  match s with
  | EmptyString => false
  | String c r => f c || existsb f r
  end.

Fixpoint filter (f : ascii -> bool) (s : string) : string :=
  match s with
  | EmptyString => EmptyString
  | String c r => if f c then String c (filter f r) else filter f r
  end.

End JsString.

(** ** The data model *)

(** A numeric property of a cached JSON object as the cache code can see it:
    absent, [null], a number, or (in memory only) [NaN]. *)
Inductive JsNum : Type :=
| Undefined
| Null
| Num (z : Z)
| NaN.

Global Instance JsNum_eq_dec : EqDecision JsNum.
Proof. solve_decision. Defined.

(** [x + d] for a number [d]: [null] counts as 0, an absent operand gives
    [NaN]. *)
Definition js_add (x : JsNum) (d : Z) : JsNum :=
  match x with
  | Num z => Num (z + d)
  | Null => Num d
  | Undefined | NaN => NaN
  end.

(** [Math.min(x, m)] for a number [m]. *)
Definition js_min (x : JsNum) (m : Z) : JsNum :=
  match x with
  | Num z => Num (Z.min z m)
  | Null => Num (Z.min 0 m)
  | Undefined | NaN => NaN
  end.

(** What [JSON.parse (JSON.stringify x)] makes of a numeric property. *)
Definition json_num (x : JsNum) : JsNum :=
  match x with
  | NaN => Null
  | _ => x
  end.

Record SkillRecord : Type := {
  name : string;
  level : JsNum;
  targetLevel : JsNum;
  category : option string;
  lastPracticed : option string;
  progress : JsNum
}.

Global Instance SkillRecord_eq_dec : EqDecision SkillRecord.
Proof. solve_decision. Defined.

Definition json_skill (s : SkillRecord) : SkillRecord :=
  {| name := name s;
     level := json_num (level s);
     targetLevel := json_num (targetLevel s);
     category := category s;
     lastPracticed := lastPracticed s;
     progress := json_num (progress s) |}.

(** The five entity buckets; [certifications] is absent from some objects
    of the code. *)
Record Entities : Type := {
  skills : list string;
  companies : list string;
  titles : list string;
  education : list string;
  certifications : option (list string)
}.

Module Sentiment.
Record t : Type := {
  label : string;
  score : option Q;
  allResults : list (string * option Q)
}.
End Sentiment.

Module Readability.
Record t : Type := {
  sentenceCount : Z;
  wordCount : Z;
  avgSentenceLength : option Q;
  avgWordLength : option Q;
  fleschScore : option Q;
  fleschGradeLevel : option Q;
  difficultWords : option Q
}.
End Readability.

(** What [processResume] publishes to the dashboard cache. *)
Record DashboardData : Type := {
  score : Z;
  strengths : list string;
  improvements : list string;
  keywords : list string;
  importantPhrases : list string;
  sentiment : Sentiment.t;
  readability : Readability.t;
  entities : Entities;
  lastUpdated : option string
}.

(** [{...dashboardData, skillAssessment}] *)
Record AnalysisResult : Type := {
  dashboard : DashboardData;
  skillAssessment : list SkillRecord
}.

(** The object [analyzeResumeWithAI] of [server.js] produces. *)
Module ServerAnalysis.
Record t : Type := {
  score : Z;
  strengths : list string;
  improvements : list string;
  keywords : list string;
  sentiment : string * Q;
  sentenceCount : Z;
  wordCount : Z;
  avgSentenceLength : Q;
  fleschScore : Q;
  skills : list string;
  companies : list string;
  titles : list string;
  education : list string
}.
End ServerAnalysis.

(** The terminal payload of a job: [{status, result, timestamp}] with status
    ["completed"], or [{status, error, timestamp}] with status ["failed"]. *)
Inductive JobPayload : Type :=
| Completed (result : ServerAnalysis.t) (timestamp : string)
| Failed (error : string) (timestamp : string).

Definition status (p : JobPayload) : string :=
  match p with
  | Completed _ _ => "completed"
  | Failed _ _ => "failed"
  end.

(** ** The Redis server *)

(** The text stored under a key: the JSON of a value, or text, other than
    the empty text, that [JSON.parse] refuses.  The empty text is not a
    state of the model: no setter of the code writes it, and the readers
    take it for an absent key ([if (cachedData)]). *)
Inductive Cached (A : Type) : Type :=
| Json (a : A)
| Malformed.
Arguments Json {A} a.
Arguments Malformed {A}.

(** A key's value with its expiry in seconds (['EX', n]), if it was given. *)
Record Slot (A : Type) : Type := {
  cached : Cached A;
  ex : option Z
}.
Arguments cached {A} s.
Arguments ex {A} s.

(** One key space, given here by the kind of value each key prefix holds
    (only the cache layer's own setters write, so a [skills:] key never
    holds a dashboard).  The keys are the full key strings; the [articles:]
    and [recommendations:] values are kept as their JSON text, and the
    [user:] values are plain text.  [faults] is the schedule of the
    connection: every command takes its head, and rejects when it is
    [true]; the empty schedule is a healthy connection. *)
Record Redis : Type := {
  dashboardKeys : gmap string (Slot DashboardData);
  skillsKeys : gmap string (Slot (list SkillRecord));
  articlesKeys : gmap string (Slot string);
  recommendationsKeys : gmap string (Slot string);
  nerKeys : gmap string (Slot Entities);
  resumeKeys : gmap string (Slot JobPayload);
  userKeys : gmap string (Slot string);
  faults : list bool
}.

Definition M (A : Type) : Type := Redis -> Result A * Redis.

Definition ret {A} (a : A) : M A := fun r => (Ok a, r).

Definition throw {A} (e : string) : M A := fun r => (Err e, r).

Definition bind {A B} (m : M A) (k : A -> M B) : M B :=
  fun r =>
    match m r with
    | (Ok a, r') => k a r'
    | (Err e, r') => (Err e, r')
    end.

(** [try { m } catch (error) { h error }] *)
Definition try_catch {A} (m : M A) (h : string -> M A) : M A :=
  fun r =>
    match m r with
    | (Ok a, r') => (Ok a, r')
    | (Err e, r') => h e r'
    end.

Notation "'await' x ':=' m 'in' k" := (bind m (fun x => k))
  (at level 10, x name, m at level 100, k at level 200).
Notation "'await_' m 'in' k" := (bind m (fun _ => k))
  (at level 10, m at level 100, k at level 200).

Definition with_faults (f : list bool) (r : Redis) : Redis :=
  {| dashboardKeys := dashboardKeys r; skillsKeys := skillsKeys r;
     articlesKeys := articlesKeys r; recommendationsKeys := recommendationsKeys r;
     nerKeys := nerKeys r; resumeKeys := resumeKeys r; userKeys := userKeys r;
     faults := f |}.

Definition with_dashboardKeys (m : gmap string (Slot DashboardData)) (r : Redis) : Redis :=
  {| dashboardKeys := m; skillsKeys := skillsKeys r;
     articlesKeys := articlesKeys r; recommendationsKeys := recommendationsKeys r;
     nerKeys := nerKeys r; resumeKeys := resumeKeys r; userKeys := userKeys r;
     faults := faults r |}.

Definition with_skillsKeys (m : gmap string (Slot (list SkillRecord))) (r : Redis) : Redis :=
  {| dashboardKeys := dashboardKeys r; skillsKeys := m;
     articlesKeys := articlesKeys r; recommendationsKeys := recommendationsKeys r;
     nerKeys := nerKeys r; resumeKeys := resumeKeys r; userKeys := userKeys r;
     faults := faults r |}.

Definition with_articlesKeys (m : gmap string (Slot string)) (r : Redis) : Redis :=
  {| dashboardKeys := dashboardKeys r; skillsKeys := skillsKeys r;
     articlesKeys := m; recommendationsKeys := recommendationsKeys r;
     nerKeys := nerKeys r; resumeKeys := resumeKeys r; userKeys := userKeys r;
     faults := faults r |}.

Definition with_recommendationsKeys (m : gmap string (Slot string)) (r : Redis) : Redis :=
  {| dashboardKeys := dashboardKeys r; skillsKeys := skillsKeys r;
     articlesKeys := articlesKeys r; recommendationsKeys := m;
     nerKeys := nerKeys r; resumeKeys := resumeKeys r; userKeys := userKeys r;
     faults := faults r |}.

Definition with_nerKeys (m : gmap string (Slot Entities)) (r : Redis) : Redis :=
  {| dashboardKeys := dashboardKeys r; skillsKeys := skillsKeys r;
     articlesKeys := articlesKeys r; recommendationsKeys := recommendationsKeys r;
     nerKeys := m; resumeKeys := resumeKeys r; userKeys := userKeys r;
     faults := faults r |}.

Definition with_resumeKeys (m : gmap string (Slot JobPayload)) (r : Redis) : Redis :=
  {| dashboardKeys := dashboardKeys r; skillsKeys := skillsKeys r;
     articlesKeys := articlesKeys r; recommendationsKeys := recommendationsKeys r;
     nerKeys := nerKeys r; resumeKeys := m; userKeys := userKeys r;
     faults := faults r |}.

Definition with_userKeys (m : gmap string (Slot string)) (r : Redis) : Redis :=
  {| dashboardKeys := dashboardKeys r; skillsKeys := skillsKeys r;
     articlesKeys := articlesKeys r; recommendationsKeys := recommendationsKeys r;
     nerKeys := nerKeys r; resumeKeys := resumeKeys r; userKeys := m;
     faults := faults r |}.

Definition emptyRedis : Redis :=
  {| dashboardKeys := ∅; skillsKeys := ∅; articlesKeys := ∅;
     recommendationsKeys := ∅; nerKeys := ∅; resumeKeys := ∅; userKeys := ∅;
     faults := [] |}.

(** Sending one command: the connection's next fault decides whether it
    rejects; a command that rejects has no effect on the keys. *)
Definition command {A} (run : Redis -> A * Redis) : M A :=
  fun r =>
    match faults r with
    | true :: f => (Err "redis command failed", with_faults f r)
    | false :: f => let '(a, r') := run (with_faults f r) in (Ok a, r')
    | [] => let '(a, r') := run r in (Ok a, r')
    end.

(** [if (cachedData) return JSON.parse(cachedData); return null;] on what
    a [GET] returned ([null] when the key is absent; a text that is there is
    not empty, see [Cached]).  *)
Definition parse {A} (text : option (Slot A)) : M (option A) :=
  match text with
  | None => ret None
  | Some s =>
      match cached s with
      | Json a => ret (Some a)
      | Malformed => throw "Unexpected token in JSON"
      end
  end.

(** [GET key], [SET key value 'EX' seconds] and [DEL key] on the keys of one
    kind; [SET] without expiry passes [None]. *)
Definition redisGet {A} (keys : Redis -> gmap string (Slot A)) (key : string)
  : M (option (Slot A)) :=
  command (fun r => (keys r !! key, r)).

Definition redisSet {A} (keys : Redis -> gmap string (Slot A))
    (store : gmap string (Slot A) -> Redis -> Redis)
    (key : string) (value : Cached A) (seconds : option Z) : M unit :=
  command (fun r =>
    (tt, store (<[key := {| cached := value; ex := seconds |}]> (keys r)) r)).

Definition redisDel {A} (keys : Redis -> gmap string (Slot A))
    (store : gmap string (Slot A) -> Redis -> Redis) (key : string) : M unit :=
  command (fun r => (tt, store (delete key (keys r)) r)).

(** The outcome of a promise as a value ([Promise.all] lets every member
    run even when one of them rejects). *)
Definition settle {A} (m : M A) : M (Result A) :=
  fun r => let '(x, r') := m r in (Ok x, r').

(** ** userDashboardCache.js *)

Module UserDashboardCache.

Definition DASHBOARD_CACHE_EXPIRATION : Z := 3600.
Definition SKILLS_CACHE_EXPIRATION : Z := 86400.
Definition ARTICLES_CACHE_EXPIRATION : Z := 21600.
Definition RECOMMENDATIONS_CACHE_EXPIRATION : Z := 1800.

(** Every method is [try { ... } catch (error) { console.error(...); throw
    error; }]: the handler rethrows, so the method is its [try] block. *)

Definition getDashboard (userId : string) : M (option DashboardData) :=
  await cachedData := redisGet dashboardKeys ("dashboard:" +:+ userId) in
  parse cachedData.

Definition setDashboard (userId : string) (dashboardData : DashboardData)
    (now : string) : M bool :=
  await_ redisSet dashboardKeys with_dashboardKeys ("dashboard:" +:+ userId)
    (Json dashboardData) (Some DASHBOARD_CACHE_EXPIRATION) in
  await_ redisSet userKeys with_userKeys ("user:" +:+ userId +:+ ":last_activity")
    (Json now) (Some (DASHBOARD_CACHE_EXPIRATION * 2)) in
  ret true.

Definition invalidateDashboard (userId : string) : M bool :=
  await_ redisDel dashboardKeys with_dashboardKeys ("dashboard:" +:+ userId) in
  ret true.

Definition getSkillProgress (userId : string) : M (option (list SkillRecord)) :=
  await cachedData := redisGet skillsKeys ("skills:" +:+ userId) in
  parse cachedData.

(** The callback of [skills.map] in [setSkillProgress]:
    [existingSkills.find(s => s.name === newSkill.name)] is the first
    record of that name; [{...newSkill, progress, lastPracticed}] copies the
    incoming record and overwrites the two properties. *)
Definition mergeSkill (existingSkills : list SkillRecord) (newSkill : SkillRecord)
  : SkillRecord :=
  match find (fun s => String.eqb (name s) (name newSkill)) existingSkills with
  | Some existingSkill =>
      {| name := name newSkill;
         level := level newSkill;
         targetLevel := targetLevel newSkill;
         category := category newSkill;
         lastPracticed := lastPracticed existingSkill;
         progress := progress existingSkill |}
  | None => newSkill
  end.

Definition setSkillProgress (userId : string) (skills : list SkillRecord) : M bool :=
  await existing := getSkillProgress userId in
  let existingSkills := default [] existing in
  let mergedSkills := map (mergeSkill existingSkills) skills in
  await_ redisSet skillsKeys with_skillsKeys ("skills:" +:+ userId)
    (Json (map json_skill mergedSkills)) (Some SKILLS_CACHE_EXPIRATION) in
  ret true.

(** What [this] is in a method of the module object.  [cache.method(...)]
    runs the method with the module object; a method taken off the object
    ([const { method } = require('./userDashboardCache')]) and called bare
    runs without it, and there [this.getSkillProgress] is not a function. *)
Inductive Receiver : Type :=
| ModuleObject
| Detached.

(** [this.getSkillProgress(userId)] *)
Definition thisGetSkillProgress (this : Receiver) (userId : string)
  : M (option (list SkillRecord)) :=
  match this with
  | ModuleObject => getSkillProgress userId
  | Detached => throw "this.getSkillProgress is not a function"
  end.

(** [setSkillProgress] with its receiver; with the module object it is
    [setSkillProgress] above. *)
Definition setSkillProgressFrom (this : Receiver) (userId : string)
    (skills : list SkillRecord) : M bool :=
  await existing := thisGetSkillProgress this userId in
  let existingSkills := default [] existing in
  let mergedSkills := map (mergeSkill existingSkills) skills in
  await_ redisSet skillsKeys with_skillsKeys ("skills:" +:+ userId)
    (Json (map json_skill mergedSkills)) (Some SKILLS_CACHE_EXPIRATION) in
  ret true.

(** The callback of [skills.map] in [updateSkillProgress]; [now] is
    [new Date().toISOString()]. *)
Definition bumpSkill (skillName : string) (progressDelta : Z) (now : string)
    (skill : SkillRecord) : SkillRecord :=
  if String.eqb (name skill) skillName then
    let newProgress := js_min (js_add (progress skill) progressDelta) 100 in
    {| name := name skill;
       level := level skill;
       targetLevel := targetLevel skill;
       category := category skill;
       lastPracticed := Some now;
       progress := newProgress |}
  else skill.

Definition updateSkillProgress (userId skillName : string) (progressDelta : Z)
    (now : string) : M (list SkillRecord) :=
  await existing := getSkillProgress userId in
  let skills := default [] existing in
  let updatedSkills := map (bumpSkill skillName progressDelta now) skills in
  await_ setSkillProgress userId updatedSkills in
  ret updatedSkills.

Definition invalidateSkillProgress (userId : string) : M bool :=
  await_ redisDel skillsKeys with_skillsKeys ("skills:" +:+ userId) in
  ret true.

Definition invalidateArticles (userId : string) : M bool :=
  await_ redisDel articlesKeys with_articlesKeys ("articles:" +:+ userId) in
  ret true.

Definition invalidateRecommendations (userId : string) : M bool :=
  await_ redisDel recommendationsKeys with_recommendationsKeys
    ("recommendations:" +:+ userId) in
  ret true.

(** [Promise.all] over the four invalidations: the four [DEL] commands are
    all sent, and the first rejection (if any) is rethrown. *)
Definition invalidateAllUserCaches (userId : string) : M bool :=
  await a := settle (invalidateDashboard userId) in
  await b := settle (invalidateSkillProgress userId) in
  await c := settle (invalidateArticles userId) in
  await d := settle (invalidateRecommendations userId) in
  match a, b, c, d with
  | Ok _, Ok _, Ok _, Ok _ => ret true
  | Err e, _, _, _ | _, Err e, _, _ | _, _, Err e, _ | _, _, _, Err e => throw e
  end.

(** The articles and the recommendations of a user are kept as the JSON
    text that was cached; [JSON.parse] of it is the value of that text. *)
Definition getArticles (userId : string) : M (option string) :=
  await cachedData := redisGet articlesKeys ("articles:" +:+ userId) in
  parse cachedData.

Definition setArticles (userId : string) (articles : string) : M bool :=
  await_ redisSet articlesKeys with_articlesKeys ("articles:" +:+ userId)
    (Json articles) (Some ARTICLES_CACHE_EXPIRATION) in
  ret true.

Definition getRecommendations (userId : string) : M (option string) :=
  await cachedData := redisGet recommendationsKeys ("recommendations:" +:+ userId) in
  parse cachedData.

Definition setRecommendations (userId : string) (recommendations : string) : M bool :=
  await_ redisSet recommendationsKeys with_recommendationsKeys
    ("recommendations:" +:+ userId)
    (Json recommendations) (Some RECOMMENDATIONS_CACHE_EXPIRATION) in
  ret true.

(** The object [getUserData] resolves to. *)
Module UserData.
Record t : Type := {
  dashboard : option DashboardData;
  skills : option (list SkillRecord);
  articles : option string;
  recommendations : option string
}.
End UserData.

(** [Promise.all] over the four reads: the four [GET] commands are all
    sent, and the first rejection (if any) is rethrown. *)
Definition getUserData (userId : string) : M UserData.t :=
  await a := settle (getDashboard userId) in
  await b := settle (getSkillProgress userId) in
  await c := settle (getArticles userId) in
  await d := settle (getRecommendations userId) in
  match a, b, c, d with
  | Ok dashboard, Ok skills, Ok articles, Ok recommendations =>
      ret {| UserData.dashboard := dashboard; UserData.skills := skills;
             UserData.articles := articles;
             UserData.recommendations := recommendations |}
  | Err e, _, _, _ | _, Err e, _, _ | _, _, Err e, _ | _, _, _, Err e => throw e
  end.

End UserDashboardCache.

(** ** server.js: the job processor and the job-result route *)

Module Server.

Definition analyzeResumeWithAI : ServerAnalysis.t :=
  {| ServerAnalysis.score := 85;
     ServerAnalysis.strengths := ["Strong technical skills"; "Good work experience"];
     ServerAnalysis.improvements := ["Add more metrics"; "Include more soft skills"];
     ServerAnalysis.keywords := ["javascript"; "nodejs"; "mongodb"];
     ServerAnalysis.sentiment := ("positive", 95 # 100);
     ServerAnalysis.sentenceCount := 42;
     ServerAnalysis.wordCount := 350;
     ServerAnalysis.avgSentenceLength := 83 # 10;
     ServerAnalysis.fleschScore := 72 # 1;
     ServerAnalysis.skills := ["JavaScript"; "Node.js"; "MongoDB"];
     ServerAnalysis.companies := ["Tech Corp"; "Dev Solutions"];
     ServerAnalysis.titles := ["Senior Developer"; "Team Lead"];
     ServerAnalysis.education := ["Computer Science Degree"] |}.

(** The key the processor writes the terminal payload under, and the key
    the route reads. *)
Definition processorKey (userId jobId : string) : string :=
  "resume:" +:+ userId +:+ ":" +:+ jobId.

Definition routeKey (jobId : string) : string := "resume:" +:+ jobId.

(** [resumeQueue.process(5, async (job) => ...)].  [collaborators] is the
    outcome of the steps that do not touch Redis (reading the upload,
    saving the [ResumeAnalysis] document, updating the [User] document);
    [t1] and [t2] are the clock readings of the [try] and the [catch]
    block.  The [finally] block only removes the upload. *)
Definition processJob (collaborators : Result unit) (userId jobId : string)
    (t1 t2 : string) : M ServerAnalysis.t :=
  try_catch
    (match collaborators with
     | Err e => throw e
     | Ok _ =>
         let analysisResult := analyzeResumeWithAI in
         await_ redisSet resumeKeys with_resumeKeys (processorKey userId jobId)
           (Json (Completed analysisResult t1)) None in
         await_ UserDashboardCache.invalidateAllUserCaches userId in
         ret analysisResult
     end)
    (fun error =>
       await_ redisSet resumeKeys with_resumeKeys (processorKey userId jobId)
         (Json (Failed error t2)) None in
       throw error).

Inductive Response : Type :=
| Status200 (body : JobPayload)
| Status404
| Status500.

(** [app.get('/api/resume-analysis/:jobId', ...)] *)
Definition getResumeAnalysis (jobId : string) : M Response :=
  try_catch
    (await result := redisGet resumeKeys (routeKey jobId) in
     match result with
     | None => ret Status404
     | Some _ =>
         await body := parse result in
         match body with
         | Some payload => ret (Status200 payload)
         | None => ret Status404
         end
     end)
    (fun _ => ret Status500).

End Server.

(** ** Arrays and plain objects *)

(** [Array.prototype.sort(compare)] with a comparator given by "[compare a b]
    is positive": a stable insertion sort, which is the order every stable
    sort produces when the comparator is consistent.  A comparator result of
    [NaN] counts as 0, as [SortCompare] has it; a comparator with such
    results is not consistent, and the order of three or more entries then
    depends on the algorithm of the engine: what is proved of an order below
    is proved for a consistent comparator or for two entries. *)
Section Sort.
Context {A : Type} (after : A -> A -> bool).

Fixpoint sortInsert (x : A) (l : list A) : list A :=
  match l with
  | [] => [x]
  | y :: r => if after x y then y :: sortInsert x r else x :: y :: r
  end.

Fixpoint sort (l : list A) : list A :=
  match l with
  | [] => []
  | x :: r => sortInsert x (sort r)
  end.
End Sort.

(** [[...new Set(l)]]: the first occurrence of every string, in order. *)
Fixpoint uniqueFrom (seen l : list string) : list string :=
  match l with
  | [] => []
  | x :: r =>
      if bool_decide (x ∈ seen) then uniqueFrom seen r
      else x :: uniqueFrom (x :: seen) r
  end.

Definition unique (l : list string) : list string := uniqueFrom [] l.

(** The value of a property of the counter object [wordFreq]: a number, or
    the text that [+ 1] makes of a value that is not a number. *)
Inductive Count : Type :=
| Times (n : Z)
| Text (s : string).

(** A plain object [{}] inherits the properties of [Object.prototype]: a
    read of one of these names on an object that has no own property of
    that name yields a function, whose text is given here. *)
Definition objectPrototype : list (string * string) :=
  [ ("constructor", "function Object() { [native code] }");
    ("hasOwnProperty", "function hasOwnProperty() { [native code] }");
    ("isPrototypeOf", "function isPrototypeOf() { [native code] }");
    ("propertyIsEnumerable", "function propertyIsEnumerable() { [native code] }");
    ("toLocaleString", "function toLocaleString() { [native code] }");
    ("toString", "function toString() { [native code] }");
    ("valueOf", "function valueOf() { [native code] }");
    ("__defineGetter__", "function __defineGetter__() { [native code] }");
    ("__defineSetter__", "function __defineSetter__() { [native code] }");
    ("__lookupGetter__", "function __lookupGetter__() { [native code] }");
    ("__lookupSetter__", "function __lookupSetter__() { [native code] }") ].

Definition lookupAssoc {V} (key : string) (l : list (string * V)) : option V :=
  snd <$> find (fun kv => String.eqb (fst kv) key) l.

(** The own properties of the counter object in insertion order, which is
    the order of [Object.entries] for keys that are not array indices (a
    key with a digit never gets here). *)
Fixpoint setProperty (key : string) (v : Count) (o : list (string * Count))
  : list (string * Count) :=
  match o with
  | [] => [(key, v)]
  | (k, w) :: r =>
      if String.eqb k key then (k, v) :: r else (k, w) :: setProperty key v r
  end.

(** [wordFreq[word] = (wordFreq[word] || 0) + 1].  An own property is a
    number (it is never 0) or a text (never empty); an inherited function is
    truthy and [+ 1] appends to its text; [__proto__] reads as an object and
    assigning a string to it is ignored. *)
Definition countWord (o : list (string * Count)) (word : string)
  : list (string * Count) :=
  if String.eqb word "__proto__" then o
  else
    match lookupAssoc word o with
    | Some (Times n) => setProperty word (Times (n + 1)) o
    | Some (Text s) => setProperty word (Text (s +:+ "1")) o
    | None =>
        match lookupAssoc word objectPrototype with
        | Some f => setProperty word (Text (f +:+ "1")) o
        | None => setProperty word (Times 1) o
        end
    end.

(** [(a, b) => b[1] - a[1]] is positive: both counts are numbers and [b]'s
    is the larger; with a text the difference is [NaN]. *)
Definition byCountDescending (a b : string * Count) : bool :=
  match snd a, snd b with
  | Times x, Times y => x <? y
  | _, _ => false
  end.

(** ** nerProcessor.js *)

Module NerProcessor.
Import JsString.

Definition NER_MODEL : string := "dslim/bert-base-NER".
Definition CACHE_EXPIRATION : Z := 86400.

(** The argument of [extractEntities]: a string, or any other value. *)
Inductive Input : Type :=
| Str (s : string)
| NotAString.

(** One element of the inference service's answer; a property that is
    missing or not a string is the empty string here (the code skips both). *)
Record NerItem : Type := { word : string; entity : string }.

(** [response.data]: a falsy value, a truthy value that is not an array, or
    an array. *)
Inductive NerData : Type :=
| Falsy
| NotArray
| Items (items : list NerItem).

Definition emptyEntities : Entities :=
  {| skills := []; companies := []; titles := []; education := [];
     certifications := Some [] |}.

(** [text.replace(/^##/, '').replace(/[^\w\s-]/g, '').trim()] *)
Definition cleanEntityText (text : string) : string :=
  let text := match text with
              | String "#" (String "#" r) => r
              | _ => text
              end in
  trim (filter (fun c => isWord c || isSpace c || Ascii.eqb c "-") text).

Definition isEducationalInstitution (text : string) : bool :=
  let eduKeywords := ["university"; "college"; "institute"; "school"; "academy"] in
  negb (String.eqb text "") &&
  List.existsb (fun keyword => includes (toLowerCase text) keyword) eduKeywords.

Definition isLikelyTitle (text : string) : bool :=
  let titleKeywords := ["engineer"; "developer"; "manager"; "director"; "specialist"] in
  negb (String.eqb text "") &&
  List.existsb (fun keyword => includes (toLowerCase text) keyword) titleKeywords.

Definition certs (e : Entities) : list string := default [] (certifications e).

Definition pushSkill (t : string) (e : Entities) : Entities :=
  {| skills := skills e ++ [t]; companies := companies e; titles := titles e;
     education := education e; certifications := certifications e |}.
Definition pushCompany (t : string) (e : Entities) : Entities :=
  {| skills := skills e; companies := companies e ++ [t]; titles := titles e;
     education := education e; certifications := certifications e |}.
Definition pushTitle (t : string) (e : Entities) : Entities :=
  {| skills := skills e; companies := companies e; titles := titles e ++ [t];
     education := education e; certifications := certifications e |}.
Definition pushEducation (t : string) (e : Entities) : Entities :=
  {| skills := skills e; companies := companies e; titles := titles e;
     education := education e ++ [t]; certifications := certifications e |}.
Definition pushCertification (t : string) (e : Entities) : Entities :=
  {| skills := skills e; companies := companies e; titles := titles e;
     education := education e; certifications := Some (certs e ++ [t]) |}.

Definition oneOf (tag a b : string) : bool := String.eqb tag a || String.eqb tag b.

(** The body of [entities.forEach(entity => ...)]. *)
Definition classify (result : Entities) (item : NerItem) : Entities :=
  if String.eqb (word item) "" || String.eqb (entity item) "" then result
  else
    let text := cleanEntityText (word item) in
    if String.eqb text "" then result
    else if oneOf (entity item) "B-TECH" "I-TECH" then
      if (1 <? String.length text)%nat then pushSkill text result else result
    else if oneOf (entity item) "B-ORG" "I-ORG" then
      if isEducationalInstitution text then pushEducation text result
      else pushCompany text result
    else if oneOf (entity item) "B-PER" "I-PER" then
      if isLikelyTitle text then pushTitle text result else result
    else if oneOf (entity item) "B-EDU" "I-EDU" then pushEducation text result
    else if oneOf (entity item) "B-CERT" "I-CERT" then pushCertification text result
    else result.

(** What the closing [Object.keys(result).forEach] does to one bucket. *)
Definition dedupe (bucket : list string) : list string :=
  unique
    (List.filter (fun text => (1 <? String.length text)%nat)
       (map cleanEntityText
          (List.filter (fun item => negb (String.eqb item "")) bucket))).

Definition processNERResults (data : NerData) : Entities :=
  match data with
  | Items items =>
      let result := foldl classify emptyEntities items in
      {| skills := dedupe (skills result);
         companies := dedupe (companies result);
         titles := dedupe (titles result);
         education := dedupe (education result);
         certifications := Some (dedupe (certs result)) |}
  | _ => emptyEntities
  end.

(** The longest prefix of [s] whose characters satisfy [f], and the rest. *)
Fixpoint span (f : ascii -> bool) (s : string) : string * string :=
  match s with
  | String c r =>
      if f c then let '(a, b) := span f r in (String c a, b) else (EmptyString, s)
  | EmptyString => (EmptyString, EmptyString)
  end.

(** [p] at the start of [s], letters compared without case (the [i] flag);
    yields the matched text and the rest. *)
Fixpoint prefixNoCase (p s : string) : option (string * string) :=
  match p, s with
  | EmptyString, _ => Some (EmptyString, s)
  | String a p', String b s' =>
      if Ascii.eqb a (lowerChar b) && between 0 127 b then
        match prefixNoCase p' s' with
        | Some (m, rest) => Some (String b m, rest)
        | None => None
        end
      else None
  | String _ _, EmptyString => None
  end.

(** A match of [\s+] followed by [[A-Z][a-zA-Z]+] (with [first] the class
    of the first letter) at the start of [s]: the captured name and the
    length of what was matched. *)
Definition spacesThenName (first : ascii -> bool) (s : string)
  : option (string * nat) :=
  let '(ws, rest) := span isSpace s in
  match ws, rest with
  | String _ _, String c r =>
      if first c then
        let '(letters, _) := span isLetter r in
        match letters with
        | String _ _ => Some (String c letters, (String.length ws + 1 + String.length letters)%nat)
        | EmptyString => None
        end
      else None
  | _, _ => None
  end.

(** [/at\s+([A-Z][a-zA-Z]+)/] at the start of [s]: [match[1]] and the
    length of [match[0]]. *)
Definition companyPattern (s : string) : option (string * nat) :=
  match s with
  | String "a" (String "t" r) =>
      match spacesThenName isUpper r with
      | Some (company, n) => Some (company, (2 + n)%nat)
      | None => None
      end
  | _ => None
  end.

(** [/(university|college)\s+of\s+([A-Z][a-zA-Z]+)/i] at the start of [s]:
    [match[1]], which is the first group, and the length of [match[0]]. *)
Definition educationPattern (s : string) : option (string * nat) :=
  let head :=
    match prefixNoCase "university" s with
    | Some m => Some m
    | None => prefixNoCase "college" s
    end in
  match head with
  | Some (kind, r) =>
      let '(ws, r1) := span isSpace r in
      match ws, prefixNoCase "of" r1 with
      | String _ _, Some (_, r2) =>
          match spacesThenName isLetter r2 with
          | Some (_, n) => Some (kind, (String.length kind + String.length ws + 2 + n)%nat)
          | None => None
          end
      | _, _ => None
      end
  | None => None
  end.

(** The [while ((match = pattern.exec(text)) !== null)] loop of a global
    pattern: the matches from left to right, each search starting where the
    last match ended.  [skip] counts the characters of the last match that
    are still to be passed. *)
Fixpoint execAll (pattern : string -> option (string * nat)) (skip : nat)
    (text : string) : list string :=
  match text with
  | EmptyString => []
  | String _ r =>
      match skip with
      | S k => execAll pattern k r
      | O =>
          match pattern text with
          | Some (group, n) => trim group :: execAll pattern (Nat.pred n) r
          | None => execAll pattern 0 r
          end
      end
  end.

Definition extractByPattern (text : string)
    (pattern : string -> option (string * nat)) : list string :=
  unique (List.filter (fun m => negb (String.eqb m "")) (execAll pattern 0 text)).

Definition fallbackEntityExtraction (text : Input) : Entities :=
  match text with
  | Str text =>
      if String.eqb text "" then emptyEntities
      else
        let techKeywords :=
          ["javascript"; "react"; "node"; "python"; "java"; "html"; "css"] in
        {| skills := List.filter (fun skill => includes (toLowerCase text) skill)
                       techKeywords;
           companies := extractByPattern text companyPattern;
           titles := [];
           education := extractByPattern text educationPattern;
           certifications := Some [] |}
  | NotAString => emptyEntities
  end.

(** [x | 0] *)
Definition toInt32 (x : Z) : Z := (x + 2 ^ 31) mod 2 ^ 32 - 2 ^ 31.

Fixpoint hashLoop (hash : Z) (text : string) : Z :=
  match text with
  | EmptyString => hash
  | String c r =>
      hashLoop (toInt32 (toInt32 (Z.shiftl hash 5) - hash + Z.of_N (code c))) r
  end.

(** [hash.toString(16)] *)
Definition toString16 (x : Z) : string :=
  let digits := HexadecimalString.NilZero.string_of_uint (N.to_hex_uint (Z.to_N (Z.abs x))) in
  if x <? 0 then "-" +:+ digits else digits.

Definition hashText (text : string) : string :=
  if String.eqb text "" then "empty" else toString16 (hashLoop 0 text).

Section ExtractEntities.
(** The inference service: what [axios.post] resolves to for a text, or the
    error it rejects with (time-out, network or HTTP error). *)
Context (inference : string -> Result NerData).

(** The [try] block of [extractEntities] from the call of the service on:
    a rejected call or a falsy [response.data] throws; a failure to cache
    the result is only logged. *)
Definition callService (text cacheKey : string) : M Entities :=
  match inference text with
  | Err e => throw e
  | Ok Falsy => throw "No data received from Hugging Face API"
  | Ok data =>
      let entities := processNERResults data in
      await_ try_catch
        (redisSet nerKeys with_nerKeys cacheKey (Json entities)
           (Some CACHE_EXPIRATION))
        (fun _ => ret tt) in
      ret entities
  end.

Definition extractEntities (resumeText : Input) : M Entities :=
  try_catch
    (match resumeText with
     | NotAString => throw "Invalid resume text provided"
     | Str text =>
         if String.eqb text "" || String.eqb (trim text) "" then
           throw "Invalid resume text provided"
         else
           let cacheKey := "ner:" +:+ hashText text in
           await hit := redisGet nerKeys cacheKey in
           match hit with
           | Some slot =>
               match cached slot with
               | Json entities => ret entities
               | Malformed =>
                   await_ redisDel nerKeys with_nerKeys cacheKey in
                   callService text cacheKey
               end
           | None => callService text cacheKey
           end
     end)
    (fun _ => ret (fallbackEntityExtraction resumeText)).

End ExtractEntities.

End NerProcessor.

(** ** processResume.js *)

Module ProcessResume.
Import JsString.

(** [x > y] and [x < y] for a property [x] that may be absent or [NaN]
    (either makes the comparison false) and a number [y]. *)
Definition gt (x : option Q) (y : Q) : bool :=
  match x with
  | Some q => negb (Qle_bool q y)
  | None => false
  end.

Definition lt (x : option Q) (y : Q) : bool :=
  match x with
  | Some q => negb (Qle_bool y q)
  | None => false
  end.

Definition count {A} (l : list A) : Z := Z.of_nat (length l).

(** [`${n}`] *)
Definition show (n : nat) : string :=
  DecimalString.NilZero.string_of_uint (Nat.to_uint n).

(** [Math.round] *)
Definition round (x : Q) : Z := Qfloor (x + (1 # 2)).

Definition calculateScore (sentiment : Sentiment.t) (entities : Entities)
    (readability : Readability.t) (keywordCount : Z) : Q :=
  let score : Q := 70%Q in
  let score :=
    if String.eqb (Sentiment.label sentiment) "joy"
       && gt (Sentiment.score sentiment) (7 # 10)
    then (score + 10)%Q else score in
  let score :=
    if gt (Readability.fleschScore readability) 60%Q then (score + 5)%Q else score in
  let score :=
    if lt (Readability.avgSentenceLength readability) 20%Q
    then (score + 5)%Q else score in
  let score := (score + Qmin (inject_Z (count (skills entities) * 2)) 20)%Q in
  let score := (score + Qmin (inject_Z (count (companies entities) * 1)) 10)%Q in
  let score := (score + Qmin (inject_Z keywordCount * (1 # 2)) 10)%Q in
  Qmin (Qmax score 0%Q) 100%Q.

(** [draw] is the value of [Math.random()]. *)
Definition calculateSkillLevel (draw : Q) (skillName : string) : Z :=
  let baseLevel := Z.min (Qfloor (draw * 30%Q) + 50) 90 in
  let bonus := Z.of_nat (String.length skillName) mod 20 in
  Z.min (baseLevel + bonus) 100.

Definition categories : list (string * list string) :=
  [ ("programming", ["javascript"; "python"; "java"; "c++"; "typescript"; "go"; "rust"]);
    ("frontend", ["react"; "angular"; "vue"; "html"; "css"; "sass"]);
    ("backend", ["node"; "express"; "django"; "flask"; "spring"; "laravel"]);
    ("database", ["mysql"; "postgresql"; "mongodb"; "redis"; "sqlite"]);
    ("devops", ["docker"; "kubernetes"; "aws"; "azure"; "gcp"; "terraform"]);
    ("soft", ["communication"; "leadership"; "teamwork"; "problem solving"]) ].

Definition getSkillCategory (skillName : string) : string :=
  let lowerSkill := toLowerCase skillName in
  match find (fun entry => List.existsb (fun s => includes lowerSkill s) (snd entry))
             categories with
  | Some (category, _) => category
  | None => "other"
  end.

(** [random i] is the [i]-th value [Math.random()] returns during the call
    and [now] is [new Date().toISOString()]. *)
Definition assessSkills (random : nat -> Q) (now : string) (skills : list string)
  : list SkillRecord :=
  imap (fun i skill =>
          let level := calculateSkillLevel (random i) skill in
          {| name := skill;
             level := Num level;
             targetLevel := Num (if level <? 80 then level + 20 else 100);
             category := Some (getSkillCategory skill);
             lastPracticed := Some now;
             progress := Num 0 |})
       skills.

Definition findStrengths (entities : Entities) (keywords phrases : list string)
  : list string :=
  let strengths :=
    (if 5 <? count (skills entities)
     then ["Strong technical skills (" +:+ show (length (skills entities))
             +:+ " skills identified)"] else [])
    ++ (if 0 <? count (companies entities)
        then ["Professional experience at " +:+ show (length (companies entities))
                +:+ " companies"] else [])
    ++ (if 0 <? count (education entities)
        then ["Strong educational background (" +:+ show (length (education entities))
                +:+ " institutions)"] else [])
    ++ (if 10 <? count keywords then ["Rich in relevant keywords"] else [])
    ++ (if 5 <? count phrases
        then ["Well-articulated professional experience"] else []) in
  if 0 <? count strengths then strengths else ["Well-structured resume"].

Definition findImprovements (sentiment : Sentiment.t) (entities : Entities)
    (readability : Readability.t) : list string :=
  let improvements :=
    (if String.eqb (Sentiment.label sentiment) "anger"
        || String.eqb (Sentiment.label sentiment) "sadness"
     then ["Consider more positive and professional language"] else [])
    ++ (if count (skills entities) <? 3
        then ["Add more technical skills to stand out"] else [])
    ++ (if count (companies entities) =? 0
        then ["Include company names for better credibility"] else [])
    ++ (if gt (Readability.avgSentenceLength readability) 25%Q
        then ["Shorten long sentences for better readability"] else [])
    ++ (if lt (Readability.fleschScore readability) 60%Q
        then ["Simplify language to make resume more accessible"] else []) in
  if 0 <? count improvements then improvements else ["Minor formatting suggestions"].

Definition neutralSentiment : Sentiment.t :=
  {| Sentiment.label := "neutral"; Sentiment.score := Some 1%Q;
     Sentiment.allResults := [] |}.

Definition fallbackAnalysis : AnalysisResult :=
  {| dashboard :=
       {| score := 70;
          strengths := ["Basic structure is good"];
          improvements := ["Could not perform full analysis - try again later"];
          keywords := [];
          importantPhrases := [];
          sentiment := neutralSentiment;
          readability :=
            {| Readability.sentenceCount := 0;
               Readability.wordCount := 0;
               Readability.avgSentenceLength := Some 0%Q;
               Readability.avgWordLength := Some 0%Q;
               Readability.fleschScore := Some 0%Q;
               Readability.fleschGradeLevel := Some 0%Q;
               Readability.difficultWords := Some 0%Q |};
          entities :=
            {| skills := []; companies := []; titles := []; education := [];
               certifications := None |};
          lastUpdated := None |};
     skillAssessment := [] |}.

Definition lift {A} (x : Result A) : M A := fun r => (x, r).

Section Pipeline.
(** The collaborators of the pipeline.  Each is given by its outcome:
    the file readers and decoders, the sentiment service (the array in
    [response.data]), the entity inference service, the [natural] library
    (sentence and word tokenizers, text statistics, the tokenizer and the
    stop-word list of [extractKeywords]) and [extractImportantPhrases],
    whose part-of-speech tagging is not modelled. *)
Context (readPdf readDocx readPlain : string -> Result string)
        (sentimentService : string -> Result (list (string * option Q)))
        (inference : string -> Result NerProcessor.NerData)
        (sentenceTokenize wordTokenize : string -> Result (list string))
        (textStatistics : string -> Result (option Q * option Q * option Q))
        (tokenize : string -> list string)
        (stopwords : list string)
        (extractImportantPhrases : string -> Result (list string))
        (random : nat -> Q).

Definition extractTextFromFile (filePath fileType : string) : Result string :=
  if String.eqb fileType "application/pdf" then readPdf filePath
  else if String.eqb fileType
            "application/vnd.openxmlformats-officedocument.wordprocessingml.document"
  then readDocx filePath
  else if String.eqb fileType "text/plain" then readPlain filePath
  else Err "Unsupported file type".

Definition analyzeSentiment (text : string) : Sentiment.t :=
  match sentimentService text with
  | Ok results =>
      match results with
      | (label, score) :: _ =>
          {| Sentiment.label := label; Sentiment.score := score;
             Sentiment.allResults := results |}
      | [] =>
          {| Sentiment.label := "neutral"; Sentiment.score := Some 1%Q;
             Sentiment.allResults := results |}
      end
  | Err _ => neutralSentiment
  end.

Definition calculateReadability (text : string) : Result Readability.t :=
  match sentenceTokenize text with
  | Err e => Err e
  | Ok sentences =>
      match wordTokenize text with
      | Err e => Err e
      | Ok words =>
          match textStatistics text with
          | Err e => Err e
          | Ok (flesch, grade, difficult) =>
              Ok {| Readability.sentenceCount := count sentences;
                    Readability.wordCount := count words;
                    Readability.avgSentenceLength :=
                      Some (inject_Z (count words)
                            / inject_Z (Z.max (count sentences) 1))%Q;
                    Readability.avgWordLength :=
                      Some (inject_Z (Z.of_nat (String.length (String.concat "" words)))
                            / inject_Z (Z.max (count words) 1))%Q;
                    Readability.fleschScore := flesch;
                    Readability.fleschGradeLevel := grade;
                    Readability.difficultWords := difficult |}
          end
      end
  end.

(** The filter of [extractKeywords]:
    [word.length > 3 && !stopwords.has(word) && !/\d/.test(word)]. *)
Definition keep (word : string) : bool :=
  (3 <? String.length word)%nat
  && negb (bool_decide (word ∈ stopwords))
  && negb (existsb isDigit word).

Definition filteredWords (text : string) : list string :=
  List.filter keep (tokenize (toLowerCase text)).

Definition wordFreq (text : string) : list (string * Count) :=
  foldl countWord [] (filteredWords text).

Definition extractKeywords (text : string) : list string :=
  map fst (sort byCountDescending (wordFreq text)).

(** The [try] block of [processResume].  [setDashboard] and
    [setSkillProgress] are taken off the module object
    ([const { setDashboard, setSkillProgress } = require('./userDashboardCache')])
    and called bare: [setDashboard] does not use [this], [setSkillProgress]
    does. *)
Definition analyse (filePath fileType userId now : string) : M AnalysisResult :=
  await resumeText := lift (extractTextFromFile filePath fileType) in
  let sentimentAnalysis := analyzeSentiment resumeText in
  await entities :=
    NerProcessor.extractEntities inference (NerProcessor.Str resumeText) in
  await readability := lift (calculateReadability resumeText) in
  let keywords := extractKeywords resumeText in
  await importantPhrases := lift (extractImportantPhrases resumeText) in
  let score :=
    calculateScore sentimentAnalysis entities readability (count keywords) in
  let strengths := findStrengths entities keywords importantPhrases in
  let improvements := findImprovements sentimentAnalysis entities readability in
  let skillAssessment := assessSkills random now (skills entities) in
  let dashboardData :=
    {| score := round score;
       strengths := strengths;
       improvements := improvements;
       keywords := take 20 keywords;
       importantPhrases := take 10 importantPhrases;
       sentiment := sentimentAnalysis;
       readability := readability;
       entities := entities;
       lastUpdated := Some now |} in
  await_ UserDashboardCache.setDashboard userId dashboardData now in
  await_ UserDashboardCache.setSkillProgressFrom UserDashboardCache.Detached
    userId skillAssessment in
  ret {| dashboard := dashboardData; skillAssessment := skillAssessment |}.

(** [try { ... } catch (error) { console.error(...); return
    fallbackAnalysis(); }] around the whole body. *)
Definition processResume (filePath fileType userId now : string)
  : M AnalysisResult :=
  try_catch (analyse filePath fileType userId now) (fun _ => ret fallbackAnalysis).

End Pipeline.

End ProcessResume.

(** ** The content prioritizer (the module that exports [fetchDevBlogs]) *)

Module FetchDevBlogs.
Import JsString.

(** The common article shape both sources are transformed into.
    [publishedAt] is the time [new Date(...)] makes of the property, in
    milliseconds ([None] for an invalid date); [readingTime] is [None] when
    the property is absent. *)
Record Article : Type := {
  title : string;
  url : string;
  description : string;
  tag : string;
  image : string;
  publishedAt : option Z;
  readingTime : option Z;
  source : string
}.

(** An element of [prioritizedSkills]. *)
Module Prioritized.
Record t : Type := { name : string; gap : Z; category : string }.
End Prioritized.

(** [x || d] for a numeric property. *)
Definition orElse (x : JsNum) (d : Z) : Z :=
  match x with
  | Num z => if z =? 0 then d else z
  | _ => d
  end.

(** The [map], [filter], [sort] and [slice(0, 5)] that open
    [fetchDevBlogs]. *)
Definition prioritize (userSkills : list SkillRecord) : list Prioritized.t :=
  take 5
    (sort (fun a b => Prioritized.gap a <? Prioritized.gap b)
       (List.filter (fun skill => 0 <? Prioritized.gap skill)
          (map (fun skill =>
                  {| Prioritized.name := toLowerCase (name skill);
                     Prioritized.gap :=
                       orElse (targetLevel skill) 50 - orElse (level skill) 0;
                     Prioritized.category :=
                       match category skill with
                       | Some c => if String.eqb c "" then "other" else c
                       | None => "other"
                       end |})
               userSkills))).

Definition msPerDay : Q := inject_Z (1000 * 60 * 60 * 24).

(** [now] is [Date.now()].  The numbers are rationals and the sums exact;
    the code adds doubles in the same order. *)
Definition calculateRelevance (now : Z) (skill : Prioritized.t) (article : Article)
  : Q :=
  let relevance : Q := (inject_Z (Prioritized.gap skill) / 100)%Q in
  let relevance :=
    if String.eqb (toLowerCase (tag article)) (toLowerCase (Prioritized.name skill))
    then (relevance + (3 # 10))%Q else relevance in
  let relevance :=
    match publishedAt article with
    | Some published =>
        let daysOld := (inject_Z (now - published) / msPerDay)%Q in
        if negb (Qle_bool 7%Q daysOld) then (relevance + (2 # 10))%Q else relevance
    | None => relevance
    end in
  let relevance :=
    match readingTime article with
    | Some minutes =>
        if (5 <=? minutes) && (minutes <=? 15) then (relevance + (1 # 10))%Q
        else relevance
    | None => relevance
    end in
  Qmin relevance 1%Q.

(** An element of [allArticles], and of the list [fetchDevBlogs] returns. *)
Record Candidate : Type := {
  article : Article;
  relevance : Q;
  skill : string;
  category : string
}.

(** [deduplicateArticles]: [uniqueUrls] is the [Set] of the urls seen so
    far; an article is kept when its url is not in it. *)
Fixpoint deduplicateFrom (uniqueUrls : gset string) (articles : list Article)
  : list Article :=
  match articles with
  | [] => []
  | article :: rest =>
      if bool_decide (url article ∈ uniqueUrls) then deduplicateFrom uniqueUrls rest
      else article :: deduplicateFrom ({[url article]} ∪ uniqueUrls) rest
  end.

Definition deduplicateArticles (articles : list Article) : list Article :=
  deduplicateFrom ∅ articles.

(** The names [module.exports] of [userDashboardCache.js] holds. *)
Definition userDashboardCacheExports : list string :=
  [ "getDashboard"; "setDashboard"; "invalidateDashboard";
    "getSkillProgress"; "setSkillProgress"; "updateSkillProgress";
    "invalidateSkillProgress";
    "getArticles"; "setArticles"; "invalidateArticles";
    "getRecommendations"; "setRecommendations"; "invalidateRecommendations";
    "getUserData"; "invalidateAllUserCaches";
    "getUserActivity"; "getAllUserKeys"; "closeConnection" ].

(** [const { name } = require('./userDashboardCache')] is a function when
    the module exports the name, and [undefined] otherwise. *)
Definition imported (name : string) : bool :=
  bool_decide (name ∈ userDashboardCacheExports).

(** [fetchDevBlogs(userId, skills)]; [skills] is [None] for a falsy
    argument.  The module takes [getSkillProgress], [redisGet] and
    [redisSet] from [userDashboardCache.js].  [rest] stands for the
    statements from the cache check on (the reads of the per-skill caches,
    the fetches, the ranking): they start with a call of [redisGet], and
    calling [undefined] throws a [TypeError]. *)
Definition fetchDevBlogs (rest : list Prioritized.t -> M (list Candidate))
    (userId : string) (skills : option (list SkillRecord)) : M (list Candidate) :=
  try_catch
    (await cached := UserDashboardCache.getSkillProgress userId in
     let userSkills :=
       match cached with
       | Some cachedSkills => cachedSkills
       | None => default [] skills
       end in
     let prioritizedSkills := prioritize userSkills in
     match prioritizedSkills with
     | [] => ret []
     | _ :: _ =>
         if imported "redisGet" then rest prioritizedSkills
         else throw "redisGet is not a function"
     end)
    (fun _ => ret []).

End FetchDevBlogs.

(** ** redisClient.js *)

Module RedisClient.

(** [reconnectStrategy(retries)]: the delay in milliseconds before the next
    attempt to connect, or the [Error] that ends the attempts. *)
Definition reconnectStrategy (retries : Z) : Result Z :=
  if 10 <? retries then Err "Too many retries"
  else Ok (Z.min (retries * 100) 5000).

End RedisClient.

(* ===================================================================== *)
(** * Part II: the vocabulary of the claims and the data of the examples    *)
(* ===================================================================== *)

(** ** The vocabulary of the cache claims *)

(** What the cache holds for a user's skills: the parsed array, or nothing
    when the key is absent. *)
Definition cachedSkills (userId : string) (r : Redis) : option (list SkillRecord) :=
  match skillsKeys r !! ("skills:" +:+ userId) with
  | Some {| cached := Json l |} => Some l
  | _ => None
  end.

(** [e] is the first record named [nm] in [l]. *)
Definition firstNamed (nm : string) (l : list SkillRecord) (e : SkillRecord) : Prop :=
  exists i, l !! i = Some e /\ name e = nm
            /\ forall j e', (j < i)%nat -> l !! j = Some e' -> name e' <> nm.

Definition cacheOf (userId : string) (l : list SkillRecord) : Redis :=
  with_skillsKeys
    {[ "skills:" +:+ userId := {| cached := Json l; ex := Some 86400 |} ]} emptyRedis.

Definition goCached : SkillRecord :=
  {| name := "go"; level := Undefined; targetLevel := Undefined; category := None;
     lastPracticed := Some "2025-07-01T09:00:00.000Z"; progress := Num 40 |}.

Definition goIncoming : SkillRecord :=
  {| name := "go"; level := Num 70; targetLevel := Undefined; category := None;
     lastPracticed := None; progress := Undefined |}.

Definition goMerged : SkillRecord :=
  {| name := "go"; level := Num 70; targetLevel := Undefined; category := None;
     lastPracticed := Some "2025-07-01T09:00:00.000Z"; progress := Num 40 |}.

Definition goPractised : SkillRecord :=
  {| name := "go"; level := Num 50; targetLevel := Num 70;
     category := Some "programming";
     lastPracticed := Some "2025-07-01T09:00:00.000Z"; progress := Num 40 |}.

Definition goBumped : SkillRecord :=
  {| name := "go"; level := Num 50; targetLevel := Num 70;
     category := Some "programming";
     lastPracticed := Some "2025-07-14T12:00:00.000Z"; progress := Num 50 |}.

(** ** The vocabulary of the scoring claims *)

Definition points (b : bool) (p : Q) : Q := if b then p else 0%Q.

(** The sentiment label is the positive class (["joy"]) with a confidence
    above 0.7. *)
Definition positiveSentiment (s : Sentiment.t) : bool :=
  String.eqb (Sentiment.label s) "joy" && ProcessResume.gt (Sentiment.score s) (7 # 10).

Definition clamp (lo hi x : Q) : Q := Qmin (Qmax x lo) hi.

(** The formula of the specification, before the clamp. *)
Definition scoreFormula (s : Sentiment.t) (e : Entities) (rd : Readability.t)
    (keywordCount : Z) : Q :=
  (70
   + points (positiveSentiment s) 10
   + points (ProcessResume.gt (Readability.fleschScore rd) 60) 5
   + points (ProcessResume.lt (Readability.avgSentenceLength rd) 20) 5
   + Qmin (2 * inject_Z (ProcessResume.count (skills e))) 20
   + Qmin (1 * inject_Z (ProcessResume.count (companies e))) 10
   + Qmin ((1 # 2) * inject_Z keywordCount) 10)%Q.

Definition isInteger (q : Q) : Prop := exists z : Z, q == inject_Z z.

(** The scoring claim as the specification states it. *)
Definition scoreClaim (s : Sentiment.t) (e : Entities) (rd : Readability.t)
    (keywordCount : Z) : Prop :=
  ProcessResume.calculateScore s e rd keywordCount
    == clamp 0 100 (scoreFormula s e rd keywordCount)
  /\ isInteger (ProcessResume.calculateScore s e rd keywordCount)
  /\ (0 <= ProcessResume.calculateScore s e rd keywordCount)%Q
  /\ (ProcessResume.calculateScore s e rd keywordCount <= 100)%Q.

(** Twice the score, as an integer. *)
Definition twiceScore (s : Sentiment.t) (e : Entities) (rd : Readability.t)
    (keywordCount : Z) : Z :=
  Z.min
    (Z.max
       (140
        + (if positiveSentiment s then 20 else 0)
        + (if ProcessResume.gt (Readability.fleschScore rd) 60 then 10 else 0)
        + (if ProcessResume.lt (Readability.avgSentenceLength rd) 20 then 10 else 0)
        + 2 * Z.min (2 * ProcessResume.count (skills e)) 20
        + 2 * Z.min (ProcessResume.count (companies e)) 10
        + Z.min keywordCount 20)
       0)
    200.

Definition noEntities : Entities :=
  {| skills := []; companies := []; titles := []; education := [];
     certifications := Some [] |}.

Definition flatReadability : Readability.t :=
  {| Readability.sentenceCount := 0; Readability.wordCount := 0;
     Readability.avgSentenceLength := Some 0%Q; Readability.avgWordLength := Some 0%Q;
     Readability.fleschScore := Some 0%Q; Readability.fleschGradeLevel := Some 0%Q;
     Readability.difficultWords := Some 0%Q |}.

(** A number of halves. *)
Definition half (z : Z) : Q := z # 2.

(** ** The vocabulary of the keyword claim *)

(** A word tokenizer for the examples: the maximal runs of word characters
    (what the tokenizer of [natural] yields on plain ASCII text).  [word] is
    the run read so far. *)
Fixpoint wordsFrom (word text : string) : list string :=
  match text with
  | EmptyString => if String.eqb word "" then [] else [word]
  | String c r =>
      if JsString.isWord c then wordsFrom (word +:+ String c EmptyString) r
      else (if String.eqb word "" then [] else [word]) ++ wordsFrom "" r
  end.

Definition someStopwords : list string := ["about"; "with"; "from"; "that"; "this"].

(** How often a word occurs in a list of words. *)
Definition occurrences (word : string) (words : list string) : Z :=
  Z.of_nat (count_occ string_dec words word).

(** A string that [toLowerCase] leaves as it is. *)
Definition lowercased (word : string) : Prop := JsString.toLowerCase word = word.

(** A tokenizer only yields characters of its input. *)
Definition cutsInput (tokenize : string -> list string) : Prop :=
  forall text word c,
    word ∈ tokenize text ->
    c ∈ list_ascii_of_string word -> c ∈ list_ascii_of_string text.

(** No word is the name of a property a plain object inherits. *)
Definition plainWords (words : list string) : Prop :=
  forall word, word ∈ words ->
    word <> "__proto__" /\ lookupAssoc word objectPrototype = None.

(** Descending by the key [f]. *)
Definition descending {A : Type} (f : A -> Z) (a b : A) : Prop := f b <= f a.

(** The counter object after the words [words]: one property per distinct
    word, whose value is the number of its occurrences. *)
Definition counted (words : list string) (o : list (string * Count)) : Prop :=
  NoDup (map fst o)
  /\ (forall k v, (k, v) ∈ o -> v = Times (occurrences k words) /\ k ∈ words)
  /\ (forall k, k ∈ words -> k ∈ map fst o).

(** ** The vocabulary of the entity claim *)

(** The characters [cleanEntityText] keeps. *)
Definition allowed (c : ascii) : bool :=
  JsString.isWord c || JsString.isSpace c || Ascii.eqb c "-".

(** A cleaned, non-trivial string: only word characters, white space and
    hyphens, no white space at either end, and more than one character. *)
Definition cleaned (s : string) : Prop :=
  JsString.forallb allowed s = true
  /\ JsString.trim s = s
  /\ (1 < String.length s)%nat.

Definition bucketOk (bucket : list string) : Prop :=
  NoDup bucket /\ Forall cleaned bucket.

(** All five buckets are there, and each is a deduplicated list of cleaned
    strings. *)
Definition wellFormed (e : Entities) : Prop :=
  bucketOk (skills e) /\ bucketOk (companies e) /\ bucketOk (titles e)
  /\ bucketOk (education e)
  /\ exists c, certifications e = Some c /\ bucketOk c.

(** What the entity cache holds for a text. *)
Definition cachedEntities (text : string) (r : Redis) : option Entities :=
  match nerKeys r !! ("ner:" +:+ NerProcessor.hashText text) with
  | Some {| cached := Json e |} => Some e
  | _ => None
  end.

(** Every entry of the entity cache that parses is well formed (the cache
    is only written by [extractEntities]). *)
Definition nerCacheOk (r : Redis) : Prop :=
  forall key slot e,
    nerKeys r !! key = Some slot -> cached slot = Json e -> wellFormed e.

(** Empty or invalid input: not a string, or nothing but white space. *)
Definition invalidInput (input : NerProcessor.Input) : Prop :=
  match input with
  | NerProcessor.NotAString => True
  | NerProcessor.Str text => JsString.trim text = ""
  end.

(** The inference service failed for a text: it rejected (time-out,
    error), or its answer is malformed (no data, or data that is not an
    array). *)
Definition serviceFailed (inference : string -> Result NerProcessor.NerData)
    (text : string) : Prop :=
  match inference text with
  | Err _ | Ok NerProcessor.Falsy | Ok NerProcessor.NotArray => True
  | Ok (NerProcessor.Items _) => False
  end.

(** The entity claim as the specification states it. *)
Definition entitiesClaim (inference : string -> Result NerProcessor.NerData)
    (input : NerProcessor.Input) (r : Redis) : Prop :=
  exists e r',
    NerProcessor.extractEntities inference input r = (Ok e, r')
    /\ wellFormed e
    /\ (invalidInput input
        \/ (exists text, input = NerProcessor.Str text /\ serviceFailed inference text) ->
        e = NerProcessor.fallbackEntityExtraction input).
(** A service answer for the examples. *)
Definition sampleInference (text : string) : Result NerProcessor.NerData :=
  Ok (NerProcessor.Items
        [ {| NerProcessor.word := "React"; NerProcessor.entity := "B-TECH" |};
          {| NerProcessor.word := "Google"; NerProcessor.entity := "B-ORG" |} ]).

(** A service whose answer is an object, not an array. *)
Definition objectInference (text : string) : Result NerProcessor.NerData :=
  Ok NerProcessor.NotArray.

Definition noLeadingSpace (s : string) : Prop :=
  match s with
  | String c _ => JsString.isSpace c = false
  | EmptyString => True
  end.

(** ** The vocabulary of the relevance claim *)

Definition msOfDays (days : Z) : Z := days * 86400000.

(** Published less than [days] days before [now]. *)
Definition publishedWithin (days now : Z) (published : option Z) : bool :=
  match published with
  | Some t => now - t <? msOfDays days
  | None => false
  end.

Definition readingTimeWithin (lo hi : Z) (minutes : option Z) : bool :=
  match minutes with
  | Some m => (lo <=? m) && (m <=? hi)
  | None => false
  end.

(** The formula of the specification, for a given reading of "the tag
    matches the skill name". *)
Definition relevanceFormula (tagMatches : bool) (now : Z)
    (skill : FetchDevBlogs.Prioritized.t) (article : FetchDevBlogs.Article) : Q :=
  Qmin (inject_Z (FetchDevBlogs.Prioritized.gap skill) / 100
        + points tagMatches (3 # 10)
        + points (publishedWithin 7 now (FetchDevBlogs.publishedAt article)) (2 # 10)
        + points (readingTimeWithin 5 15 (FetchDevBlogs.readingTime article)) (1 # 10))%Q
       1%Q.

(** The relevance claim as the specification states it: the tag is the
    skill name, exactly. *)
Definition relevanceClaim (now : Z) (skill : FetchDevBlogs.Prioritized.t)
    (article : FetchDevBlogs.Article) : Prop :=
  FetchDevBlogs.calculateRelevance now skill article
  == relevanceFormula
       (String.eqb (FetchDevBlogs.tag article) (FetchDevBlogs.Prioritized.name skill))
       now skill article.

(** The skill set of the relevance example and what [prioritize] makes of it. *)
Definition goLearner : SkillRecord :=
  {| name := "go"; level := Num 30; targetLevel := Num 80; category := None;
     lastPracticed := None; progress := Undefined |}.

Definition goGap : FetchDevBlogs.Prioritized.t :=
  {| FetchDevBlogs.Prioritized.name := "go"; FetchDevBlogs.Prioritized.gap := 50;
     FetchDevBlogs.Prioritized.category := "other" |}.

Definition articleAbout (tag title : string) (published : Z) (minutes : Z)
  : FetchDevBlogs.Article :=
  {| FetchDevBlogs.title := title;
     FetchDevBlogs.url := "https://dev.to/" +:+ title;
     FetchDevBlogs.description := "No description available";
     FetchDevBlogs.tag := tag;
     FetchDevBlogs.image := "";
     FetchDevBlogs.publishedAt := Some published;
     FetchDevBlogs.readingTime := Some minutes;
     FetchDevBlogs.source := "DEV Community" |}.

(** ** A sample run of the pipeline *)

Module Sample.

Definition resume : string := "Worked at Google with React".

Definition readPlain (path : string) : Result string := Ok resume.

Definition noDecoder (path : string) : Result string := Err "ENOENT".

Definition sentimentService (text : string) : Result (list (string * option Q)) :=
  Ok [("joy", Some (9 # 10)); ("neutral", Some (1 # 10))].

Definition sentenceTokenize (text : string) : Result (list string) := Ok [text].

Definition wordTokenize (text : string) : Result (list string) :=
  Ok (wordsFrom "" text).

Definition textStatistics (text : string)
  : Result (option Q * option Q * option Q) :=
  Ok (Some (65 # 1), Some (8 # 1), Some (2 # 1)).

Definition extractImportantPhrases (text : string) : Result (list string) :=
  Ok ["Google"; "React"].

Definition random (i : nat) : Q := 1 # 2.

Definition processResume (fileType : string) (r : Redis)
  : Result AnalysisResult * Redis :=
  ProcessResume.processResume noDecoder noDecoder readPlain sentimentService
    sampleInference sentenceTokenize wordTokenize textStatistics (wordsFrom "")
    someStopwords extractImportantPhrases random
    "uploads/resume.txt" fileType "u1" "2025-07-14T12:00:00.000Z" r.

End Sample.

(** ** The vocabulary of the connection *)

(** Whether the [k]-th command from now on is rejected, and the connection
    after [n] more commands. *)
Definition fault (k : nat) (r : Redis) : bool := nth k (faults r) false.

Definition advance (n : nat) (r : Redis) : Redis := with_faults (drop n (faults r)) r.

(** [extractEntities] gets as far as the inference service for a text: the
    read of the cache is accepted and finds no entry, or finds a text that
    does not parse, whose deletion is accepted. *)
Definition consults (text : string) (r : Redis) : Prop :=
  fault 0 r = false
  /\ match nerKeys r !! ("ner:" +:+ NerProcessor.hashText text) with
     | None => True
     | Some slot => cached slot = Malformed /\ fault 1 r = false
     end.

(** ** The vocabulary of the entity buckets *)

(** [t] is the cleaned word of an item of the answer tagged [a] or [b]. *)
Definition tagged (a b : string) (items : list NerProcessor.NerItem) (t : string)
  : Prop :=
  exists item, item ∈ items
               /\ NerProcessor.oneOf (NerProcessor.entity item) a b = true
               /\ t = NerProcessor.cleanEntityText (NerProcessor.word item).

(** The buckets of [e] hold exactly the cleaned words of [items] that
    [keep] lets through, each under the bucket of its tag: an organisation
    goes to [education] when its name reads like a school and to
    [companies] otherwise, and a person is kept only when the name reads
    like a job title. *)
Definition classified (keep : string -> Prop) (items : list NerProcessor.NerItem)
    (e : Entities) : Prop :=
  (forall t, t ∈ skills e
             <-> (1 < String.length t)%nat /\ tagged "B-TECH" "I-TECH" items t)
  /\ (forall t, t ∈ companies e
                <-> keep t /\ tagged "B-ORG" "I-ORG" items t
                    /\ NerProcessor.isEducationalInstitution t = false)
  /\ (forall t, t ∈ titles e
                <-> keep t /\ tagged "B-PER" "I-PER" items t
                    /\ NerProcessor.isLikelyTitle t = true)
  /\ (forall t, t ∈ education e
                <-> keep t
                    /\ (tagged "B-EDU" "I-EDU" items t
                        \/ tagged "B-ORG" "I-ORG" items t
                           /\ NerProcessor.isEducationalInstitution t = true))
  /\ (forall t, t ∈ NerProcessor.certs e
                <-> keep t /\ tagged "B-CERT" "I-CERT" items t).

(** ** The vocabulary of the content prioritizer *)

(** The gap [fetchDevBlogs] works with for a cached skill: a level that is
    absent or 0 counts as 0, a target that is absent or 0 as 50. *)
Definition gapOf (s : SkillRecord) : Z :=
  FetchDevBlogs.orElse (targetLevel s) 50 - FetchDevBlogs.orElse (level s) 0.

(** [b] comes from the skill record [u]. *)
Definition prioritizedFrom (u : SkillRecord) (b : FetchDevBlogs.Prioritized.t) : Prop :=
  FetchDevBlogs.Prioritized.name b = JsString.toLowerCase (name u)
  /\ FetchDevBlogs.Prioritized.gap b = gapOf u.

(** ** The data of the entity cache examples *)

(** A Redis that holds the entities [e] for the text [text]. *)
Definition entityCacheOf (text : string) (e : Entities) : Redis :=
  with_nerKeys
    {[ "ner:" +:+ NerProcessor.hashText text := {| cached := Json e; ex := Some 86400 |} ]}
    emptyRedis.

(** An inference service that cannot be reached. *)
Definition unreachable (text : string) : Result NerProcessor.NerData :=
  Err "timeout of 15000ms exceeded".

(** A service that finds a skill in the text [Aa] and a company in any
    other text; [Aa] and [BB] have the same hash. *)
Definition collidingInference (text : string) : Result NerProcessor.NerData :=
  if String.eqb text "Aa"
  then Ok (NerProcessor.Items
             [ {| NerProcessor.word := "React"; NerProcessor.entity := "B-TECH" |} ])
  else Ok (NerProcessor.Items
             [ {| NerProcessor.word := "Oracle"; NerProcessor.entity := "B-ORG" |} ]).

(* ===================================================================== *)
(** * Part III: the claims                                                *)
(* ===================================================================== *)

Section CacheFacts.
(** ** The skills cache *)

Import UserDashboardCache.

(** A command that resolved ran on the keys it was sent to. *)
Lemma command_inv {A} (run : Redis -> A * Redis) r a r' :
  command run r = (Ok a, r') -> exists f, run (with_faults f r) = (a, r').
Proof.
  unfold command. destruct (faults r) as [|[|] f] eqn:E.
  - exists []. replace (with_faults [] r) with r by (destruct r; simpl in *; by subst).
    destruct (run r). congruence.
  - discriminate.
  - exists f. destruct (run (with_faults f r)). congruence.
Qed.

Lemma getSkillProgress_inv userId r x r' :
  getSkillProgress userId r = (Ok x, r') ->
  x = cachedSkills userId r /\ exists f, r' = with_faults f r.
Proof.
  unfold getSkillProgress, bind, redisGet.
  destruct (command _ r) as [[slot|e] r1] eqn:E; [|discriminate].
  apply command_inv in E as [f E]. simpl in E. injection E as <- <-.
  unfold cachedSkills, parse. destruct (skillsKeys r !! _) as [[[l|] e]|]; simpl; try discriminate.
  - unfold ret. intros [= <- <-]. eauto.
  - unfold ret. intros [= <- <-]. eauto.
Qed.

Lemma setSkillProgress_inv userId incoming r b r' :
  setSkillProgress userId incoming r = (Ok b, r') ->
  skillsKeys r' !! ("skills:" +:+ userId) =
    Some {| cached := Json (map json_skill
                              (map (mergeSkill (default [] (cachedSkills userId r))) incoming));
            ex := Some 86400 |}
  /\ forall k, k <> "skills:" +:+ userId -> skillsKeys r' !! k = skillsKeys r !! k.
Proof.
  unfold setSkillProgress, bind at 1.
  destruct (getSkillProgress userId r) as [[x|e] r1] eqn:E; [|discriminate].
  apply getSkillProgress_inv in E as [-> [f ->]].
  unfold bind, redisSet.
  destruct (command _ (with_faults f r)) as [[u|e] r2] eqn:E; [|discriminate].
  apply command_inv in E as [f' E]. simpl in E. injection E as _ <-.
  unfold ret. intros [= <- <-].
  replace (with_faults f' (with_faults f r)) with (with_faults f' r) by by destruct r.
  destruct r; simpl. split.
  - by rewrite lookup_insert_eq.
  - intros k Hk. by rewrite lookup_insert_ne.
Qed.

(** ** Skill merge *)

Lemma find_firstNamed nm l e :
  find (fun s => String.eqb (name s) nm) l = Some e <-> firstNamed nm l e.
Proof.
  induction l as [|x l IH]; simpl.
  - split; [discriminate|]. intros (i & H & _). by destruct i.
  - destruct (String.eqb_spec (name x) nm) as [Heq|Hne].
    + split.
      * intros [= <-]. exists 0%nat. repeat split; auto. intros j e' Hj. lia.
      * intros (i & Hi & Hn & Hfirst). destruct i as [|i]; [by injection Hi as ->|].
        exfalso. apply (Hfirst 0%nat x); [lia|done|done].
    + rewrite IH. split.
      * intros (i & Hi & Hn & Hfirst). exists (S i). repeat split; auto.
        intros [|j] e' Hj; simpl; [by intros [= <-]|]. apply Hfirst. lia.
      * intros (i & Hi & Hn & Hfirst). destruct i as [|i].
        { injection Hi as ->. done. }
        exists i. repeat split; auto. intros j e' Hj Hl. apply (Hfirst (S j)); [lia|done].
Qed.

(** C3.  A successful [setSkillProgress(userId, skills)] stores one record per
    incoming record, in order.  The stored record has the incoming name,
    level, targetLevel and category; its progress and lastPracticed are those
    of the first cached record of the same name when there is one, and
    otherwise the record is the incoming one (all as JSON writes them). *)
Theorem setSkillProgress_merges_by_name
    (userId : string) (incoming : list SkillRecord) (r r' : Redis) :
  setSkillProgress userId incoming r = (Ok true, r') ->
  exists stored,
    cachedSkills userId r' = Some stored
    /\ length stored = length incoming
    /\ forall i n, incoming !! i = Some n ->
       exists m, stored !! i = Some m
         /\ name m = name n
         /\ level m = json_num (level n)
         /\ targetLevel m = json_num (targetLevel n)
         /\ category m = category n
         /\ (forall e, firstNamed (name n) (default [] (cachedSkills userId r)) e ->
               progress m = json_num (progress e)
               /\ lastPracticed m = lastPracticed e)
         /\ ((forall e, e ∈ default [] (cachedSkills userId r) -> name e <> name n) ->
               m = json_skill n).
Proof.
  intros H. apply setSkillProgress_inv in H as [H _].
  eexists. split; [unfold cachedSkills; by rewrite H|].
  split; [by rewrite !length_map|].
  intros i n Hn. rewrite !list_lookup_fmap, Hn. simpl.
  eexists. split; [done|].
  unfold mergeSkill.
  destruct (find _ _) as [e|] eqn:E; simpl.
  - do 4 (split; [done|]). split.
    + intros e' He'. apply find_firstNamed in E.
      destruct He' as (i1 & Hi1 & Hn1 & Hf1). destruct E as (i2 & Hi2 & Hn2 & Hf2).
      assert (i1 = i2) as ->.
      { destruct (Nat.lt_total i1 i2) as [Hlt|[->|Hlt]]; auto.
        - by destruct (Hf2 _ _ Hlt Hi1).
        - by destruct (Hf1 _ _ Hlt Hi2). }
      rewrite Hi1 in Hi2. by injection Hi2 as ->.
    + intros Hno. apply find_some in E as [Hin Heq].
      apply String.eqb_eq in Heq. destruct (Hno e); [by apply list_elem_of_In|done].
  - do 4 (split; [done|]). split; [|done].
    intros e He. apply find_firstNamed in He. congruence.
Qed.

(** On a healthy connection [setSkillProgress] succeeds as soon as what the
    cache holds for the user can be parsed. *)
Lemma setSkillProgress_succeeds (userId : string) (incoming : list SkillRecord)
    (r : Redis) :
  faults r = [] ->
  (forall slot, skillsKeys r !! ("skills:" +:+ userId) = Some slot ->
                cached slot <> Malformed) ->
  exists r', setSkillProgress userId incoming r = (Ok true, r').
Proof.
  intros Hf Hp.
  unfold setSkillProgress, getSkillProgress, bind, redisGet, redisSet, command, parse.
  rewrite Hf. simpl.
  destruct (skillsKeys r !! ("skills:" +:+ userId)) as [[[l|] e]|] eqn:E; simpl.
  - rewrite Hf. eauto.
  - by destruct (Hp _ eq_refl).
  - rewrite Hf. eauto.
Qed.

(** C3 on the example of the specification: the cache holds [go] with
    progress 40, a fresh analysis brings [go] at level 70, and the stored
    record has level 70 with the progress and lastPracticed of the cache. *)
Lemma setSkillProgress_merges_by_name_go :
  exists r', setSkillProgress "u1" [goIncoming] (cacheOf "u1" [goCached]) = (Ok true, r')
             /\ cachedSkills "u1" r' = Some [goMerged].
Proof.
  exists (setSkillProgress "u1" [goIncoming] (cacheOf "u1" [goCached])).2.
  assert (Hrun : setSkillProgress "u1" [goIncoming] (cacheOf "u1" [goCached])
                 = (Ok true, (setSkillProgress "u1" [goIncoming] (cacheOf "u1" [goCached])).2))
    by (vm_compute; reflexivity).
  split; [exact Hrun|].
  destruct (setSkillProgress_merges_by_name "u1" [goIncoming] (cacheOf "u1" [goCached]) _ Hrun)
    as (stored & Hstored & Hlen & Hrec).
  destruct (Hrec 0%nat goIncoming eq_refl)
    as (m & Hm & Hname & Hlevel & Htarget & Hcat & Hfirst & _).
  destruct (Hfirst goCached) as [Hprogress Hlast].
  { exists 0%nat. repeat split. intros j e' Hj. inversion Hj. }
  rewrite Hstored. destruct stored as [|m' [|? ?]]; try discriminate Hlen.
  injection Hm as ->. destruct m; simpl in *. subst. reflexivity.
Defined.

(** ** Practice updates *)

Lemma find_by_own_name (l : list SkillRecord) (s : SkillRecord) :
  NoDup (map name l) -> s ∈ l ->
  find (fun x => String.eqb (name x) (name s)) l = Some s.
Proof.
  induction l as [|x l IH]; simpl; intros Hnd Hin.
  - by apply elem_of_nil in Hin.
  - apply NoDup_cons in Hnd as [Hx Hnd].
    apply elem_of_cons in Hin as [->|Hin]; [by rewrite String.eqb_refl|].
    destruct (String.eqb_spec (name x) (name s)) as [Heq|_]; [|by apply IH].
    exfalso. apply Hx. rewrite Heq. apply list_elem_of_fmap. eauto.
Qed.

Lemma name_bumpSkill skillName delta now s :
  name (bumpSkill skillName delta now s) = name s.
Proof. unfold bumpSkill. by destruct (String.eqb _ _). Qed.

(** Merging a bumped set into the set it was made from gives that set back. *)
Lemma merge_undoes_bump (existing : list SkillRecord) skillName delta now :
  NoDup (map name existing) ->
  map (mergeSkill existing) (map (bumpSkill skillName delta now) existing) = existing.
Proof.
  intros Hnd. rewrite map_map.
  transitivity (map id existing); [|apply map_id].
  apply map_ext_in. intros s Hs%list_elem_of_In.
  unfold mergeSkill. rewrite name_bumpSkill, (find_by_own_name _ _ Hnd Hs).
  unfold bumpSkill. destruct s. simpl. by destruct (String.eqb _ _).
Qed.

(** X2.  Whatever [updateSkillProgress] returns, the cached set is the one
    it read: [setSkillProgress] merges the bumped records against the cache,
    which still holds the old progress and lastPracticed, and puts those back. *)
Lemma updateSkillProgress_leaves_cache
    (userId skillName : string) (delta : Z) (now : string)
    (existing updated : list SkillRecord) (r r' : Redis) :
  cachedSkills userId r = Some existing ->
  NoDup (map name existing) ->
  map json_skill existing = existing ->
  updateSkillProgress userId skillName delta now r = (Ok updated, r') ->
  updated = map (bumpSkill skillName delta now) existing
  /\ cachedSkills userId r' = Some existing.
Proof.
  intros Hc Hnd Hjson. unfold updateSkillProgress, bind at 1.
  destruct (getSkillProgress userId r) as [[x|e] r1] eqn:E; [|discriminate].
  apply getSkillProgress_inv in E as [-> [f ->]]. rewrite Hc. simpl.
  unfold bind.
  destruct (setSkillProgress _ _ _) as [[b|e] r2] eqn:E; [|discriminate].
  apply setSkillProgress_inv in E as [E _].
  unfold ret. intros [= <- <-]. split; [done|].
  unfold cachedSkills in *. rewrite E.
  replace (skillsKeys (with_faults f r)) with (skillsKeys r) by by destruct r.
  destruct (skillsKeys r !! _) as [[[l|] ?]|]; try discriminate.
  injection Hc as ->. simpl. by rewrite merge_undoes_bump, Hjson.
Qed.

(** X2 on the cache of C1: the set returned holds [go] at progress 50, and the
    cached set is the one that was read. *)
Lemma updateSkillProgress_leaves_cache_go :
  [goBumped] = map (bumpSkill "go" 10 "2025-07-14T12:00:00.000Z") [goPractised]
  /\ cachedSkills "u1"
       (updateSkillProgress "u1" "go" 10 "2025-07-14T12:00:00.000Z"
          (cacheOf "u1" [goPractised])).2 = Some [goPractised].
Proof.
  apply (updateSkillProgress_leaves_cache "u1" "go" 10 "2025-07-14T12:00:00.000Z"
           [goPractised] [goBumped] (cacheOf "u1" [goPractised])).
  - vm_compute. reflexivity.
  - apply NoDup_singleton.
  - reflexivity.
  - vm_compute. reflexivity.
Defined.

(** C1.  The cache holds [go] at progress 40 for user [u1];
    [updateSkillProgress("u1", "go", 10)] returns the record bumped to 50 and
    stamped with the current time, and a [getSkillProgress("u1")] after it
    still returns progress 40 and the old lastPracticed. *)
Theorem updateSkillProgress_bump_not_cached :
  (updateSkillProgress "u1" "go" 10 "2025-07-14T12:00:00.000Z"
     (cacheOf "u1" [goPractised])).1 = Ok [goBumped]
  /\ (getSkillProgress "u1"
        (updateSkillProgress "u1" "go" 10 "2025-07-14T12:00:00.000Z"
           (cacheOf "u1" [goPractised])).2).1 = Ok (Some [goPractised]).
Proof. split; vm_compute; reflexivity. Qed.

End CacheFacts.

Section JobFacts.
(** ** Job results *)

Import Server.

Lemma length_append (a b : string) :
  String.length (a +:+ b) = (String.length a + String.length b)%nat.
Proof. induction a; simpl; auto. Qed.

(** The key the route reads is never the key the processor wrote for the
    same job id. *)
Lemma routeKey_not_processorKey (userId jobId : string) :
  routeKey jobId <> processorKey userId jobId.
Proof.
  unfold routeKey, processorKey. intros H.
  apply (f_equal String.length) in H. rewrite !length_append in H. simpl in H. lia.
Qed.

Lemma redisSet_resume_other key v ttl r k :
  k <> key ->
  resumeKeys (redisSet resumeKeys with_resumeKeys key v ttl r).2 !! k = resumeKeys r !! k.
Proof.
  intros Hk. unfold redisSet, command.
  destruct (faults r) as [|[|] f]; simpl; try by destruct r.
  - destruct r; simpl. by rewrite lookup_insert_ne.
  - destruct r; simpl. by rewrite lookup_insert_ne.
Qed.

Lemma redisDel_keeps_resume {A} (keys : Redis -> gmap string (Slot A)) store key r :
  (forall m r0, resumeKeys (store m r0) = resumeKeys r0) ->
  resumeKeys (redisDel keys store key r).2 = resumeKeys r.
Proof.
  intros Hs. unfold redisDel, command.
  destruct (faults r) as [|[|] f]; simpl; rewrite ?Hs; by destruct r.
Qed.

Lemma invalidateAllUserCaches_keeps_resume userId r :
  resumeKeys (UserDashboardCache.invalidateAllUserCaches userId r).2 = resumeKeys r.
Proof.
  unfold UserDashboardCache.invalidateAllUserCaches,
    UserDashboardCache.invalidateDashboard, UserDashboardCache.invalidateSkillProgress,
    UserDashboardCache.invalidateArticles, UserDashboardCache.invalidateRecommendations.
  unfold bind, settle, ret, throw.
  pose proof (redisDel_keeps_resume dashboardKeys with_dashboardKeys
                ("dashboard:" +:+ userId) r (fun _ _ => eq_refl)) as H1.
  destruct (redisDel dashboardKeys _ _ r) as [[[]|e1] r1]; simpl in H1;
  pose proof (redisDel_keeps_resume skillsKeys with_skillsKeys
                ("skills:" +:+ userId) r1 (fun _ _ => eq_refl)) as H2;
  destruct (redisDel skillsKeys _ _ r1) as [[[]|e2] r2]; simpl in H2;
  pose proof (redisDel_keeps_resume articlesKeys with_articlesKeys
                ("articles:" +:+ userId) r2 (fun _ _ => eq_refl)) as H3;
  destruct (redisDel articlesKeys _ _ r2) as [[[]|e3] r3]; simpl in H3;
  pose proof (redisDel_keeps_resume recommendationsKeys with_recommendationsKeys
                ("recommendations:" +:+ userId) r3 (fun _ _ => eq_refl)) as H4;
  destruct (redisDel recommendationsKeys _ _ r3) as [[[]|e4] r4]; simpl in H4;
  simpl; congruence.
Qed.

(** X1.  Processing a job leaves the key of the route as it was: the route
    answers for a job as if the processor had never run. *)
Lemma processJob_invisible_to_route
    (collaborators : Result unit) (userId jobId t1 t2 : string) (r : Redis) :
  resumeKeys (processJob collaborators userId jobId t1 t2 r).2 !! routeKey jobId
  = resumeKeys r !! routeKey jobId.
Proof.
  pose proof (routeKey_not_processorKey userId jobId) as Hk.
  unfold processJob, try_catch.
  destruct collaborators as [[]|e]; simpl.
  - unfold bind at 1.
    pose proof (redisSet_resume_other (processorKey userId jobId)
                  (Json (Completed analyzeResumeWithAI t1)) None r _ Hk) as H1.
    destruct (redisSet resumeKeys _ _ _ _ r) as [[[]|e1] r1]; simpl in H1.
    + unfold bind at 1.
      pose proof (invalidateAllUserCaches_keeps_resume userId r1) as H2.
      destruct (UserDashboardCache.invalidateAllUserCaches userId r1) as [[b|e2] r2];
        simpl in H2.
      * simpl. congruence.
      * unfold bind, throw.
        pose proof (redisSet_resume_other (processorKey userId jobId)
                      (Json (Failed e2 t2)) None r2 _ Hk) as H3.
        destruct (redisSet resumeKeys _ _ _ _ r2) as [[[]|e3] r3]; simpl in *; congruence.
    + unfold bind, throw.
      pose proof (redisSet_resume_other (processorKey userId jobId)
                    (Json (Failed e1 t2)) None r1 _ Hk) as H3.
      destruct (redisSet resumeKeys _ _ _ _ r1) as [[[]|e3] r3]; simpl in *; congruence.
  - unfold bind, throw.
    pose proof (redisSet_resume_other (processorKey userId jobId)
                  (Json (Failed e t2)) None r _ Hk) as H3.
    destruct (redisSet resumeKeys _ _ _ _ r) as [[[]|e3] r3]; simpl in *; congruence.
Qed.

(** X5.  A job whose route key is absent is not found: the route answers
    404 when its [GET] is accepted and 500 when it is rejected; it never
    answers with a payload. *)
Lemma getResumeAnalysis_absent (jobId : string) (r : Redis) :
  resumeKeys r !! routeKey jobId = None ->
  (getResumeAnalysis jobId r).1 = Ok (if fault 0 r then Status500 else Status404).
Proof.
  intros H. unfold getResumeAnalysis, try_catch, bind, redisGet, command, fault.
  destruct (faults r) as [|[|] f]; simpl; auto.
  - by rewrite H.
  - replace (resumeKeys (with_faults f r)) with (resumeKeys r) by by destruct r.
    by rewrite H.
Qed.

(** X5 on an empty Redis. *)
Lemma getResumeAnalysis_absent_empty :
  (getResumeAnalysis "1" emptyRedis).1 = Ok Status404.
Proof.
  apply (getResumeAnalysis_absent "1" emptyRedis). reflexivity.
Defined.

(** C2.  Job [1] of user [anonymous] runs to completion on an empty, healthy
    Redis: the processor returns the analysis and the terminal payload is
    under [resume:anonymous:1]; the route, asked for job [1], reads
    [resume:1] and answers 404. *)
Theorem completed_job_not_found :
  (processJob (Ok tt) "anonymous" "1" "2025-07-14T12:00:00.000Z"
     "2025-07-14T12:00:01.000Z" emptyRedis).1 = Ok analyzeResumeWithAI
  /\ cached <$>
       resumeKeys (processJob (Ok tt) "anonymous" "1" "2025-07-14T12:00:00.000Z"
                     "2025-07-14T12:00:01.000Z" emptyRedis).2 !! "resume:anonymous:1"
     = Some (Json (Completed analyzeResumeWithAI "2025-07-14T12:00:00.000Z"))
  /\ (getResumeAnalysis "1"
        (processJob (Ok tt) "anonymous" "1" "2025-07-14T12:00:00.000Z"
           "2025-07-14T12:00:01.000Z" emptyRedis).2).1 = Ok Status404.
Proof. repeat split; vm_compute; reflexivity. Qed.

End JobFacts.

Section ScoringFacts.
Import ProcessResume.

(** ** Scoring *)

Lemma half_inject z : inject_Z z == half (2 * z).
Proof. unfold half, Qeq. simpl. lia. Qed.

Lemma half_add a b : (half a + half b == half (a + b))%Q.
Proof. unfold half, Qeq. simpl. lia. Qed.

Lemma half_le a b : (half a <= half b)%Q <-> a <= b.
Proof. unfold half, Qle. simpl. lia. Qed.

Lemma half_min a b : Qmin (half a) (half b) == half (Z.min a b).
Proof.
  destruct (Z.min_spec a b) as [[H ->]|[H ->]].
  - apply Q.min_l, half_le. lia.
  - apply Q.min_r, half_le. lia.
Qed.

Lemma half_max a b : Qmax (half a) (half b) == half (Z.max a b).
Proof.
  destruct (Z.max_spec a b) as [[H ->]|[H ->]].
  - apply Q.max_r, half_le. lia.
  - apply Q.max_l, half_le. lia.
Qed.

Lemma half_of_product k : (inject_Z k * (1 # 2) == half k)%Q.
Proof. unfold half, Qeq. simpl. lia. Qed.

Lemma calculateScore_half s e rd k :
  calculateScore s e rd k == half (twiceScore s e rd k).
Proof.
  unfold calculateScore, twiceScore, positiveSentiment.
  set (n := count (skills e)). set (m := count (companies e)).
  rewrite half_of_product.
  repeat match goal with
         | |- context [Qmake ?z 1] => change (Qmake z 1) with (inject_Z z)
         end.
  destruct (_ && _), (gt _ _), (lt _ _);
    rewrite !half_inject, ?half_add, !half_min, ?half_add, half_max, half_min;
    (apply Qeq_alt; unfold half, Qcompare; simpl; apply Z.compare_eq_iff; lia).
Qed.

Lemma scoreFormula_half s e rd k :
  clamp 0 100 (scoreFormula s e rd k) == half (twiceScore s e rd k).
Proof.
  unfold clamp, scoreFormula, twiceScore, points.
  set (n := count (skills e)). set (m := count (companies e)).
  rewrite (Qmult_comm (1 # 2)), half_of_product.
  repeat match goal with
         | |- context [Qmake ?z 1] => change (Qmake z 1) with (inject_Z z)
         end.
  rewrite <- !inject_Z_mult.
  destruct (positiveSentiment s), (gt _ _), (lt _ _);
    rewrite !half_inject, ?half_add, !half_min, ?half_add, half_max, half_min;
    (apply Qeq_alt; unfold half, Qcompare; simpl; apply Z.compare_eq_iff; lia).
Qed.

Lemma twiceScore_bounds s e rd k : 0 <= twiceScore s e rd k <= 200.
Proof. unfold twiceScore. lia. Qed.

Lemma twiceScore_base s e rd k : 0 <= k -> 140 <= twiceScore s e rd k.
Proof.
  unfold twiceScore, count. intros Hk.
  destruct (positiveSentiment s), (gt _ _), (lt _ _); lia.
Qed.

Lemma twiceScore_even s e rd k :
  Z.even k = true \/ 20 <= k -> exists h, twiceScore s e rd k = 2 * h.
Proof.
  intros Hk.
  assert (exists h, Z.min k 20 = 2 * h) as [h Hh].
  { destruct Hk as [Hk|Hk].
    - apply Z.even_spec in Hk as [h ->]. exists (Z.min h 10). lia.
    - exists 10. lia. }
  unfold twiceScore. rewrite Hh.
  destruct (positiveSentiment s), (gt _ _), (lt _ _);
    match goal with
    | |- exists _, Z.min (Z.max (140 + ?a + ?b + ?c + 2 * ?X + 2 * ?Y + 2 * h) 0) 200 = _ =>
        let a' := eval compute in (a / 2) in
        let b' := eval compute in (b / 2) in
        let c' := eval compute in (c / 2) in
        exists (Z.min (Z.max (70 + a' + b' + c' + X + Y + h) 0) 100)
    end; lia.
Qed.

(** C4, as the code has it.  [calculateScore] is the formula of the
    specification clamped to [0,100]; the value is a whole number of halves,
    an integer as soon as the keyword count is even or at least 20, and
    [Math.round] of it (what [processResume] publishes) is an integer of
    [0,100]. *)
Theorem calculateScore_formula
    (s : Sentiment.t) (e : Entities) (rd : Readability.t) (keywordCount : Z) :
  calculateScore s e rd keywordCount == clamp 0 100 (scoreFormula s e rd keywordCount)
  /\ (0 <= calculateScore s e rd keywordCount)%Q
  /\ (calculateScore s e rd keywordCount <= 100)%Q
  /\ isInteger (2 * calculateScore s e rd keywordCount)
  /\ (Z.even keywordCount = true \/ 20 <= keywordCount ->
      isInteger (calculateScore s e rd keywordCount))
  /\ 0 <= round (calculateScore s e rd keywordCount) <= 100.
Proof.
  pose proof (calculateScore_half s e rd keywordCount) as H.
  pose proof (twiceScore_bounds s e rd keywordCount) as Hb.
  repeat split.
  - rewrite H. symmetry. apply scoreFormula_half.
  - rewrite H. unfold half, Qle. simpl. lia.
  - rewrite H. unfold half, Qle. simpl. lia.
  - exists (twiceScore s e rd keywordCount). rewrite H.
    unfold half, Qeq. simpl. lia.
  - intros Hk. destruct (twiceScore_even s e rd keywordCount Hk) as [h Hh].
    exists h. rewrite H, Hh. unfold half, Qeq. simpl. lia.
  - unfold round. rewrite H.
    transitivity (Qfloor (inject_Z 0)); [by rewrite Qfloor_Z|].
    apply Qfloor_resp_le. unfold half, Qle. simpl. lia.
  - unfold round. rewrite H.
    transitivity (Qfloor (inject_Z 100 + (1 # 2))); [|by vm_compute].
    apply Qfloor_resp_le. unfold half, Qle. simpl. lia.
Qed.

(** C4, as the specification states it, fails for one keyword: the score of
    a neutral, flat, empty analysis with a single keyword is 75.5. *)
Lemma calculateScore_not_an_integer :
  ~ scoreClaim neutralSentiment noEntities flatReadability 1.
Proof.
  intros (_ & [z Hz] & _).
  assert (calculateScore neutralSentiment noEntities flatReadability 1 == 151 # 2) as H
    by (vm_compute; reflexivity).
  rewrite H in Hz. unfold Qeq in Hz. simpl in Hz. lia.
Qed.

(** C9.  For a keyword count that is a count, the score is at least the
    base 70 (and at most 100). *)
Theorem calculateScore_at_least_base
    (s : Sentiment.t) (e : Entities) (rd : Readability.t) (keywordCount : Z) :
  0 <= keywordCount ->
  (70 <= calculateScore s e rd keywordCount)%Q
  /\ (calculateScore s e rd keywordCount <= 100)%Q.
Proof.
  intros Hk. pose proof (calculateScore_half s e rd keywordCount) as H.
  pose proof (twiceScore_bounds s e rd keywordCount) as Hb.
  pose proof (twiceScore_base s e rd keywordCount Hk) as Hl.
  split; rewrite H.
  - unfold half, Qle. simpl. lia.
  - unfold half, Qle. simpl. lia.
Qed.

(** C9 for a neutral, flat, empty analysis without keywords. *)
Lemma calculateScore_at_least_base_flat :
  0 <= 0
  /\ (70 <= calculateScore neutralSentiment noEntities flatReadability 0)%Q
  /\ (calculateScore neutralSentiment noEntities flatReadability 0 <= 100)%Q.
Proof.
  split; [lia|].
  apply (calculateScore_at_least_base neutralSentiment noEntities flatReadability 0).
  lia.
Defined.

(** ** Skill assessment *)

(** C6.  [assessSkills] returns one record per skill name, and every
    record has a numeric level [l], the target [min(l + 20, 100)] and
    progress 0, whatever the level assignment draws. *)
Theorem assessSkills_target_and_progress
    (random : nat -> Q) (now : string) (skillNames : list string) :
  length (assessSkills random now skillNames) = length skillNames
  /\ Forall (fun r => exists l, level r = Num l
                                /\ targetLevel r = Num (Z.min (l + 20) 100)
                                /\ progress r = Num 0)
            (assessSkills random now skillNames).
Proof.
  unfold assessSkills. split; [apply length_imap|].
  apply Forall_lookup. intros i r Hr.
  rewrite list_lookup_imap in Hr.
  destruct (skillNames !! i) as [skill|]; [|discriminate].
  injection Hr as <-. simpl.
  exists (calculateSkillLevel (random i) skill). repeat split.
  f_equal. destruct (Z.ltb_spec (calculateSkillLevel (random i) skill) 80); lia.
Qed.

(** With a draw of [Math.random], which lies in [0,1), the level is between
    50 and 100. *)
Lemma calculateSkillLevel_range (draw : Q) (skillName : string) :
  (0 <= draw)%Q -> (draw < 1)%Q ->
  50 <= calculateSkillLevel draw skillName <= 100.
Proof.
  intros H0 H1. unfold calculateSkillLevel.
  assert (inject_Z 0 <= draw * 30)%Q as Hd by (change (inject_Z 0) with 0%Q; lra).
  apply Qfloor_resp_le in Hd. rewrite Qfloor_Z in Hd.
  pose proof (Z.mod_pos_bound (Z.of_nat (String.length skillName)) 20 eq_refl).
  lia.
Qed.

End ScoringFacts.

Section KeywordFacts.
Import ProcessResume.

(** ** Keywords *)

(** C7.  For the text "Constructor alpha Alpha" the filtered words are
    [constructor; alpha; alpha], so [alpha] is the more frequent word, and
    [extractKeywords] returns [constructor] before [alpha]: the counter of
    [constructor] starts from the function every plain object inherits under
    that name and is a text, not a number, so the comparator of the sort
    yields [NaN] and leaves the insertion order. *)
Theorem extractKeywords_constructor_first :
  filteredWords (wordsFrom "") someStopwords "Constructor alpha Alpha"
    = ["constructor"; "alpha"; "alpha"]
  /\ wordFreq (wordsFrom "") someStopwords "Constructor alpha Alpha"
    = [("constructor", Text "function Object() { [native code] }1"); ("alpha", Times 2)]
  /\ extractKeywords (wordsFrom "") someStopwords "Constructor alpha Alpha"
    = ["constructor"; "alpha"]
  /\ occurrences "constructor"
       (filteredWords (wordsFrom "") someStopwords "Constructor alpha Alpha")
     < occurrences "alpha"
         (filteredWords (wordsFrom "") someStopwords "Constructor alpha Alpha").
Proof. repeat split; vm_compute; reflexivity. Qed.

Section Sorting.
Context {A : Type} (after : A -> A -> bool).

Lemma sortInsert_perm (x : A) (l : list A) : Permutation (sortInsert after x l) (x :: l).
Proof.
  induction l as [|y l IH]; simpl; [done|].
  destruct (after x y); [|done].
  rewrite IH. apply perm_swap.
Qed.

Lemma sort_perm (l : list A) : Permutation (sort after l) l.
Proof.
  induction l as [|x l IH]; simpl; [done|].
  rewrite sortInsert_perm. by constructor.
Qed.

Lemma sort_elem (l : list A) (x : A) : x ∈ sort after l <-> x ∈ l.
Proof. by rewrite (sort_perm l). Qed.
End Sorting.

Lemma setProperty_keys key v o k :
  k ∈ map fst (setProperty key v o) -> k ∈ map fst o \/ k = key.
Proof.
  induction o as [|[k0 w] o IH]; simpl.
  - intros ->%list_elem_of_singleton. by right.
  - destruct (String.eqb_spec k0 key) as [->|Hne]; simpl.
    + intros H. by left.
    + intros [->|H]%elem_of_cons; [left; left|].
      destruct (IH H) as [?|?]; [left; by right|by right].
Qed.

Lemma countWord_keys o word k :
  k ∈ map fst (countWord o word) -> k ∈ map fst o \/ k = word.
Proof.
  unfold countWord. destruct (String.eqb word "__proto__"); [by left|].
  destruct (lookupAssoc word o) as [ [n | s] | ]; [apply setProperty_keys | apply setProperty_keys |].
  destruct (lookupAssoc word objectPrototype); apply setProperty_keys.
Qed.

Lemma foldl_countWord_keys words o k :
  k ∈ map fst (foldl countWord o words) -> k ∈ map fst o \/ k ∈ words.
Proof.
  revert o. induction words as [|w words IH]; simpl; intros o H; [by left|].
  destruct (IH _ H) as [H'|H']; [|right; by right].
  destruct (countWord_keys _ _ _ H') as [? | ->]; [by left|right; left].
Qed.

Section Keywords.
Context (tokenize : string -> list string) (stopwords : list string).

(** Every keyword is one of the filtered words. *)
Lemma extractKeywords_filtered (text word : string) :
  word ∈ extractKeywords tokenize stopwords text ->
  word ∈ filteredWords tokenize stopwords text.
Proof.
  unfold extractKeywords, wordFreq. intros H.
  apply list_elem_of_fmap in H as ([k v] & -> & H). simpl.
  apply sort_elem in H.
  assert (k ∈ map fst (foldl countWord [] (filteredWords tokenize stopwords text))) as Hk.
  { apply list_elem_of_fmap. by exists (k, v). }
  apply foldl_countWord_keys in Hk as [Hk|Hk]; [|done].
  by apply elem_of_nil in Hk.
Qed.

Lemma lowerChar_idempotent c : JsString.lowerChar (JsString.lowerChar c) = JsString.lowerChar c.
Proof. destruct c as [[] [] [] [] [] [] [] []]; reflexivity. Qed.

Lemma toLowerCase_chars s c :
  c ∈ list_ascii_of_string (JsString.toLowerCase s) -> JsString.lowerChar c = c.
Proof.
  induction s as [|a s IH]; simpl.
  - intros H. by apply elem_of_nil in H.
  - intros [->|H]%elem_of_cons; [apply lowerChar_idempotent|by apply IH].
Qed.

Lemma lowercased_chars s :
  (forall c, c ∈ list_ascii_of_string s -> JsString.lowerChar c = c) -> lowercased s.
Proof.
  unfold lowercased. induction s as [|a s IH]; simpl; intros H; [done|].
  rewrite (H a) by left. f_equal. apply IH. intros c Hc. apply H. by right.
Qed.

(** X4.  The part of C7 that holds for every text: a keyword is longer than 3,
    is no stop-word and has no digit; it is lowercased as soon as the
    tokenizer only cuts its input. *)
Lemma extractKeywords_tokens (text word : string) :
  word ∈ extractKeywords tokenize stopwords text ->
  (3 < String.length word)%nat
  /\ (word ∉ stopwords)
  /\ JsString.existsb JsString.isDigit word = false
  /\ (cutsInput tokenize -> lowercased word).
Proof.
  intros H%extractKeywords_filtered. unfold filteredWords in H.
  apply list_elem_of_In, filter_In in H as [Hin Hkeep]. apply list_elem_of_In in Hin.
  unfold keep in Hkeep. apply andb_prop in Hkeep as [[H1 H2]%andb_prop H3].
  repeat split.
  - by apply Nat.ltb_lt in H1.
  - apply negb_true_iff, bool_decide_eq_false in H2. done.
  - by apply negb_true_iff in H3.
  - intros Hcut. apply lowercased_chars. intros c Hc.
    apply (toLowerCase_chars text). by apply (Hcut _ word).
Qed.

End Keywords.

(** X4 for the keyword [alpha] of the text "beta alpha Alpha". *)
Lemma extractKeywords_tokens_alpha :
  (3 < String.length "alpha")%nat
  /\ ("alpha" ∉ someStopwords)
  /\ JsString.existsb JsString.isDigit "alpha" = false
  /\ (cutsInput (wordsFrom "") -> lowercased "alpha").
Proof.
  apply (extractKeywords_tokens (wordsFrom "") someStopwords "beta alpha Alpha").
  apply list_elem_of_In. vm_compute. left. reflexivity.
Defined.

(** *** The order of the keywords when no word is an inherited name *)

Section SortingByKey.
Context {A : Type} (f : A -> Z).

Lemma sortInsert_sorted (x : A) (l : list A) :
  Sorted (descending f) l -> Sorted (descending f) (sortInsert (fun a b => f a <? f b) x l).
Proof.
  induction l as [|y l IH]; simpl; intros Hs.
  - repeat constructor.
  - apply Sorted_inv in Hs as [Hs Hhd].
    destruct (Z.ltb_spec (f x) (f y)) as [Hlt|Hge].
    + constructor; [by apply IH|].
      destruct l as [|z l]; simpl.
      * constructor. unfold descending. lia.
      * destruct (Z.ltb_spec (f x) (f z)).
        -- constructor. by apply HdRel_inv in Hhd.
        -- constructor. unfold descending. lia.
    + constructor; [by constructor|]. constructor. unfold descending. lia.
Qed.

Lemma sort_sorted (l : list A) : Sorted (descending f) (sort (fun a b => f a <? f b) l).
Proof.
  induction l as [|x l IH]; simpl; [constructor|]. by apply sortInsert_sorted.
Qed.
End SortingByKey.

Lemma sortInsert_ext {A} (after after' : A -> A -> bool) (x : A) (l : list A) :
  (forall y, y ∈ l -> after x y = after' x y) ->
  sortInsert after x l = sortInsert after' x l.
Proof.
  induction l as [|y l IH]; simpl; intros H; [done|].
  rewrite (H y) by left. rewrite IH; [done|]. intros z Hz. apply H. by right.
Qed.

Lemma sort_ext {A} (after after' : A -> A -> bool) (l : list A) :
  (forall x y, x ∈ l -> y ∈ l -> after x y = after' x y) ->
  sort after l = sort after' l.
Proof.
  induction l as [|x l IH]; simpl; intros H; [done|].
  rewrite IH by (intros; apply H; by right).
  apply sortInsert_ext. intros y Hy%sort_elem. apply H; [left|by right].
Qed.

Lemma Sorted_map {A B} (g : A -> B) (R : A -> A -> Prop) (S : B -> B -> Prop) l :
  (forall a b, R a b -> S (g a) (g b)) -> Sorted R l -> Sorted S (map g l).
Proof.
  intros HRS. induction 1 as [|a l Hs IH Hhd]; simpl; constructor; auto.
  destruct Hhd; simpl; constructor; auto.
Qed.

Lemma occurrences_snoc k words w :
  occurrences k (words ++ [w]) = occurrences k words + (if decide (w = k) then 1 else 0).
Proof.
  unfold occurrences. rewrite count_occ_app. simpl.
  destruct (string_dec w k), (decide (w = k)); try done; lia.
Qed.

Lemma occurrences_zero k words : k ∉ words -> occurrences k words = 0.
Proof.
  intros H. unfold occurrences.
  rewrite (proj1 (count_occ_not_In string_dec words k)); [done|].
  by rewrite <- list_elem_of_In.
Qed.

Lemma lookupAssoc_Some (o : list (string * Count)) k v :
  lookupAssoc k o = Some v -> (k, v) ∈ o.
Proof.
  unfold lookupAssoc. destruct (find _ o) as [[k' v']|] eqn:E; [|discriminate].
  simpl. intros [= <-]. apply find_some in E as [Hin Hk]. simpl in Hk.
  apply String.eqb_eq in Hk as ->. by apply list_elem_of_In.
Qed.

Lemma lookupAssoc_None (o : list (string * Count)) k :
  lookupAssoc k o = None -> k ∉ map fst o.
Proof.
  unfold lookupAssoc. destruct (find _ o) as [[k' v']|] eqn:E; [discriminate|].
  intros _ ([k' v] & Hk & Hin)%list_elem_of_fmap. simpl in Hk. subst k'.
  apply list_elem_of_In in Hin. apply (find_none _ _ E) in Hin. simpl in Hin.
  by rewrite String.eqb_refl in Hin.
Qed.

Lemma setProperty_new key v (o : list (string * Count)) :
  key ∉ map fst o -> setProperty key v o = o ++ [(key, v)].
Proof.
  induction o as [|[k w] o IH]; simpl; intros H; [done|].
  destruct (String.eqb_spec k key) as [->|Hne].
  - destruct H. left.
  - rewrite IH; [done|]. intros Hin. apply H. by right.
Qed.

Lemma setProperty_elem key v (o : list (string * Count)) k w :
  NoDup (map fst o) -> key ∈ map fst o ->
  (k, w) ∈ setProperty key v o ->
  (k = key /\ w = v) \/ (k <> key /\ (k, w) ∈ o).
Proof.
  induction o as [|[k0 w0] o IH]; simpl; intros Hnd Hin H.
  - by apply elem_of_nil in Hin.
  - apply NoDup_cons in Hnd as [Hk0 Hnd].
    destruct (String.eqb_spec k0 key) as [->|Hne].
    + apply elem_of_cons in H as [[= -> ->]|H]; [by left|].
      right. split; [|by right]. intros ->. apply Hk0.
      apply list_elem_of_fmap. by exists (key, w).
    + apply elem_of_cons in H as [[= -> ->]|H]; [right; split; [done|left]|].
      apply elem_of_cons in Hin as [->|Hin]; [done|].
      destruct (IH Hnd Hin H) as [?|[? ?]]; [by left|right; split; [done|by right]].
Qed.

Lemma setProperty_same_keys key v (o : list (string * Count)) :
  key ∈ map fst o -> map fst (setProperty key v o) = map fst o.
Proof.
  induction o as [|[k0 w0] o IH]; simpl; intros Hin.
  - by apply elem_of_nil in Hin.
  - destruct (String.eqb_spec k0 key) as [->|Hne]; [done|]. simpl. f_equal.
    apply IH. apply elem_of_cons in Hin as [->|Hin]; done.
Qed.

Lemma counted_step words o w :
  w <> "__proto__" -> lookupAssoc w objectPrototype = None ->
  counted words o -> counted (words ++ [w]) (countWord o w).
Proof.
  intros Hp Hi (Hnd & Hval & Hall). unfold countWord.
  apply String.eqb_neq in Hp. rewrite Hp.
  destruct (lookupAssoc w o) as [v|] eqn:E.
  - apply lookupAssoc_Some in E. destruct (Hval _ _ E) as [-> Hw].
    assert (w ∈ map fst o) as Hk by (apply list_elem_of_fmap; by exists (w, Times (occurrences w words))).
    split; [by rewrite setProperty_same_keys|]. split.
    + intros k v Hkv. apply setProperty_elem in Hkv as [[-> ->]|[Hne Hkv]]; auto.
      * split; [|apply elem_of_app; right; left].
        rewrite occurrences_snoc. by destruct (decide (w = w)).
      * destruct (Hval _ _ Hkv) as [-> Hin]. split; [|apply elem_of_app; by left].
        rewrite occurrences_snoc. destruct (decide (w = k)); [congruence|f_equal; lia].
    + intros k Hkin. rewrite setProperty_same_keys by done.
      apply elem_of_app in Hkin as [? | ->%list_elem_of_singleton]; auto.
  - rewrite Hi. apply lookupAssoc_None in E.
    assert (w ∉ words) as Hw by (intros Hw; by apply E, Hall).
    rewrite setProperty_new by done. split; [|split].
    + rewrite map_app. simpl. apply NoDup_app. repeat split; auto.
      * intros k Hk ->%list_elem_of_singleton. done.
      * apply NoDup_singleton.
    + intros k v [Hkv|[= -> ->]%list_elem_of_singleton]%elem_of_app.
      * destruct (Hval _ _ Hkv) as [-> Hin]. split; [|apply elem_of_app; by left].
        rewrite occurrences_snoc. destruct (decide (w = k)); [congruence|f_equal; lia].
      * split; [|apply elem_of_app; right; left].
        rewrite occurrences_snoc, occurrences_zero by done. by destruct (decide (w = w)).
    + intros k Hk. rewrite map_app. apply elem_of_app.
      apply elem_of_app in Hk as [? | ->%list_elem_of_singleton]; [left; auto|right; left].
Qed.

Lemma counted_foldl words pre o :
  plainWords words -> counted pre o -> counted (pre ++ words) (foldl countWord o words).
Proof.
  revert pre o. induction words as [|w words IH]; simpl; intros pre o Hplain Hc.
  - by rewrite app_nil_r.
  - replace (pre ++ w :: words) with ((pre ++ [w]) ++ words) by by rewrite <- app_assoc.
    apply IH; [intros x Hx; apply Hplain; by right|].
    destruct (Hplain w) as [? ?]; [left|]. by apply counted_step.
Qed.

Section KeywordOrder.
Context (tokenize : string -> list string) (stopwords : list string).

(** X3.  The ordering of C7, for a text none of whose filtered words is the name
    of an inherited property: the keywords are the distinct filtered words,
    in descending order of their number of occurrences. *)
Lemma extractKeywords_descending (text : string) :
  plainWords (filteredWords tokenize stopwords text) ->
  NoDup (extractKeywords tokenize stopwords text)
  /\ (forall word, word ∈ extractKeywords tokenize stopwords text
                   <-> word ∈ filteredWords tokenize stopwords text)
  /\ Sorted (fun a b => occurrences b (filteredWords tokenize stopwords text)
                        <= occurrences a (filteredWords tokenize stopwords text))
            (extractKeywords tokenize stopwords text).
Proof.
  intros Hplain. unfold extractKeywords, wordFreq.
  set (fw := filteredWords tokenize stopwords text) in *.
  destruct (counted_foldl fw [] [] Hplain) as (Hnd & Hval & Hall).
  { split; [apply NoDup_nil_2|]. split; [intros k v H|intros k H]; by apply elem_of_nil in H. }
  simpl in *. set (o := foldl countWord [] fw) in *.
  set (f := fun e : string * Count => occurrences e.1 fw).
  assert (sort byCountDescending o = sort (fun a b => f a <? f b) o) as ->.
  { apply sort_ext. intros [k v] [k' v'] H H'.
    destruct (Hval _ _ H) as [-> _], (Hval _ _ H') as [-> _]. done. }
  repeat split.
  - assert (Permutation (map fst (sort (fun a b => f a <? f b) o)) (map fst o)) as ->
      by apply Permutation_map, sort_perm.
    done.
  - intros ([k v] & -> & H%sort_elem)%list_elem_of_fmap. by destruct (Hval _ _ H).
  - intros H%Hall. apply list_elem_of_fmap in H as (e & -> & H).
    apply list_elem_of_fmap. exists e. split; [done|]. by apply sort_elem.
  - eapply Sorted_map; [|apply (sort_sorted f)]. intros a b H. exact H.
Qed.

End KeywordOrder.

(** X3 for the text "beta alpha Alpha", whose words are plain. *)
Lemma extractKeywords_descending_alpha :
  NoDup (extractKeywords (wordsFrom "") someStopwords "beta alpha Alpha")
  /\ (forall word,
        word ∈ extractKeywords (wordsFrom "") someStopwords "beta alpha Alpha"
        <-> word ∈ filteredWords (wordsFrom "") someStopwords "beta alpha Alpha")
  /\ Sorted (fun a b =>
               occurrences b (filteredWords (wordsFrom "") someStopwords "beta alpha Alpha")
               <= occurrences a
                    (filteredWords (wordsFrom "") someStopwords "beta alpha Alpha"))
            (extractKeywords (wordsFrom "") someStopwords "beta alpha Alpha").
Proof.
  apply (extractKeywords_descending (wordsFrom "") someStopwords "beta alpha Alpha").
  intros word Hword. apply list_elem_of_In in Hword. vm_compute in Hword.
  destruct Hword as [<-|[<-|[<-|[]]]]; split; first [discriminate | reflexivity].
Defined.

End KeywordFacts.

Section EntityFacts.
Import JsString NerProcessor.

(** ** Entities *)

Lemma forallb_filter f s : forallb f (filter f s) = true.
Proof.
  induction s as [|c s IH]; simpl; [done|].
  destruct (f c) eqn:E; simpl; [by rewrite E|done].
Qed.

Lemma forallb_trimStart f s : forallb f s = true -> forallb f (trimStart s) = true.
Proof.
  induction s as [|c s IH]; simpl; [done|].
  intros [Hc Hs]%andb_prop. destruct (isSpace c); [by apply IH|].
  simpl. by rewrite Hc, Hs.
Qed.

Lemma forallb_trimEnd f s : forallb f s = true -> forallb f (trimEnd s) = true.
Proof.
  induction s as [|c s IH]; simpl; [done|].
  intros [Hc Hs]%andb_prop. specialize (IH Hs).
  destruct (trimEnd s) as [|d t].
  - destruct (isSpace c); simpl; [done|by rewrite Hc].
  - simpl in *. by rewrite Hc, IH.
Qed.

Lemma forallb_trim f s : forallb f s = true -> forallb f (trim s) = true.
Proof. intros H. by apply forallb_trimEnd, forallb_trimStart. Qed.

Lemma trimStart_noLeadingSpace s : noLeadingSpace (trimStart s).
Proof.
  induction s as [|c s IH]; simpl; [done|].
  destruct (isSpace c) eqn:E; [done|]. simpl. done.
Qed.

Lemma trimStart_fixed s : noLeadingSpace s -> trimStart s = s.
Proof. destruct s as [|c s]; simpl; [done|]. by intros ->. Qed.

Lemma trimEnd_noLeadingSpace s : noLeadingSpace s -> noLeadingSpace (trimEnd s).
Proof.
  destruct s as [|c s]; simpl; [done|]. intros H.
  destruct (trimEnd s); simpl; [by rewrite H|done].
Qed.

Lemma trimEnd_idempotent s : trimEnd (trimEnd s) = trimEnd s.
Proof.
  induction s as [|c s IH]; simpl; [done|].
  destruct (trimEnd s) as [|d t] eqn:E.
  - destruct (isSpace c) eqn:Ec; simpl; [done|by rewrite Ec].
  - simpl in *. by rewrite IH.
Qed.

Lemma trim_idempotent s : trim (trim s) = trim s.
Proof.
  unfold trim.
  rewrite (trimStart_fixed (trimEnd (trimStart s))).
  - apply trimEnd_idempotent.
  - apply trimEnd_noLeadingSpace, trimStart_noLeadingSpace.
Qed.

Lemma trim_without_space s :
  forallb (fun c => negb (isSpace c)) s = true -> trim s = s.
Proof.
  intros H. unfold trim.
  assert (trimStart s = s) as ->.
  { destruct s as [|c s]; simpl in *; [done|].
    apply andb_prop in H as [Hc _]. by apply negb_true_iff in Hc as ->. }
  induction s as [|c s IH]; simpl in *; [done|].
  apply andb_prop in H as [Hc Hs]. rewrite (IH Hs).
  apply negb_true_iff in Hc. rewrite Hc. by destruct s.
Qed.

Lemma forallb_impl (f g : ascii -> bool) s :
  (forall c, f c = true -> g c = true) -> forallb f s = true -> forallb g s = true.
Proof.
  intros Hfg. induction s as [|c s IH]; simpl; [done|].
  intros [Hc Hs]%andb_prop. by rewrite (Hfg _ Hc), IH.
Qed.

Lemma letter_allowed c : isLetter c = true -> allowed c = true.
Proof. destruct c as [[] [] [] [] [] [] [] []]; by vm_compute. Qed.

Lemma letter_no_space c : isLetter c = true -> negb (isSpace c) = true.
Proof. destruct c as [[] [] [] [] [] [] [] []]; by vm_compute. Qed.

(** A name made of at least two letters is a cleaned string. *)
Lemma letters_cleaned s :
  forallb isLetter s = true -> (1 < String.length s)%nat -> cleaned s.
Proof.
  intros Hl Hn. repeat split; [|apply trim_without_space|done].
  - apply (forallb_impl isLetter); [apply letter_allowed|done].
  - apply (forallb_impl isLetter); [apply letter_no_space|done].
Qed.

Lemma cleanEntityText_cleaned text :
  (1 < String.length (cleanEntityText text))%nat -> cleaned (cleanEntityText text).
Proof.
  intros Hn. repeat split; [| |done]; unfold cleanEntityText.
  - apply forallb_trim, (forallb_filter allowed).
  - apply trim_idempotent.
Qed.

Lemma uniqueFrom_spec seen l :
  NoDup (uniqueFrom seen l)
  /\ forall x, x ∈ uniqueFrom seen l -> x ∈ l /\ x ∉ seen.
Proof.
  revert seen. induction l as [|y l IH]; simpl; intros seen.
  - split; [constructor|]. intros x H. by apply elem_of_nil in H.
  - destruct (bool_decide_reflect (y ∈ seen)) as [Hy|Hy].
    + destruct (IH seen) as [Hnd Hel]. split; [done|].
      intros x Hx. destruct (Hel x Hx). split; [by right|done].
    + destruct (IH (y :: seen)) as [Hnd Hel]. split.
      * constructor; [|done]. intros Hin. destruct (Hel y Hin) as [_ Hn].
        apply Hn. left.
      * intros x [->|Hx]%elem_of_cons; [split; [left|done]|].
        destruct (Hel x Hx) as [? Hn]. split; [by right|].
        intros Hs. apply Hn. by right.
Qed.

Lemma unique_NoDup l : NoDup (unique l).
Proof. apply uniqueFrom_spec. Qed.

Lemma unique_elem l x : x ∈ unique l -> x ∈ l.
Proof. intros H. by apply (uniqueFrom_spec [] l). Qed.

Lemma bucketOk_nil : bucketOk [].
Proof. split; constructor. Qed.

Lemma bucketOk_unique l : Forall cleaned l -> bucketOk (unique l).
Proof.
  intros H. split; [apply unique_NoDup|].
  apply Forall_forall. intros x Hx%unique_elem.
  by apply (proj1 (Forall_forall _ _) H).
Qed.

Lemma dedupe_ok bucket : bucketOk (dedupe bucket).
Proof.
  apply bucketOk_unique, Forall_forall. intros x Hx.
  apply list_elem_of_In, filter_In in Hx as [Hin Hlen].
  apply in_map_iff in Hin as (y & <- & _).
  apply cleanEntityText_cleaned. by apply Nat.ltb_lt in Hlen.
Qed.

Lemma emptyEntities_wellFormed : wellFormed emptyEntities.
Proof.
  repeat split; try constructor. exists []. split; [done|apply bucketOk_nil].
Qed.

Lemma processNERResults_wellFormed data : wellFormed (processNERResults data).
Proof.
  destruct data as [| |items]; try apply emptyEntities_wellFormed.
  simpl. repeat split; try apply dedupe_ok.
  eexists. split; [done|apply dedupe_ok].
Qed.

(** *** The fall-back patterns *)

Lemma span_forallb f s : forallb f (span f s).1 = true.
Proof.
  induction s as [|c s IH]; simpl; [done|].
  destruct (f c) eqn:E; [|done].
  destruct (span f s) as [a b]. simpl in *. by rewrite E, IH.
Qed.

Lemma upper_letter c : isUpper c = true -> isLetter c = true.
Proof. unfold isLetter. by intros ->. Qed.

Lemma spacesThenName_letters first s name n :
  (forall c, first c = true -> isLetter c = true) ->
  spacesThenName first s = Some (name, n) ->
  forallb isLetter name = true /\ (1 < String.length name)%nat.
Proof.
  intros Hfirst. unfold spacesThenName.
  destruct (span isSpace s) as [ws rest].
  destruct ws as [|w ws]; [done|]. destruct rest as [|c r]; [done|].
  destruct (first c) eqn:Ec; [|done].
  pose proof (span_forallb isLetter r) as Hl.
  destruct (span isLetter r) as [letters rest']. simpl in Hl.
  destruct letters as [|l letters]; [done|].
  intros [= <- <-]. split; [|simpl; lia].
  change (isLetter c && forallb isLetter (String l letters) = true).
  by rewrite (Hfirst _ Ec), Hl.
Qed.

Lemma companyPattern_cleaned s name n :
  companyPattern s = Some (name, n) -> cleaned (trim name).
Proof.
  unfold companyPattern.
  destruct s as [|a s]; [done|]. destruct a as [[] [] [] [] [] [] [] []]; try done.
  destruct s as [|t s]; [done|]. destruct t as [[] [] [] [] [] [] [] []]; try done.
  destruct (spacesThenName isUpper s) as [[company k]|] eqn:E; [|done].
  intros [= <- <-].
  apply (spacesThenName_letters _ _ _ _ upper_letter) in E as [Hl Hn].
  assert (cleaned company) as Hc by by apply letters_cleaned.
  destruct Hc as (? & Ht & ?). by rewrite Ht.
Qed.

Lemma noCase_letter a b :
  Ascii.eqb a (lowerChar b) && between 0 127 b = true ->
  isLetter a = true -> isLetter b = true.
Proof.
  intros [Ha Hb]%andb_prop. apply Ascii.eqb_eq in Ha as ->.
  revert Hb. destruct b as [[] [] [] [] [] [] [] []]; by vm_compute.
Qed.

Lemma prefixNoCase_letters p s m rest :
  forallb isLetter p = true ->
  prefixNoCase p s = Some (m, rest) ->
  forallb isLetter m = true /\ String.length m = String.length p.
Proof.
  revert s m rest. induction p as [|a p IH]; simpl; intros s m rest Hp.
  - by intros [= <- <-].
  - apply andb_prop in Hp as [Ha Hp].
    destruct s as [|b s]; [done|].
    destruct (Ascii.eqb a (lowerChar b) && between 0 127 b) eqn:E; [|done].
    destruct (prefixNoCase p s) as [[m' rest']|] eqn:E'; [|done].
    intros [= <- <-]. destruct (IH _ _ _ Hp E') as [Hm Hlen].
    simpl. rewrite (noCase_letter _ _ E Ha), Hm, Hlen. done.
Qed.

Lemma educationPattern_cleaned s kind n :
  educationPattern s = Some (kind, n) -> cleaned (trim kind).
Proof.
  unfold educationPattern.
  set (head := match prefixNoCase "university" s with
               | Some m => Some m
               | None => prefixNoCase "college" s
               end).
  assert (forall k r, head = Some (k, r) ->
            forallb isLetter k = true /\ (1 < String.length k)%nat) as Hhead.
  { intros k r. unfold head.
    destruct (prefixNoCase "university" s) as [[m r']|] eqn:E.
    - intros [= <- <-]. apply prefixNoCase_letters in E as [? ->]; [|done].
      split; [done|simpl; lia].
    - intros E'. apply prefixNoCase_letters in E' as [? ->]; [|done].
      split; [done|simpl; lia]. }
  destruct head as [[k r]|]; [|done].
  destruct (Hhead k r eq_refl) as [Hl Hn].
  destruct (span isSpace r) as [ws r1].
  destruct ws as [|w ws]; [done|].
  destruct (prefixNoCase "of" r1) as [[o r2]|]; [|done].
  destruct (spacesThenName isLetter r2) as [[nm k']|]; [|done].
  intros [= <- <-].
  assert (cleaned k) as Hc by by apply letters_cleaned.
  destruct Hc as (? & Ht & ?). by rewrite Ht.
Qed.

Lemma execAll_elem pattern skip text x :
  x ∈ execAll pattern skip text ->
  exists s group n, pattern s = Some (group, n) /\ x = trim group.
Proof.
  revert skip. induction text as [|c text IH]; simpl; intros skip H.
  - by apply elem_of_nil in H.
  - destruct skip as [|k]; [|by apply (IH k)].
    destruct (pattern (String c text)) as [[group n]|] eqn:E; [|by apply (IH 0%nat)].
    apply elem_of_cons in H as [->|H]; [eauto|by apply (IH (Nat.pred n))].
Qed.

Lemma extractByPattern_ok text pattern :
  (forall s group n, pattern s = Some (group, n) -> cleaned (trim group)) ->
  bucketOk (extractByPattern text pattern).
Proof.
  intros Hp. apply bucketOk_unique, Forall_forall. intros x Hx.
  apply list_elem_of_In, filter_In in Hx as [Hin _]. apply list_elem_of_In in Hin.
  apply execAll_elem in Hin as (s & group & n & E & ->). eauto.
Qed.

Lemma bucketOk_filter (f : string -> bool) l :
  bucketOk l -> bucketOk (List.filter f l).
Proof.
  intros [Hnd Hc]. split.
  - induction Hnd as [|x l Hx Hnd IH]; simpl; [constructor|].
    apply Forall_cons in Hc as [_ Hc]. destruct (f x); [|by apply IH].
    constructor; [|by apply IH]. intros Hin. apply Hx.
    apply list_elem_of_In, filter_In in Hin as [Hin _]. by apply list_elem_of_In.
  - apply Forall_forall. intros x Hx.
    apply list_elem_of_In, filter_In in Hx as [Hin _]. apply list_elem_of_In in Hin.
    by apply (proj1 (Forall_forall _ _) Hc).
Qed.

Lemma techKeywords_ok :
  bucketOk ["javascript"; "react"; "node"; "python"; "java"; "html"; "css"].
Proof.
  split; [by apply (bool_decide_unpack _)|].
  repeat constructor; try (apply letters_cleaned; [by vm_compute|simpl; lia]).
Qed.

Lemma fallbackEntityExtraction_wellFormed input :
  wellFormed (fallbackEntityExtraction input).
Proof.
  destruct input as [text|]; [|apply emptyEntities_wellFormed].
  unfold fallbackEntityExtraction.
  destruct (String.eqb text ""); [apply emptyEntities_wellFormed|].
  unfold wellFormed. cbn [skills companies titles education certifications].
  split; [|split; [|split; [|split]]].
  - apply bucketOk_filter, techKeywords_ok.
  - apply extractByPattern_ok, companyPattern_cleaned.
  - apply bucketOk_nil.
  - apply extractByPattern_ok, educationPattern_cleaned.
  - exists []. split; [done|apply bucketOk_nil].
Qed.

(** *** The run of [extractEntities] *)

Local Arguments fallbackEntityExtraction : simpl never.
Local Arguments processNERResults : simpl never.

Lemma command_cases {A} (run : Redis -> A * Redis) r :
  (exists f, faults r = true :: f
             /\ command run r = (Err "redis command failed", with_faults f r))
  \/ (exists f, (faults r = [] /\ f = [] \/ faults r = false :: f)
                /\ command run r
                   = (Ok (run (with_faults f r)).1, (run (with_faults f r)).2)).
Proof.
  unfold command. destruct (faults r) as [|[|] f] eqn:E.
  - right. exists []. split; [by left|].
    replace (with_faults [] r) with r by (destruct r; simpl in *; by subst).
    by destruct (run r).
  - left. eauto.
  - right. exists f. split; [by right|]. by destruct (run (with_faults f r)).
Qed.

Lemma nerCacheOk_faults f r : nerCacheOk r -> nerCacheOk (with_faults f r).
Proof. unfold nerCacheOk. by destruct r. Qed.

Lemma nerCacheOk_set key e ttl r :
  wellFormed e -> nerCacheOk r ->
  nerCacheOk (with_nerKeys (<[key := {| cached := Json e; ex := ttl |}]> (nerKeys r)) r).
Proof.
  intros He Hr k slot e'. destruct r; simpl in *.
  destruct (decide (key = k)) as [->|Hne].
  - rewrite lookup_insert_eq. intros [= <-]. simpl. by intros [= <-].
  - rewrite lookup_insert_ne by done. apply Hr.
Qed.

Lemma nerCacheOk_del key r :
  nerCacheOk r -> nerCacheOk (with_nerKeys (delete key (nerKeys r)) r).
Proof.
  intros Hr k slot e'. destruct r; simpl in *.
  destruct (decide (key = k)) as [->|Hne].
  - by rewrite lookup_delete_eq.
  - rewrite lookup_delete_ne by done. apply Hr.
Qed.

Lemma callService_spec inference text key r :
  nerCacheOk r ->
  match callService inference text key r with
  | (Ok e, r') =>
      wellFormed e /\ nerCacheOk r'
      /\ exists data, inference text = Ok data /\ data <> Falsy
                      /\ e = processNERResults data
  | (Err _, r') =>
      nerCacheOk r'
      /\ ((exists msg, inference text = Err msg) \/ inference text = Ok Falsy)
  end.
Proof.
  intros Hr. unfold callService.
  destruct (inference text) as [data|msg] eqn:E; [|simpl; eauto].
  assert (data = Falsy \/ data <> Falsy) as [->|Hd] by (destruct data; auto).
  { simpl. eauto. }
  assert (forall T (a b : M T), match data with Falsy => a | _ => b end = b) as ->
    by (intros; by destruct data).
  unfold bind, try_catch, redisSet, ret.
  destruct (command_cases
              (fun r0 => (tt, with_nerKeys
                                (<[key := {| cached := Json (processNERResults data);
                                             ex := Some CACHE_EXPIRATION |}]> (nerKeys r0)) r0)) r)
    as [(f & _ & ->)|(f & _ & ->)]; simpl.
  - split; [apply processNERResults_wellFormed|].
    split; [by apply nerCacheOk_faults|]. eauto.
  - split; [apply processNERResults_wellFormed|]. split; [|eauto].
    apply (nerCacheOk_set key _ _ (with_faults f r));
      [apply processNERResults_wellFormed|by apply nerCacheOk_faults].
Qed.

Lemma valid_not_invalid text :
  String.eqb text "" || String.eqb (trim text) "" = false -> trim text <> "".
Proof. intros [_ H]%orb_false_elim. by apply String.eqb_neq. Qed.

Lemma invalid_text text :
  String.eqb text "" || String.eqb (trim text) "" = true -> trim text = "".
Proof.
  intros [H|H]%orb_prop; apply String.eqb_eq in H; [by subst|done].
Qed.

(** The two outcomes of [callService] inside [extractEntities]. *)
Ltac call_service Ev :=
  match goal with
  | |- context [callService ?i ?t ?k ?r1] =>
      let Hs := fresh "Hs" in
      let Hr1 := fresh "Hr1" in
      assert (nerCacheOk r1) as Hr1
        by (repeat first [apply nerCacheOk_del | apply nerCacheOk_faults | assumption]);
      pose proof (callService_spec i t k r1 Hr1) as Hs;
      destruct (callService i t k r1) as [[?e|?msg] ?r2];
      [ destruct Hs as (?Hwf & ?Hok & ?data & ?Hd & ?Hn & ->)
      | destruct Hs as [?Hok ?Hfail] ];
      unfold ret; do 2 eexists; (split; [reflexivity|]);
      (split; [first [assumption | apply fallbackEntityExtraction_wellFormed]|]);
      (split; [assumption|]);
      (split; [intros Hi; first [by destruct (Ev Hi) | reflexivity]|]);
      (split;
       [ intros ? [= <-] _ [[? Hm]|Hm]; first [reflexivity | congruence]
       | intros ? [= <-] _ _ Hm;
         first [ congruence
               | match goal with
                 | Hd : _ = Ok ?d |- _ => rewrite Hm in Hd; by injection Hd as <-
                 | Hf : (exists _, _) \/ _ |- _ => destruct Hf as [[? ?]|?]; congruence
                 end ] ])
  end.

(** C5, as the code has it.  On a cache whose entries are well formed,
    [extractEntities] always resolves, with a well-formed structure, and
    leaves the cache well formed.  The result is the regex/keyword fall-back
    on empty or invalid input and, when the cache has no entities for the
    text, when the service rejects or sends no data.  When the service is
    consulted and sends data that is not an array, the result is the five
    empty buckets. *)
Theorem extractEntities_well_formed
    (inference : string -> Result NerData) (input : Input) (r : Redis) :
  nerCacheOk r ->
  exists e r',
    extractEntities inference input r = (Ok e, r')
    /\ wellFormed e
    /\ nerCacheOk r'
    /\ (invalidInput input -> e = fallbackEntityExtraction input)
    /\ (forall text, input = Str text -> cachedEntities text r = None ->
          (exists msg, inference text = Err msg) \/ inference text = Ok Falsy ->
          e = fallbackEntityExtraction input)
    /\ (forall text, input = Str text -> ~ invalidInput input ->
          consults text r ->
          inference text = Ok NotArray -> e = emptyEntities).
Proof.
  intros Hr. unfold extractEntities, try_catch.
  destruct input as [text|]; cycle 1.
  { simpl. do 2 eexists. split; [done|].
    split; [apply emptyEntities_wellFormed|]. split; [done|].
    split; [done|]. split; [done|]. intros text _ H. by destruct H. }
  destruct (String.eqb text "" || String.eqb (trim text) "") eqn:Ev.
  { apply invalid_text in Ev. simpl. do 2 eexists. split; [done|].
    split; [apply fallbackEntityExtraction_wellFormed|]. split; [done|].
    split; [done|]. split; [done|]. intros t [= <-] H. by destruct H. }
  apply valid_not_invalid in Ev.
  unfold bind at 1, redisGet.
  destruct (command_cases
              (fun r0 => (nerKeys r0 !! ("ner:" +:+ hashText text), r0)) r)
    as [(f & Hf & ->)|(f & Hget & ->)].
  { simpl. do 2 eexists. split; [done|].
    split; [apply fallbackEntityExtraction_wellFormed|].
    split; [by apply nerCacheOk_faults|].
    split; [done|]. split; [done|]. intros t _ _ [H _].
    unfold fault in H. rewrite Hf in H. discriminate H. }
  simpl fst. simpl snd.
  replace (nerKeys (with_faults f r)) with (nerKeys r) by by destruct r.
  cbn [fst snd].
  destruct (nerKeys r !! ("ner:" +:+ hashText text)) as [[[e0|] ttl]|] eqn:Ehit;
    cbn [cached].
  - do 2 eexists. split; [done|]. split; [by apply (Hr _ _ _ Ehit)|].
    split; [by apply nerCacheOk_faults|]. split; [done|].
    split; [intros t [= <-]; unfold cachedEntities; by rewrite Ehit|].
    intros t [= <-] _ [_ Hc]. rewrite Ehit in Hc. by destruct Hc.
  - unfold bind, redisDel.
    destruct (command_cases
                (fun r0 => (tt, with_nerKeys
                                  (delete ("ner:" +:+ hashText text) (nerKeys r0)) r0))
                (with_faults f r))
      as [(f' & Hf' & ->)|(f' & _ & ->)].
    + do 2 eexists. split; [done|].
      split; [apply fallbackEntityExtraction_wellFormed|].
      split; [by do 2 apply nerCacheOk_faults|].
      split; [done|]. split; [done|].
      intros t [= <-] _ [_ Hc]. exfalso. rewrite Ehit in Hc. destruct Hc as [_ Hc].
      unfold fault in Hc. destruct r; simpl in *.
      destruct Hget as [[_ ->]|Hget]; [done|]. subst. discriminate Hc.
    + cbn [fst snd]. call_service Ev.
  - call_service Ev.
Qed.

(** C5 for a resume line on an empty Redis, with a service that answers
    with two tagged tokens. *)
Lemma extractEntities_well_formed_sample :
  nerCacheOk emptyRedis
  /\ exists e r',
       extractEntities sampleInference (Str "Worked at Google with React") emptyRedis
         = (Ok e, r')
       /\ wellFormed e
       /\ nerCacheOk r'
       /\ (invalidInput (Str "Worked at Google with React") ->
           e = fallbackEntityExtraction (Str "Worked at Google with React"))
       /\ (forall text, Str "Worked at Google with React" = Str text ->
             cachedEntities text emptyRedis = None ->
             (exists msg, sampleInference text = Err msg)
             \/ sampleInference text = Ok Falsy ->
             e = fallbackEntityExtraction (Str "Worked at Google with React"))
       /\ (forall text, Str "Worked at Google with React" = Str text ->
             ~ invalidInput (Str "Worked at Google with React") ->
             consults text emptyRedis ->
             sampleInference text = Ok NotArray -> e = emptyEntities).
Proof.
  assert (nerCacheOk emptyRedis) as H.
  { intros key slot e He. simpl in He. rewrite lookup_empty in He. discriminate He. }
  split; [exact H|].
  exact (extractEntities_well_formed sampleInference
           (Str "Worked at Google with React") emptyRedis H).
Defined.

(** C5, as the specification states it, fails when the service answers
    with an object: the text "I know javascript" then gets the five empty
    buckets, not the fall-back's skills. *)
Lemma extractEntities_object_answer :
  ~ entitiesClaim objectInference (Str "I know javascript") emptyRedis.
Proof.
  intros (e & r' & Hrun & _ & Hfb).
  assert ((extractEntities objectInference (Str "I know javascript") emptyRedis).1
          = Ok emptyEntities) as H by (vm_compute; reflexivity).
  rewrite Hrun in H. simpl in H. injection H as ->.
  assert (emptyEntities = fallbackEntityExtraction (Str "I know javascript")) as Hf.
  { apply Hfb. right. exists "I know javascript". split; [done|]. exact I. }
  vm_compute in Hf. discriminate Hf.
Qed.

End EntityFacts.

Section PipelineRuns.
Import ProcessResume.

(** ** The pipeline *)

(** The bare call of [setSkillProgress] throws before any command is sent. *)
Lemma setSkillProgress_detached (userId : string) (skills : list SkillRecord) (r : Redis) :
  UserDashboardCache.setSkillProgressFrom UserDashboardCache.Detached userId skills r
  = (Err "this.getSkillProgress is not a function", r).
Proof. reflexivity. Qed.

(** Called on the module object, it is the method. *)
Lemma setSkillProgress_attached (userId : string) (skills : list SkillRecord) :
  UserDashboardCache.setSkillProgressFrom UserDashboardCache.ModuleObject userId skills
  = UserDashboardCache.setSkillProgress userId skills.
Proof. reflexivity. Qed.

Section PipelineFacts.
Context (readPdf readDocx readPlain : string -> Result string)
        (sentimentService : string -> Result (list (string * option Q)))
        (inference : string -> Result NerProcessor.NerData)
        (sentenceTokenize wordTokenize : string -> Result (list string))
        (textStatistics : string -> Result (option Q * option Q * option Q))
        (tokenize : string -> list string)
        (stopwords : list string)
        (extractImportantPhrases : string -> Result (list string))
        (random : nat -> Q).

Local Abbreviation run :=
  (analyse readPdf readDocx readPlain sentimentService inference
     sentenceTokenize wordTokenize textStatistics tokenize stopwords
     extractImportantPhrases random).

(** The body of [processResume] never runs to its [return]: a stage before
    the cache writes throws, or [setDashboard] rejects, or the bare call of
    [setSkillProgress] throws. *)
Lemma analyse_throws filePath fileType userId now r :
  is_ok (run filePath fileType userId now r).1 = false.
Proof.
  unfold analyse, bind at 1, lift.
  destruct (extractTextFromFile _ _ _ _ _) as [text|m]; [|done].
  unfold bind at 1.
  destruct (NerProcessor.extractEntities inference _ r) as [[e|m] r1]; [|done].
  unfold bind at 1.
  destruct (calculateReadability _ _ _ _) as [rd|m]; [|done].
  unfold bind at 1.
  destruct (extractImportantPhrases text) as [phrases|m]; [|done].
  unfold bind at 1.
  destruct (UserDashboardCache.setDashboard _ _ _ r1) as [[b|m] r2]; [|done].
  unfold bind at 1. by rewrite setSkillProgress_detached.
Qed.

End PipelineFacts.

(** C10.  [processResume] always resolves, and what it resolves with is the
    fixed fall-back analysis: whichever stage fails (the extraction of the
    text, the analysis, a cache write that is rejected), the handler
    returns it, and no run gets past the cache writes, where the bare call
    of [setSkillProgress] throws.  The fall-back has score 70, no keywords,
    no phrases, the neutral sentiment, an all-zero readability, empty entity
    buckets and an empty skill assessment. *)
Theorem processResume_never_rejects
    (readPdf readDocx readPlain : string -> Result string)
    (sentimentService : string -> Result (list (string * option Q)))
    (inference : string -> Result NerProcessor.NerData)
    (sentenceTokenize wordTokenize : string -> Result (list string))
    (textStatistics : string -> Result (option Q * option Q * option Q))
    (tokenize : string -> list string)
    (stopwords : list string)
    (extractImportantPhrases : string -> Result (list string))
    (random : nat -> Q)
    (filePath fileType userId now : string) (r : Redis) :
  (processResume readPdf readDocx readPlain sentimentService inference
     sentenceTokenize wordTokenize textStatistics tokenize stopwords
     extractImportantPhrases random filePath fileType userId now r).1
  = Ok fallbackAnalysis
  /\ score (dashboard fallbackAnalysis) = 70
  /\ keywords (dashboard fallbackAnalysis) = []
  /\ importantPhrases (dashboard fallbackAnalysis) = []
  /\ sentiment (dashboard fallbackAnalysis)
     = {| Sentiment.label := "neutral"; Sentiment.score := Some 1%Q;
          Sentiment.allResults := [] |}
  /\ readability (dashboard fallbackAnalysis)
     = {| Readability.sentenceCount := 0; Readability.wordCount := 0;
          Readability.avgSentenceLength := Some 0%Q;
          Readability.avgWordLength := Some 0%Q;
          Readability.fleschScore := Some 0%Q;
          Readability.fleschGradeLevel := Some 0%Q;
          Readability.difficultWords := Some 0%Q |}
  /\ skills (entities (dashboard fallbackAnalysis)) = []
  /\ companies (entities (dashboard fallbackAnalysis)) = []
  /\ titles (entities (dashboard fallbackAnalysis)) = []
  /\ education (entities (dashboard fallbackAnalysis)) = []
  /\ skillAssessment fallbackAnalysis = [].
Proof.
  split; [|by repeat split].
  pose proof (analyse_throws readPdf readDocx readPlain sentimentService
                inference sentenceTokenize wordTokenize textStatistics tokenize
                stopwords extractImportantPhrases random filePath fileType userId now r)
    as H.
  unfold processResume, try_catch, ret.
  by destruct (analyse _ _ _ _ _ _ _ _ _ _ _ _ filePath fileType userId now r)
    as [[a0|msg] r0].
Qed.

(** The sample resume on a healthy Redis: every stage succeeds and the
    dashboard, with score 95, is cached; the caller gets the fall-back, and
    the skills are not cached. *)
Lemma sample_run_falls_back :
  (Sample.processResume "text/plain" emptyRedis).1 = Ok fallbackAnalysis
  /\ score <$> (match dashboardKeys (Sample.processResume "text/plain" emptyRedis).2
                       !! "dashboard:u1" with
                | Some {| cached := Json d |} => Some d
                | _ => None
                end) = Some 95
  /\ skillsKeys (Sample.processResume "text/plain" emptyRedis).2 !! "skills:u1" = None.
Proof. repeat split; vm_compute; reflexivity. Qed.

(** A rejected cache write gives the fall-back as well: here the first
    [SET] of [setDashboard] (the second command of the run) is rejected, and
    nothing is cached. *)
Lemma sample_run_cache_write_rejected :
  (Sample.processResume "text/plain" (with_faults [false; false; true] emptyRedis)).1
    = Ok fallbackAnalysis
  /\ dashboardKeys
       (Sample.processResume "text/plain"
          (with_faults [false; false; true] emptyRedis)).2 !! "dashboard:u1" = None.
Proof. repeat split; vm_compute; reflexivity. Qed.

Lemma sample_run_unsupported_type :
  (Sample.processResume "image/png" emptyRedis).1 = Ok ProcessResume.fallbackAnalysis.
Proof. vm_compute. reflexivity. Qed.

End PipelineRuns.

Section RelevanceFacts.
Import FetchDevBlogs.

(** ** Relevance *)

Lemma recent_as_integers (now t : Z) :
  negb (Qle_bool 7 (inject_Z (now - t) / msPerDay)) = (now - t <? msOfDays 7).
Proof.
  unfold msOfDays. destruct (Z.ltb_spec (now - t) (7 * 86400000)) as [H|H].
  - apply negb_true_iff. destruct (Qle_bool _ _) eqn:E; [|done].
    apply Qle_bool_iff in E. exfalso.
    unfold Qle, Qdiv, Qmult, Qinv, msPerDay in E. simpl in E. lia.
  - apply negb_false_iff, Qle_bool_iff.
    unfold Qle, Qdiv, Qmult, Qinv, msPerDay. simpl. lia.
Qed.

Lemma calculateRelevance_formula (now : Z) (skill : Prioritized.t) (article : Article) :
  calculateRelevance now skill article
  == relevanceFormula
       (String.eqb (JsString.toLowerCase (tag article))
                   (JsString.toLowerCase (Prioritized.name skill)))
       now skill article.
Proof.
  unfold calculateRelevance, relevanceFormula, publishedWithin, readingTimeWithin, points.
  apply Q.min_compat; [|reflexivity].
  destruct (String.eqb _ _);
    (destruct (publishedAt article) as [t|];
     [rewrite recent_as_integers; destruct (_ <? _)|]);
    (destruct (readingTime article) as [m|]; [destruct (_ && _)|]); ring.
Qed.

Lemma relevance_of_fresh_match (now ta : Z) (a : Article) :
  tag a = "go" -> publishedAt a = Some ta -> now - ta < msOfDays 1 ->
  calculateRelevance now goGap a == 1.
Proof.
  intros Htag Hpub Hage. rewrite calculateRelevance_formula.
  unfold relevanceFormula, publishedWithin, points. rewrite Htag, Hpub.
  assert ((now - ta <? msOfDays 7) = true) as -> by (apply Z.ltb_lt; unfold msOfDays in *; lia).
  change (String.eqb _ _) with true. cbn [Prioritized.gap goGap].
  apply Q.min_r. destruct (readingTimeWithin _ _ _); by vm_compute.
Qed.

Lemma relevance_of_stale_mismatch (now tb : Z) (b : Article) :
  tag b = "python" -> publishedAt b = Some tb -> msOfDays 365 <= now - tb ->
  (calculateRelevance now goGap b <= 6 # 10)%Q.
Proof.
  intros Htag Hpub Hage. rewrite calculateRelevance_formula.
  unfold relevanceFormula, publishedWithin, points. rewrite Htag, Hpub.
  assert ((now - tb <? msOfDays 7) = false) as -> by (apply Z.ltb_ge; unfold msOfDays in *; lia).
  change (String.eqb _ _) with false. cbn [Prioritized.gap goGap].
  eapply Qle_trans; [apply Q.le_min_l|].
  destruct (readingTimeWithin _ _ _); by vm_compute.
Qed.

(** C8, as the code has it.  The relevance is the formula of the
    specification with the tag compared to the skill name without regard to
    case.  For the skill set [{name:"go", level:30, targetLevel:80}] the gap
    is 50, and of two candidates, one tagged "go" and published today, one
    tagged "python" and published a year ago, the former has the higher
    relevance.  Nothing is said of the list [fetchDevBlogs] returns. *)
Theorem relevance_formula_and_scores :
  (forall (now : Z) (skill : Prioritized.t) (article : Article),
      calculateRelevance now skill article
      == relevanceFormula
           (String.eqb (JsString.toLowerCase (tag article))
                       (JsString.toLowerCase (Prioritized.name skill)))
           now skill article)
  /\ prioritize [goLearner] = [goGap]
  /\ (forall (now ta tb : Z) (a b : Article),
        tag a = "go" -> publishedAt a = Some ta -> 0 <= now - ta < msOfDays 1 ->
        tag b = "python" -> publishedAt b = Some tb -> msOfDays 365 <= now - tb ->
        calculateRelevance now goGap a == 1
        /\ (calculateRelevance now goGap b < calculateRelevance now goGap a)%Q).
Proof.
  split; [apply calculateRelevance_formula|]. split; [by vm_compute|].
  intros now ta tb a b Ha Hta Hage Hb Htb Hold.
  pose proof (relevance_of_fresh_match now ta a Ha Hta (proj2 Hage)) as Hra.
  pose proof (relevance_of_stale_mismatch now tb b Hb Htb Hold) as Hrb.
  split; [exact Hra|]. rewrite Hra.
  eapply Qle_lt_trans; [exact Hrb|]. by vm_compute.
Qed.

(** C8 for two articles of eight minutes, the [python] one a year old, the
    [go] one an hour old. *)
Lemma relevance_formula_and_scores_articles :
  calculateRelevance 1752494400000 goGap
    (articleAbout "go" "go-modules" 1752490800000 8) == 1
  /\ (calculateRelevance 1752494400000 goGap
        (articleAbout "python" "python-tips" 1720958400000 8)
      < calculateRelevance 1752494400000 goGap
          (articleAbout "go" "go-modules" 1752490800000 8))%Q.
Proof.
  apply (proj2 (proj2 relevance_formula_and_scores)
           1752494400000 1752490800000 1720958400000
           (articleAbout "go" "go-modules" 1752490800000 8)
           (articleAbout "python" "python-tips" 1720958400000 8));
    first [reflexivity | unfold msOfDays; lia].
Defined.

(** C8, as the specification states it, fails for a tag that differs from
    the skill name by case: the skill "go" (gap 50) and an old, long article
    tagged "Go" have relevance 0.8, not 0.5. *)
Lemma relevance_tag_case :
  ~ relevanceClaim 1752494400000 goGap
      (articleAbout "Go" "go-generics" 1720958400000 20).
Proof. unfold relevanceClaim. intros H. vm_compute in H. discriminate H. Qed.

End RelevanceFacts.

(* ===================================================================== *)
(** * Part IV: further properties of the code                             *)
(* ===================================================================== *)

Section CacheLayer.
(** ** The cache layer *)
Import UserDashboardCache.

Lemma command_eval {A} (run : Redis -> A * Redis) r :
  command run r
  = if fault 0 r then (Err "redis command failed", advance 1 r)
    else (Ok (run (advance 1 r)).1, (run (advance 1 r)).2).
Proof.
  unfold command, fault, advance. destruct r as [a b c d e g h [|[|] f]]; simpl; try done.
  - unfold with_faults; simpl. by destruct (run _).
  - unfold with_faults; simpl. by destruct (run _).
Qed.

Lemma redisGet_healthy {A} (keys : Redis -> gmap string (Slot A)) key r :
  faults r = [] -> redisGet keys key r = (Ok (keys r !! key), r).
Proof. intros H. unfold redisGet, command. by rewrite H. Qed.

(** What a [setDashboard] that resolved has written. *)
Lemma setDashboard_inv userId d now r b r' :
  setDashboard userId d now r = (Ok b, r') ->
  dashboardKeys r' !! ("dashboard:" +:+ userId)
    = Some {| cached := Json d; ex := Some 3600 |}
  /\ userKeys r' !! ("user:" +:+ userId +:+ ":last_activity")
    = Some {| cached := Json now; ex := Some 7200 |}
  /\ skillsKeys r' = skillsKeys r.
Proof.
  unfold setDashboard, bind, redisSet, ret. rewrite command_eval.
  destruct (fault 0 r); [discriminate|]. cbn [fst snd].
  rewrite command_eval. destruct (fault 0 _); [discriminate|]. cbn [fst snd].
  intros [= <- <-]. destruct r; cbn. by rewrite !lookup_insert_eq.
Qed.

(** X6.  A [setDashboard] that resolved has stored the dashboard under
    [dashboard:{userId}] with an expiry of one hour and the time of the call
    under [user:{userId}:last_activity] with an expiry of two hours, has left
    the skills cache alone, and a [getDashboard] on a healthy connection
    returns that dashboard. *)
Lemma setDashboard_round_trip userId d now r b r' :
  setDashboard userId d now r = (Ok b, r') ->
  dashboardKeys r' !! ("dashboard:" +:+ userId)
    = Some {| cached := Json d; ex := Some 3600 |}
  /\ userKeys r' !! ("user:" +:+ userId +:+ ":last_activity")
    = Some {| cached := Json now; ex := Some 7200 |}
  /\ skillsKeys r' = skillsKeys r
  /\ (faults r' = [] -> getDashboard userId r' = (Ok (Some d), r')).
Proof.
  intros H. destruct (setDashboard_inv _ _ _ _ _ _ H) as (Hd & Hu & Hs).
  repeat split; try done.
  intros Hf. unfold getDashboard, bind. rewrite redisGet_healthy by done.
  by rewrite Hd.
Qed.

(** X6 on an empty Redis. *)
Lemma setDashboard_round_trip_fresh :
  dashboardKeys
    (setDashboard "u1" (dashboard ProcessResume.fallbackAnalysis)
       "2025-07-14T12:00:00.000Z" emptyRedis).2 !! ("dashboard:" +:+ "u1")
    = Some {| cached := Json (dashboard ProcessResume.fallbackAnalysis); ex := Some 3600 |}
  /\ userKeys
       (setDashboard "u1" (dashboard ProcessResume.fallbackAnalysis)
          "2025-07-14T12:00:00.000Z" emptyRedis).2
       !! ("user:" +:+ "u1" +:+ ":last_activity")
     = Some {| cached := Json "2025-07-14T12:00:00.000Z"; ex := Some 7200 |}
  /\ skillsKeys
       (setDashboard "u1" (dashboard ProcessResume.fallbackAnalysis)
          "2025-07-14T12:00:00.000Z" emptyRedis).2
     = skillsKeys emptyRedis
  /\ (faults
        (setDashboard "u1" (dashboard ProcessResume.fallbackAnalysis)
           "2025-07-14T12:00:00.000Z" emptyRedis).2 = [] ->
      getDashboard "u1"
        (setDashboard "u1" (dashboard ProcessResume.fallbackAnalysis)
           "2025-07-14T12:00:00.000Z" emptyRedis).2
      = (Ok (Some (dashboard ProcessResume.fallbackAnalysis)),
         (setDashboard "u1" (dashboard ProcessResume.fallbackAnalysis)
            "2025-07-14T12:00:00.000Z" emptyRedis).2)).
Proof.
  apply (setDashboard_round_trip "u1" (dashboard ProcessResume.fallbackAnalysis)
           "2025-07-14T12:00:00.000Z" emptyRedis true).
  reflexivity.
Defined.

(** X7.  [setDashboard] is not atomic: when the first [SET] goes through and
    the second is rejected, the call rejects, yet the dashboard has been
    replaced; the activity stamp is the old one. *)
Lemma setDashboard_not_atomic userId d now r f :
  faults r = false :: true :: f ->
  exists e r',
    setDashboard userId d now r = (Err e, r')
    /\ dashboardKeys r' !! ("dashboard:" +:+ userId)
       = Some {| cached := Json d; ex := Some 3600 |}
    /\ userKeys r' = userKeys r.
Proof.
  intros Hf. unfold setDashboard, bind, redisSet, ret. rewrite !command_eval.
  unfold fault, advance. destruct r; cbn in *. subst. cbn.
  eexists _, _. split; [reflexivity|]. cbn. by rewrite lookup_insert_eq.
Qed.

(** X7 on an empty Redis whose second command is rejected. *)
Lemma setDashboard_not_atomic_once :
  faults (with_faults [false; true] emptyRedis) = [false; true]
  /\ exists e r',
    setDashboard "u1" (dashboard ProcessResume.fallbackAnalysis)
      "2025-07-14T12:00:00.000Z" (with_faults [false; true] emptyRedis) = (Err e, r')
    /\ dashboardKeys r' !! ("dashboard:" +:+ "u1")
       = Some {| cached := Json (dashboard ProcessResume.fallbackAnalysis); ex := Some 3600 |}
    /\ userKeys r' = userKeys (with_faults [false; true] emptyRedis).
Proof.
  split; [reflexivity|].
  apply (setDashboard_not_atomic "u1" _ "2025-07-14T12:00:00.000Z"
           (with_faults [false; true] emptyRedis) []).
  reflexivity.
Defined.

(** The four [DEL] commands of [invalidateAllUserCaches], one by one. *)
Lemma invalidateAllUserCaches_run userId r :
  faults (invalidateAllUserCaches userId r).2 = drop 4 (faults r)
  /\ dashboardKeys (invalidateAllUserCaches userId r).2
     = (if fault 0 r then dashboardKeys r
        else delete ("dashboard:" +:+ userId) (dashboardKeys r))
  /\ skillsKeys (invalidateAllUserCaches userId r).2
     = (if fault 1 r then skillsKeys r
        else delete ("skills:" +:+ userId) (skillsKeys r))
  /\ articlesKeys (invalidateAllUserCaches userId r).2
     = (if fault 2 r then articlesKeys r
        else delete ("articles:" +:+ userId) (articlesKeys r))
  /\ recommendationsKeys (invalidateAllUserCaches userId r).2
     = (if fault 3 r then recommendationsKeys r
        else delete ("recommendations:" +:+ userId) (recommendationsKeys r))
  /\ nerKeys (invalidateAllUserCaches userId r).2 = nerKeys r
  /\ userKeys (invalidateAllUserCaches userId r).2 = userKeys r
  /\ is_ok (invalidateAllUserCaches userId r).1
     = negb (fault 0 r || fault 1 r || fault 2 r || fault 3 r).
Proof.
  unfold invalidateAllUserCaches, invalidateDashboard, invalidateSkillProgress,
    invalidateArticles, invalidateRecommendations, bind, settle, redisDel, ret, throw, fault.
  destruct r as [a b c d e g h f]; cbn [faults].
  destruct f as [|[|] [|[|] [|[|] [|[|] f]]]]; cbn; repeat split; reflexivity.
Qed.

(** X8.  [invalidateAllUserCaches] sends its four [DEL] commands whatever
    happens to the others: each of the four keys of the user is removed
    unless its own command was rejected, nothing else changes, and the call
    resolves exactly when none of the four was rejected. *)
Lemma invalidateAllUserCaches_best_effort userId r :
  faults (invalidateAllUserCaches userId r).2 = drop 4 (faults r)
  /\ dashboardKeys (invalidateAllUserCaches userId r).2
     = (if fault 0 r then dashboardKeys r
        else delete ("dashboard:" +:+ userId) (dashboardKeys r))
  /\ skillsKeys (invalidateAllUserCaches userId r).2
     = (if fault 1 r then skillsKeys r
        else delete ("skills:" +:+ userId) (skillsKeys r))
  /\ articlesKeys (invalidateAllUserCaches userId r).2
     = (if fault 2 r then articlesKeys r
        else delete ("articles:" +:+ userId) (articlesKeys r))
  /\ recommendationsKeys (invalidateAllUserCaches userId r).2
     = (if fault 3 r then recommendationsKeys r
        else delete ("recommendations:" +:+ userId) (recommendationsKeys r))
  /\ nerKeys (invalidateAllUserCaches userId r).2 = nerKeys r
  /\ userKeys (invalidateAllUserCaches userId r).2 = userKeys r
  /\ is_ok (invalidateAllUserCaches userId r).1
     = negb (fault 0 r || fault 1 r || fault 2 r || fault 3 r).
Proof. apply invalidateAllUserCaches_run. Qed.

(** X9.  After an [invalidateAllUserCaches] that resolved, [getUserData] on
    a healthy connection finds nothing: all four fields are [null]. *)
Lemma getUserData_after_invalidation userId r b r' :
  invalidateAllUserCaches userId r = (Ok b, r') ->
  faults r' = [] ->
  getUserData userId r'
  = (Ok {| UserData.dashboard := None; UserData.skills := None;
           UserData.articles := None; UserData.recommendations := None |}, r').
Proof.
  intros Hrun Hf.
  pose proof (invalidateAllUserCaches_run userId r) as H.
  rewrite Hrun in H. cbn [fst snd is_ok] in H.
  destruct H as (_ & Hd & Hs & Ha & Hr & _ & _ & Hok).
  destruct (fault 0 r), (fault 1 r), (fault 2 r), (fault 3 r); try discriminate.
  assert (forall A (keys : Redis -> gmap string (Slot A)) key,
            keys r' !! key = None ->
            (await cachedData := redisGet keys key in parse cachedData) r' = (Ok None, r'))
    as Hget.
  { intros A keys key Hk. unfold bind. rewrite redisGet_healthy by done. by rewrite Hk. }
  unfold getUserData, getDashboard, getSkillProgress, getArticles, getRecommendations.
  unfold bind at 1, settle at 1.
  rewrite Hget by (rewrite Hd; apply lookup_delete_eq).
  unfold bind at 1, settle at 1.
  rewrite Hget by (rewrite Hs; apply lookup_delete_eq).
  unfold bind at 1, settle at 1.
  rewrite Hget by (rewrite Ha; apply lookup_delete_eq).
  unfold bind at 1, settle at 1.
  rewrite Hget by (rewrite Hr; apply lookup_delete_eq).
  reflexivity.
Qed.

(** X9 for a user whose skills were cached. *)
Lemma getUserData_after_invalidation_empty :
  invalidateAllUserCaches "u1" (cacheOf "u1" [goCached])
    = (Ok true, emptyRedis)
  /\ faults emptyRedis = []
  /\ getUserData "u1" emptyRedis
     = (Ok {| UserData.dashboard := None; UserData.skills := None;
              UserData.articles := None; UserData.recommendations := None |}, emptyRedis).
Proof.
  assert (invalidateAllUserCaches "u1" (cacheOf "u1" [goCached]) = (Ok true, emptyRedis)) as H.
  { unfold invalidateAllUserCaches, invalidateDashboard, invalidateSkillProgress,
      invalidateArticles, invalidateRecommendations, bind, settle, redisDel, ret, throw,
      command, cacheOf, emptyRedis, with_skillsKeys. cbn.
    rewrite !delete_empty, delete_singleton_eq. reflexivity. }
  split; [exact H|]. split; [reflexivity|].
  exact (getUserData_after_invalidation "u1" _ true emptyRedis H eq_refl).
Defined.


Lemma json_num_idempotent x : json_num (json_num x) = json_num x.
Proof. by destruct x. Qed.

Lemma find_own_merge (old l : list SkillRecord) (s : SkillRecord) :
  NoDup (map name l) -> s ∈ l ->
  find (fun x => String.eqb (name x) (name s)) (map json_skill (map (mergeSkill old) l))
  = Some (json_skill (mergeSkill old s)).
Proof.
  induction l as [|x l IH]; intros Hnd Hin; [by apply elem_of_nil in Hin|].
  apply NoDup_cons in Hnd as [Hx Hnd]. cbn [map find].
  assert (forall y, name (json_skill (mergeSkill old y)) = name y) as Hname.
  { intros y. unfold mergeSkill. by destruct (find _ old). }
  rewrite Hname. apply elem_of_cons in Hin as [->|Hin].
  - by rewrite String.eqb_refl.
  - destruct (String.eqb_spec (name x) (name s)) as [E|_]; [|by apply IH].
    exfalso. apply Hx. rewrite E. apply list_elem_of_fmap. eauto.
Qed.

(** X10.  Storing the same skills twice is storing them once: for skills
    with pairwise distinct names, a second [setSkillProgress] with the same
    argument leaves the skills cache as the first one made it. *)
Lemma setSkillProgress_idempotent userId skills r b1 r1 b2 r2 :
  NoDup (map name skills) ->
  setSkillProgress userId skills r = (Ok b1, r1) ->
  setSkillProgress userId skills r1 = (Ok b2, r2) ->
  skillsKeys r2 = skillsKeys r1.
Proof.
  intros Hnd H1 H2.
  apply setSkillProgress_inv in H1 as [H1 _].
  apply setSkillProgress_inv in H2 as [H2 Hother].
  apply map_eq. intros k.
  destruct (decide (k = "skills:" +:+ userId)) as [->|Hk]; [|by apply Hother].
  rewrite H2, H1.
  assert (cachedSkills userId r1
          = Some (map json_skill
                    (map (mergeSkill (default [] (cachedSkills userId r))) skills))) as ->
    by (unfold cachedSkills; by rewrite H1).
  cbn [default]. do 3 f_equal.
  set (old := default [] (cachedSkills userId r)).
  pose proof (fun s => find_own_merge old skills s Hnd) as Hfind.
  set (c1 := map json_skill (map (mergeSkill old) skills)) in *.
  unfold c1 at 2. rewrite !map_map.
  apply map_ext_in. intros s Hs. apply list_elem_of_In in Hs.
  unfold id, mergeSkill at 1. rewrite (Hfind s Hs).
  unfold mergeSkill. destruct (find _ old); unfold json_skill; cbn;
    by rewrite ?json_num_idempotent.
Qed.

(** X10 for the [go] record of the merge example. *)
Lemma setSkillProgress_idempotent_go :
  NoDup (map name [goIncoming])
  /\ setSkillProgress "u1" [goIncoming] (cacheOf "u1" [goCached])
     = (Ok true, cacheOf "u1" [goMerged])
  /\ setSkillProgress "u1" [goIncoming] (cacheOf "u1" [goMerged])
     = (Ok true, cacheOf "u1" [goMerged])
  /\ skillsKeys (cacheOf "u1" [goMerged]) = skillsKeys (cacheOf "u1" [goMerged]).
Proof.
  assert (forall c, setSkillProgress "u1" [goIncoming] (cacheOf "u1" [c])
                    = (Ok true, cacheOf "u1" [json_skill (mergeSkill [c] goIncoming)])) as H.
  { intros c. unfold setSkillProgress, getSkillProgress, bind, redisGet, redisSet, command,
      cacheOf, with_skillsKeys, emptyRedis, parse, ret. cbn.
    rewrite lookup_singleton_eq. cbn. by rewrite insert_singleton_eq. }
  assert (NoDup (map name [goIncoming])) as Hnd by (apply NoDup_singleton).
  pose proof (H goCached) as H1. pose proof (H goMerged) as H2.
  change (json_skill (mergeSkill [goCached] goIncoming)) with goMerged in H1.
  change (json_skill (mergeSkill [goMerged] goIncoming)) with goMerged in H2.
  split; [exact Hnd|]. split; [exact H1|]. split; [exact H2|].
  exact (setSkillProgress_idempotent "u1" [goIncoming] _ true _ true _ Hnd H1 H2).
Defined.

(** X11.  [updateSkillProgress] returns the cached records in their order,
    with their names: a record of the given name is stamped with the time of
    the call and its progress, when it is a number, is at most 100; a record
    of another name is returned as it was cached.  No record is added, so for
    a user without cached skills the result is empty. *)
Lemma updateSkillProgress_touches_one_name userId skillName delta now r l r' :
  updateSkillProgress userId skillName delta now r = (Ok l, r') ->
  map name l = map name (default [] (cachedSkills userId r))
  /\ Forall (fun s => name s = skillName ->
                      lastPracticed s = Some now
                      /\ forall z, progress s = Num z -> z <= 100) l
  /\ Forall (fun s => name s <> skillName -> s ∈ default [] (cachedSkills userId r)) l.
Proof.
  unfold updateSkillProgress, bind at 1.
  destruct (getSkillProgress userId r) as [[x|e] r1] eqn:E; [|discriminate].
  apply getSkillProgress_inv in E as [-> _].
  unfold bind. destruct (setSkillProgress _ _ r1) as [[b|e] r2]; [|discriminate].
  unfold ret. intros [= <- <-].
  set (skills := default [] (cachedSkills userId r)).
  assert (forall s, name (bumpSkill skillName delta now s) = name s) as Hname.
  { intros s. unfold bumpSkill. by destruct (String.eqb _ _). }
  split; [|split].
  - rewrite <- list_fmap_compose. apply list_fmap_ext. intros i s _. apply Hname.
  - apply Forall_fmap, Forall_forall. intros s _. cbn. rewrite Hname. intros Hs.
    unfold bumpSkill. apply String.eqb_eq in Hs. rewrite Hs. cbn. split; [done|].
    intros z. destruct (progress s); cbn; intros [= <-]; lia.
  - apply Forall_fmap, Forall_forall. intros s Hin. cbn. rewrite Hname. intros Hs.
    unfold bumpSkill. apply String.eqb_neq in Hs. by rewrite Hs.
Qed.

(** X11 for the practice example. *)
Lemma updateSkillProgress_touches_one_name_go :
  updateSkillProgress "u1" "go" 10 "2025-07-14T12:00:00.000Z" (cacheOf "u1" [goPractised])
  = (Ok [goBumped], cacheOf "u1" [goPractised])
  /\ map name [goBumped] = map name (default [] (cachedSkills "u1" (cacheOf "u1" [goPractised])))
  /\ Forall (fun s => name s = "go" ->
                      lastPracticed s = Some "2025-07-14T12:00:00.000Z"
                      /\ forall z, progress s = Num z -> z <= 100) [goBumped]
  /\ Forall (fun s => name s <> "go" ->
                      s ∈ default [] (cachedSkills "u1" (cacheOf "u1" [goPractised])))
            [goBumped].
Proof.
  assert (updateSkillProgress "u1" "go" 10 "2025-07-14T12:00:00.000Z" (cacheOf "u1" [goPractised])
          = (Ok [goBumped], cacheOf "u1" [goPractised])) as H.
  { unfold updateSkillProgress, setSkillProgress, getSkillProgress, bind, redisGet, redisSet,
      command, cacheOf, with_skillsKeys, emptyRedis, parse, ret. cbn.
    rewrite lookup_singleton_eq. cbn. rewrite lookup_singleton_eq. cbn.
    by rewrite insert_singleton_eq. }
  split; [exact H|].
  exact (updateSkillProgress_touches_one_name "u1" "go" 10 "2025-07-14T12:00:00.000Z" _ _ _ H).
Defined.

End CacheLayer.

Section EntityCache.
(** ** The entity cache *)
Import JsString NerProcessor.

Local Arguments fallbackEntityExtraction : simpl never.
Local Arguments processNERResults : simpl never.

Lemma trim_empty_input text :
  trim text <> "" -> String.eqb text "" || String.eqb (trim text) "" = false.
Proof.
  intros H. apply orb_false_intro; apply String.eqb_neq; [|done].
  intros ->. by apply H.
Qed.

(** A read of the cache that finds entities ends the call. *)
Lemma extractEntities_hit
    (inference : string -> Result NerData) (text : string) (r : Redis)
    (slot : Slot Entities) (e : Entities) :
  trim text <> "" ->
  fault 0 r = false ->
  nerKeys r !! ("ner:" +:+ hashText text) = Some slot ->
  cached slot = Json e ->
  extractEntities inference (Str text) r = (Ok e, advance 1 r).
Proof.
  intros Hv Hf Hk He. unfold extractEntities, try_catch.
  rewrite (trim_empty_input _ Hv). unfold bind, redisGet.
  rewrite command_eval, Hf. cbn [fst snd].
  replace (nerKeys (advance 1 r)) with (nerKeys r) by by destruct r.
  by rewrite Hk, He.
Qed.

(** X12.  A text whose cache key holds entities gets those entities: the
    inference service is not consulted (whatever it would answer, even a
    failure), and nothing but the one [GET] is sent. *)
Lemma extractEntities_cache_hit
    (inference : string -> Result NerData) (text : string) (r : Redis)
    (slot : Slot Entities) (e : Entities) :
  trim text <> "" ->
  fault 0 r = false ->
  nerKeys r !! ("ner:" +:+ hashText text) = Some slot ->
  cached slot = Json e ->
  extractEntities inference (Str text) r = (Ok e, advance 1 r).
Proof. apply extractEntities_hit. Qed.

(** X12 for the text [BB] while the service is down. *)
Lemma extractEntities_cache_hit_offline :
  extractEntities unreachable (Str "BB") (entityCacheOf "BB" emptyEntities)
  = (Ok emptyEntities, advance 1 (entityCacheOf "BB" emptyEntities)).
Proof.
  apply (extractEntities_cache_hit unreachable "BB" (entityCacheOf "BB" emptyEntities)
           {| cached := Json emptyEntities; ex := Some 86400 |} emptyEntities).
  - discriminate.
  - reflexivity.
  - unfold entityCacheOf, with_nerKeys. cbn [nerKeys]. apply lookup_singleton_eq.
  - reflexivity.
Defined.

(** X13.  The cache key is the 32-bit hash of the text, so two texts with
    the same hash share their entities: once the answer for the first text
    is cached, the second text gets the entities of the first, whatever the
    service would find in it. *)
Lemma extractEntities_hash_collision
    (inference : string -> Result NerData) (t1 t2 : string) (r : Redis)
    (data : NerData) :
  faults r = [] -> trim t1 <> "" -> trim t2 <> "" ->
  hashText t1 = hashText t2 ->
  nerKeys r !! ("ner:" +:+ hashText t1) = None ->
  inference t1 = Ok data -> data <> Falsy ->
  exists r1,
    extractEntities inference (Str t1) r = (Ok (processNERResults data), r1)
    /\ extractEntities inference (Str t2) r1 = (Ok (processNERResults data), r1).
Proof.
  intros Hf H1 H2 Hh Hk Hd Hn.
  exists (with_nerKeys (<["ner:" +:+ hashText t1 :=
                          {| cached := Json (processNERResults data);
                             ex := Some 86400 |}]> (nerKeys r)) r).
  split.
  - unfold extractEntities, try_catch. rewrite (trim_empty_input _ H1).
    unfold bind at 1. rewrite redisGet_healthy by done. rewrite Hk.
    unfold callService. rewrite Hd.
    assert (forall T (a b : M T), match data with Falsy => a | _ => b end = b) as ->
      by (intros; by destruct data).
    unfold bind, try_catch, redisSet, command, ret. by rewrite Hf.
  - rewrite (extractEntities_hit inference t2 _
               {| cached := Json (processNERResults data); ex := Some 86400 |}
               (processNERResults data) H2).
    + f_equal. unfold advance. destruct r; cbn in *. by subst.
    + unfold fault. destruct r; cbn in *. by subst.
    + rewrite <- Hh. destruct r; cbn. by rewrite lookup_insert_eq.
    + reflexivity.
Qed.

(** X13 for the texts [Aa] and [BB], whose hash is 840: the skill found in
    the first is reported for the second. *)
Lemma extractEntities_hash_collision_Aa_BB :
  exists r1,
    extractEntities collidingInference (Str "Aa") emptyRedis
    = (Ok (processNERResults
             (Items [ {| word := "React"; entity := "B-TECH" |} ])), r1)
    /\ extractEntities collidingInference (Str "BB") r1
       = (Ok (processNERResults
                (Items [ {| word := "React"; entity := "B-TECH" |} ])), r1).
Proof.
  apply (extractEntities_hash_collision collidingInference "Aa" "BB" emptyRedis).
  - reflexivity.
  - discriminate.
  - discriminate.
  - reflexivity.
  - reflexivity.
  - reflexivity.
  - discriminate.
Defined.

(** X14.  Only an answer of the service is ever cached: when the service
    fails for the text (it rejects, or sends no data), or the input is not a
    string, the entity cache gains no entry and no entry changes; every key
    holds what it held, but for the key of the text when it held a text that
    does not parse, which may be deleted. *)
Lemma extractEntities_failure_not_cached
    (inference : string -> Result NerData) (input : Input) (r : Redis) :
  (forall text data, input = Str text -> inference text = Ok data -> data = Falsy) ->
  nerKeys (extractEntities inference input r).2 ⊆ nerKeys r
  /\ (forall key,
        nerKeys (extractEntities inference input r).2 !! key = nerKeys r !! key
        \/ exists text slot,
             input = Str text /\ key = "ner:" +:+ hashText text
             /\ nerKeys r !! key = Some slot /\ cached slot = Malformed
             /\ nerKeys (extractEntities inference input r).2 !! key = None).
Proof.
  intros Hfail.
  assert (forall res r',
            extractEntities inference input r = (res, r') ->
            nerKeys r' = nerKeys r
            \/ exists text slot,
                 input = Str text
                 /\ nerKeys r !! ("ner:" +:+ hashText text) = Some slot
                 /\ cached slot = Malformed
                 /\ nerKeys r' = delete ("ner:" +:+ hashText text) (nerKeys r)) as Hrun.
  { unfold extractEntities, try_catch.
    destruct input as [text|]; [|intros res r' [= <- <-]; by left].
    assert (forall key r0, nerKeys (callService inference text key r0).2 = nerKeys r0)
      as Hcall.
    { intros key r0. unfold callService.
      destruct (inference text) as [data|msg] eqn:E; [|done].
      by rewrite (Hfail text data eq_refl E). }
    destruct (_ || _); [intros res r' [= <- <-]; by left|].
    unfold bind at 1, redisGet. rewrite command_eval.
    destruct (fault 0 r); cbn [fst snd]; [intros res r' [= <- <-]; left; by destruct r|].
    replace (nerKeys (advance 1 r)) with (nerKeys r) by by destruct r.
    destruct (nerKeys r !! _) as [[[e|] ttl]|] eqn:Hk; cbn [cached].
    - intros res r' [= <- <-]. left. by destruct r.
    - unfold bind, redisDel. rewrite command_eval.
      destruct (fault 0 _); cbn [fst snd].
      + intros res r' [= <- <-]. left. by destruct r.
      + match goal with
        | |- context [callService _ _ ?k ?r0] =>
            pose proof (Hcall k r0) as H;
            destruct (callService inference text k r0) as [[?|?] ?]
        end; unfold ret; intros res r' [= <- <-]; cbn [snd] in H; right;
          exists text, {| cached := Malformed; ex := ttl |};
          (split; [done|]); (split; [done|]); (split; [done|]);
          rewrite H; by destruct r.
    - match goal with
      | |- context [callService _ _ ?k ?r0] =>
          pose proof (Hcall k r0) as H;
          destruct (callService inference text k r0) as [[?|?] ?]
      end; unfold ret; intros res r' [= <- <-]; cbn [snd] in H; left;
        rewrite H; by destruct r. }
  destruct (extractEntities inference input r) as [res r'] eqn:E. cbn [snd].
  destruct (Hrun res r' eq_refl) as [->|(text & slot & -> & Hk & Hm & ->)].
  - split; [done|]. intros key. by left.
  - split; [apply delete_subseteq|]. intros key.
    destruct (decide (key = "ner:" +:+ hashText text)) as [->|Hne].
    + right. exists text, slot. by rewrite lookup_delete_eq.
    + left. by rewrite lookup_delete_ne.
Qed.

(** X14 for a service that cannot be reached. *)
Lemma extractEntities_failure_not_cached_offline :
  nerKeys (extractEntities unreachable (Str "Aa") emptyRedis).2 ⊆ nerKeys emptyRedis
  /\ (forall key,
        nerKeys (extractEntities unreachable (Str "Aa") emptyRedis).2 !! key
        = nerKeys emptyRedis !! key
        \/ exists text slot,
             Str "Aa" = Str text /\ key = "ner:" +:+ hashText text
             /\ nerKeys emptyRedis !! key = Some slot /\ cached slot = Malformed
             /\ nerKeys (extractEntities unreachable (Str "Aa") emptyRedis).2 !! key
                = None).
Proof.
  apply (extractEntities_failure_not_cached unreachable (Str "Aa") emptyRedis).
  intros text data _ H. discriminate H.
Defined.

End EntityCache.

Section EntityBuckets.
(** ** The entity buckets *)
Import JsString NerProcessor.

Lemma filter_fixed f s : forallb f s = true -> filter f s = s.
Proof.
  induction s as [|c s IH]; simpl; [done|].
  intros [Hc Hs]%andb_prop. by rewrite Hc, IH.
Qed.

Lemma cleanEntityText_fixed s :
  forallb allowed s = true -> trim s = s -> cleanEntityText s = s.
Proof.
  intros Ha Ht. unfold cleanEntityText.
  assert (match s with String "#" (String "#" r) => r | _ => s end = s) as ->.
  { destruct s as [|c s]; [done|]. simpl in Ha. apply andb_prop in Ha as [Hc _].
    destruct c as [[] [] [] [] [] [] [] []]; try reflexivity; by vm_compute in Hc. }
  fold allowed. change (fun c => isWord c || isSpace c || Ascii.eqb c "-") with allowed.
  by rewrite filter_fixed.
Qed.

(** X15.  Cleaning a cleaned text changes nothing, so the second cleaning
    that [processNERResults] applies to its buckets only drops what is too
    short. *)
Lemma cleanEntityText_idempotent text :
  cleanEntityText (cleanEntityText text) = cleanEntityText text.
Proof.
  apply cleanEntityText_fixed; unfold cleanEntityText.
  - apply forallb_trim, (forallb_filter allowed).
  - apply trim_idempotent.
Qed.


Lemma unique_from_elem seen l x : x ∈ l -> x ∈ uniqueFrom seen l \/ x ∈ seen.
Proof.
  revert seen. induction l as [|y l IH]; intros seen Hx; [by apply elem_of_nil in Hx|].
  simpl. apply elem_of_cons in Hx as [->|Hx].
  - destruct (bool_decide_reflect (y ∈ seen)); [by right|left; left].
  - destruct (bool_decide_reflect (y ∈ seen)); [by apply IH|].
    destruct (IH (y :: seen) Hx) as [H|H]; [left; by right|].
    apply elem_of_cons in H as [->|H]; [left; left|by right].
Qed.

Lemma unique_elem_iff l x : x ∈ unique l <-> x ∈ l.
Proof.
  split; [apply unique_elem|]. intros H.
  destruct (unique_from_elem [] l x H) as [?|H']; [done|by apply elem_of_nil in H'].
Qed.

Lemma cleanEntityText_empty : cleanEntityText "" = "".
Proof. reflexivity. Qed.

Lemma long_not_empty t : (1 < String.length t)%nat -> t <> "".
Proof. intros H ->. simpl in H. lia. Qed.

(** What the closing pass keeps of a bucket of cleaned words. *)
Lemma dedupe_elem bucket t :
  Forall (fun x => cleanEntityText x = x) bucket ->
  t ∈ dedupe bucket <-> (1 < String.length t)%nat /\ t ∈ bucket.
Proof.
  intros Hb. unfold dedupe. rewrite unique_elem_iff, !list_elem_of_In, filter_In, in_map_iff.
  rewrite Nat.ltb_lt. split.
  - intros [(x & <- & Hx) Hn]. apply filter_In in Hx as [Hx _].
    apply list_elem_of_In in Hx.
    rewrite (proj1 (Forall_forall _ _) Hb x Hx) in *. by rewrite list_elem_of_In in Hx.
  - intros [Hn Ht]. split; [|done]. exists t. split.
    + apply (proj1 (Forall_forall _ _) Hb). by apply list_elem_of_In.
    + apply filter_In. split; [done|]. apply negb_true_iff, String.eqb_neq.
      by apply long_not_empty.
Qed.

Lemma tagged_snoc a b l x t :
  tagged a b (l ++ [x]) t
  <-> tagged a b l t \/ (oneOf (entity x) a b = true /\ t = cleanEntityText (word x)).
Proof.
  unfold tagged. split.
  - intros (item & Hin & Ht & ->). apply elem_of_app in Hin as [Hin|Hin]; [left; eauto|].
    apply list_elem_of_singleton in Hin as ->. by right.
  - intros [(item & Hin & Ht & ->)|[Ht ->]].
    + exists item. split; [apply elem_of_app; by left|done].
    + exists x. split; [apply elem_of_app; right; by apply list_elem_of_singleton|done].
Qed.

Lemma tagged_nil a b t : ~ tagged a b [] t.
Proof. intros (item & Hin & _). by apply elem_of_nil in Hin. Qed.


Lemma oneOf_true tag a b : oneOf tag a b = true -> tag = a \/ tag = b.
Proof. intros [H|H]%orb_prop; apply String.eqb_eq in H; auto. Qed.

Ltac bucket_step IH :=
  destruct IH as (IH1 & IH2 & IH3 & IH4 & IH5);
  refine (conj _ (conj _ (conj _ (conj _ _)))); intros t;
  rewrite ?elem_of_app, ?list_elem_of_singleton, ?IH1, ?IH2, ?IH3, ?IH4, ?IH5, ?tagged_snoc.

Ltac bucket_done :=
  intuition (subst; cbn [String.length] in *; try lia; try congruence; auto).

Ltac tags := cbn [oneOf String.eqb Ascii.eqb Bool.eqb orb andb].

Ltac bucket_push IH E :=
  unfold classified;
  cbn [pushSkill pushCompany pushTitle pushEducation pushCertification
       skills companies titles education certs certifications default from_option id];
  bucket_step IH; rewrite ?E; tags; bucket_done.

Lemma classify_classified l acc x :
  classified (fun t => t <> "") l acc ->
  classified (fun t => t <> "") (l ++ [x]) (classify acc x).
Proof.
  intros IH. unfold classify.
  destruct (String.eqb_spec (word x) "") as [Hw|Hw]; cbn [orb].
  { unfold classified. bucket_step IH; rewrite Hw, cleanEntityText_empty;
      bucket_done. }
  destruct (String.eqb_spec (entity x) "") as [He|He].
  { unfold classified. bucket_step IH; rewrite He; tags; bucket_done. }
  destruct (String.eqb_spec (cleanEntityText (word x)) "") as [Ht|Ht].
  { unfold classified. bucket_step IH; rewrite Ht;
      bucket_done. }
  assert ((entity x = "B-TECH" \/ entity x = "I-TECH")
          \/ (entity x = "B-ORG" \/ entity x = "I-ORG")
          \/ (entity x = "B-PER" \/ entity x = "I-PER")
          \/ (entity x = "B-EDU" \/ entity x = "I-EDU")
          \/ (entity x = "B-CERT" \/ entity x = "I-CERT")
          \/ (oneOf (entity x) "B-TECH" "I-TECH" = false
              /\ oneOf (entity x) "B-ORG" "I-ORG" = false
              /\ oneOf (entity x) "B-PER" "I-PER" = false
              /\ oneOf (entity x) "B-EDU" "I-EDU" = false
              /\ oneOf (entity x) "B-CERT" "I-CERT" = false)) as Htag.
  { destruct (oneOf (entity x) "B-TECH" "I-TECH") eqn:H1;
      [apply oneOf_true in H1; tauto|].
    destruct (oneOf (entity x) "B-ORG" "I-ORG") eqn:H2;
      [apply oneOf_true in H2; tauto|].
    destruct (oneOf (entity x) "B-PER" "I-PER") eqn:H3;
      [apply oneOf_true in H3; tauto|].
    destruct (oneOf (entity x) "B-EDU" "I-EDU") eqn:H4;
      [apply oneOf_true in H4; tauto|].
    destruct (oneOf (entity x) "B-CERT" "I-CERT") eqn:H5;
      [apply oneOf_true in H5; tauto|].
    tauto. }
  destruct Htag as [[E|E]|[[E|E]|[[E|E]|[[E|E]|[[E|E]|E]]]]].
  1-10: rewrite E; tags.
  1-2: destruct (Nat.ltb_spec 1 (String.length (cleanEntityText (word x))));
         bucket_push IH E.
  1-2: destruct (isEducationalInstitution (cleanEntityText (word x))) eqn:C;
         bucket_push IH E.
  1-2: destruct (isLikelyTitle (cleanEntityText (word x))) eqn:C;
         bucket_push IH E.
  1-4: bucket_push IH E.
  destruct E as (E1 & E2 & E3 & E4 & E5). rewrite E1, E2, E3, E4, E5.
  unfold classified. bucket_step IH; rewrite ?E1, ?E2, ?E3, ?E4, ?E5; bucket_done.
Qed.


Lemma foldl_classify_classified items :
  classified (fun t => t <> "") items (foldl classify emptyEntities items).
Proof.
  induction items as [|x l IH] using rev_ind.
  - unfold classified. cbn.
    refine (conj _ (conj _ (conj _ (conj _ _)))); intros t;
      (split; [intros H; by apply elem_of_nil in H|]);
      pose proof (tagged_nil "B-TECH" "I-TECH" t); pose proof (tagged_nil "B-ORG" "I-ORG" t);
      pose proof (tagged_nil "B-PER" "I-PER" t); pose proof (tagged_nil "B-EDU" "I-EDU" t);
      pose proof (tagged_nil "B-CERT" "I-CERT" t); tauto.
  - rewrite foldl_app. by apply classify_classified.
Qed.

Lemma tagged_fixed a b items t : tagged a b items t -> cleanEntityText t = t.
Proof.
  intros (item & _ & _ & ->). apply cleanEntityText_fixed; unfold cleanEntityText.
  - apply forallb_trim, (forallb_filter allowed).
  - apply trim_idempotent.
Qed.

(** X16.  What [processNERResults] makes of an array: every bucket holds
    exactly the cleaned words of more than one character that carry its tag.
    An organisation whose name contains [university], [college],
    [institute], [school] or [academy] is filed under education and never
    under companies; a person is kept, as a title, only when the name
    contains [engineer], [developer], [manager], [director] or
    [specialist]. *)
Theorem processNERResults_classified (items : list NerItem) :
  classified (fun t => (1 < String.length t)%nat) items (processNERResults (Items items)).
Proof.
  destruct (foldl_classify_classified items) as (H1 & H2 & H3 & H4 & H5).
  unfold processNERResults.
  set (result := foldl classify emptyEntities items) in *.
  unfold classified.
  cbn [skills companies titles education certs certifications default from_option id].
  refine (conj _ (conj _ (conj _ (conj _ _)))); intros t; rewrite dedupe_elem.
  - rewrite H1. tauto.
  - apply Forall_forall. intros x [_ Hx]%H1. by eapply tagged_fixed.
  - rewrite H2. pose proof (long_not_empty t). tauto.
  - apply Forall_forall. intros x (_ & Hx & _)%H2. by eapply tagged_fixed.
  - rewrite H3. pose proof (long_not_empty t). tauto.
  - apply Forall_forall. intros x (_ & Hx & _)%H3. by eapply tagged_fixed.
  - rewrite H4. pose proof (long_not_empty t). tauto.
  - apply Forall_forall. intros x (_ & [Hx|[Hx _]])%H4; by eapply tagged_fixed.
  - rewrite H5. pose proof (long_not_empty t). tauto.
  - apply Forall_forall. intros x (_ & Hx)%H5. by eapply tagged_fixed.
Qed.

End EntityBuckets.

Section Substrings.
(** ** Keywords matched as substrings *)
Import JsString NerProcessor ProcessResume.

Lemma startsWith_trans q p s :
  startsWith q p = true -> startsWith p s = true -> startsWith q s = true.
Proof.
  revert p s. induction q as [|a q IH]; intros p s; [done|].
  destruct p as [|b p]; [done|]. destruct s as [|c s]; [done|]. simpl.
  intros [Hab Hq]%andb_prop [Hbc Hp]%andb_prop.
  apply Ascii.eqb_eq in Hab as ->. rewrite Hbc. by apply (IH p s).
Qed.

Lemma includes_prefix s p q :
  startsWith q p = true -> includes s p = true -> includes s q = true.
Proof.
  intros Hq. induction s as [|c s IH]; simpl.
  - rewrite !orb_false_r. by apply startsWith_trans.
  - intros [H|H]%orb_prop.
    + by rewrite (startsWith_trans q p _ Hq H).
    + rewrite (IH H). apply orb_true_r.
Qed.

(** X17.  The fall-back finds its keywords as substrings: a text in which
    it finds [javascript] is also reported to know [java]. *)
Lemma fallback_javascript_is_java (text : string) :
  "javascript" ∈ skills (fallbackEntityExtraction (Str text)) ->
  "java" ∈ skills (fallbackEntityExtraction (Str text)).
Proof.
  unfold fallbackEntityExtraction. destruct (String.eqb text ""); cbn [skills].
  { intros H. by apply elem_of_nil in H. }
  rewrite !list_elem_of_In, !filter_In. intros [_ H]. split.
  - cbn. tauto.
  - by apply (includes_prefix _ "javascript").
Qed.

(** X17 for a text that mentions JavaScript only. *)
Lemma fallback_javascript_is_java_once :
  "java" ∈ skills (fallbackEntityExtraction (Str "Five years of JavaScript")).
Proof.
  apply (fallback_javascript_is_java "Five years of JavaScript").
  vm_compute. left.
Defined.

(** X18.  The categories are tried in order and matched by substring: a
    skill whose lowercased name contains a programming keyword is a
    programming skill, whatever else it contains. *)
Lemma getSkillCategory_programming_first (skillName keyword : string) :
  keyword ∈ ["javascript"; "python"; "java"; "c++"; "typescript"; "go"; "rust"] ->
  includes (toLowerCase skillName) keyword = true ->
  getSkillCategory skillName = "programming".
Proof.
  intros Hk Hi. unfold getSkillCategory, categories. cbn [find snd].
  assert (List.existsb (fun s => includes (toLowerCase skillName) s)
            ["javascript"; "python"; "java"; "c++"; "typescript"; "go"; "rust"] = true) as ->.
  { apply existsb_exists. exists keyword. split; [by apply list_elem_of_In|done]. }
  reflexivity.
Qed.

(** X18 for [MongoDB], which contains [go] and is listed under database. *)
Lemma getSkillCategory_programming_first_mongodb :
  getSkillCategory "MongoDB" = "programming".
Proof.
  apply (getSkillCategory_programming_first "MongoDB" "go").
  - apply list_elem_of_In. cbn. tauto.
  - reflexivity.
Defined.

End Substrings.

Section PipelineResults.
(** ** The results of the pipeline *)
Import ProcessResume.

Lemma round_range (x : Q) : (70 <= x)%Q -> (x <= 100)%Q -> 70 <= round x <= 100.
Proof.
  intros Hlo Hhi. unfold round. split.
  - rewrite <- (Qfloor_Z 70). apply Qfloor_resp_le.
    change (inject_Z 70) with 70%Q. lra.
  - change 100 with (Qfloor (201 # 2)). apply Qfloor_resp_le. lra.
Qed.

Lemma calculateScore_range s e rd (l : list string) :
  (70 <= calculateScore s e rd (count l))%Q /\ (calculateScore s e rd (count l) <= 100)%Q.
Proof.
  pose proof (calculateScore_half s e rd (count l)) as H.
  pose proof (twiceScore_bounds s e rd (count l)) as Hb.
  assert (0 <= count l) as Hk by (unfold count; lia).
  pose proof (twiceScore_base s e rd (count l) Hk) as Hl.
  split; rewrite H; unfold half, Qle; simpl; lia.
Qed.

Lemma findStrengths_not_empty e k p : findStrengths e k p <> [].
Proof.
  unfold findStrengths.
  match goal with |- (if 0 <? count ?l then _ else _) <> _ =>
    destruct (Z.ltb_spec 0 (count l)) as [H|H]; [|done]; intros E; rewrite E in H;
    by cbn in H
  end.
Qed.

Lemma findImprovements_not_empty s e rd : findImprovements s e rd <> [].
Proof.
  unfold findImprovements.
  match goal with |- (if 0 <? count ?l then _ else _) <> _ =>
    destruct (Z.ltb_spec 0 (count l)) as [H|H]; [|done]; intros E; rewrite E in H;
    by cbn in H
  end.
Qed.

Lemma command_frame {A B} (field : Redis -> B) (run : Redis -> A * Redis) r :
  (forall f r0, field (with_faults f r0) = field r0) ->
  (forall r0, field (run r0).2 = field r0) ->
  field (command run r).2 = field r.
Proof.
  intros Hf Hrun. rewrite command_eval. unfold advance.
  destruct (fault 0 r); cbn [snd]; by rewrite ?Hrun, Hf.
Qed.

Lemma extractEntities_frame {B} (field : Redis -> B) inference input r :
  (forall f r0, field (with_faults f r0) = field r0) ->
  (forall m r0, field (with_nerKeys m r0) = field r0) ->
  field (NerProcessor.extractEntities inference input r).2 = field r.
Proof.
  intros Hf Hn.
  assert (forall A (run : Redis -> A * Redis) r0,
            (forall r1, field (run r1).2 = field r1) ->
            field (command run r0).2 = field r0) as Hcmd
    by (intros; by apply command_frame).
  assert (forall text key r0,
            field (NerProcessor.callService inference text key r0).2 = field r0) as Hcall.
  { intros text key r0. unfold NerProcessor.callService.
    destruct (inference text) as [[| |items]|m]; try done.
    - unfold bind, try_catch, redisSet, ret.
      match goal with |- context [command ?run r0] =>
        pose proof (Hcmd _ run r0 (fun r1 => Hn _ r1)) as H;
        destruct (command run r0) as [[[]|?] ?] end; done.
    - unfold bind, try_catch, redisSet, ret.
      match goal with |- context [command ?run r0] =>
        pose proof (Hcmd _ run r0 (fun r1 => Hn _ r1)) as H;
        destruct (command run r0) as [[[]|?] ?] end; done. }
  unfold NerProcessor.extractEntities, try_catch.
  destruct input as [text|]; [|done].
  destruct (_ || _); [done|].
  unfold bind at 1, redisGet.
  match goal with |- context [command ?run r] =>
    pose proof (Hcmd _ run r (fun r1 => eq_refl)) as H;
    destruct (command run r) as [[hit|?] r1] end; [|done].
  cbn [snd] in H. rewrite <- H.
  destruct hit as [[[e|] ttl]|]; cbn [cached].
  - done.
  - unfold bind, redisDel.
    match goal with |- context [command ?run r1] =>
      pose proof (Hcmd _ run r1 (fun r2 => Hn _ r2)) as H';
      destruct (command run r1) as [[[]|?] r2] end; cbn [snd] in H'; rewrite <- H'; [|done].
    pose proof (Hcall text ("ner:" +:+ NerProcessor.hashText text) r2) as H2.
    by destruct (NerProcessor.callService _ _ _ r2) as [[?|?] ?].
  - pose proof (Hcall text ("ner:" +:+ NerProcessor.hashText text) r1) as H2.
    by destruct (NerProcessor.callService _ _ _ r1) as [[?|?] ?].
Qed.

(** What [setDashboard] does to the dashboard and the skills keys, whether
    it resolves or not. *)
Lemma setDashboard_effect userId d now r :
  skillsKeys (UserDashboardCache.setDashboard userId d now r).2 = skillsKeys r
  /\ (dashboardKeys (UserDashboardCache.setDashboard userId d now r).2 = dashboardKeys r
      \/ dashboardKeys (UserDashboardCache.setDashboard userId d now r).2
         = <["dashboard:" +:+ userId := {| cached := Json d; ex := Some 3600 |}]>
             (dashboardKeys r)).
Proof.
  unfold UserDashboardCache.setDashboard, bind, redisSet, ret. rewrite command_eval.
  destruct (fault 0 r); cbn [fst snd]; [destruct r; by auto|].
  rewrite command_eval. destruct (fault 0 _); cbn [fst snd]; destruct r; cbn; by auto.
Qed.

(** [setDashboard] resolves when its two commands are accepted. *)
Lemma setDashboard_accepted userId d now r :
  fault 0 r = false -> fault 1 r = false ->
  exists r',
    UserDashboardCache.setDashboard userId d now r = (Ok true, r')
    /\ dashboardKeys r' !! ("dashboard:" +:+ userId)
       = Some {| cached := Json d; ex := Some 3600 |}
    /\ skillsKeys r' = skillsKeys r.
Proof.
  intros H0 H1. unfold UserDashboardCache.setDashboard, bind, redisSet, ret.
  rewrite command_eval, H0. cbn [fst snd]. rewrite command_eval.
  match goal with
  | |- context [fault 0 ?x] =>
      assert (fault 0 x = false) as ->
        by (rewrite <- H1; unfold fault, advance;
            destruct r as [? ? ? ? ? ? ? [|? [|? ?]]]; reflexivity)
  end.
  cbn [fst snd]. eexists. split; [reflexivity|].
  destruct r; cbn. by rewrite lookup_insert_eq.
Qed.

Section Runs.
Context (readPdf readDocx readPlain : string -> Result string)
        (sentimentService : string -> Result (list (string * option Q)))
        (inference : string -> Result NerProcessor.NerData)
        (sentenceTokenize wordTokenize : string -> Result (list string))
        (textStatistics : string -> Result (option Q * option Q * option Q))
        (tokenize : string -> list string)
        (stopwords : list string)
        (extractImportantPhrases : string -> Result (list string))
        (random : nat -> Q).

Local Abbreviation run :=
  (analyse readPdf readDocx readPlain sentimentService inference
     sentenceTokenize wordTokenize textStatistics tokenize stopwords
     extractImportantPhrases random).

(** The state a run of the body ends in: the skills keys are those it
    started with, and the dashboard key is untouched or holds a computed
    dashboard. *)
Lemma analyse_state filePath fileType userId now r res r' :
  run filePath fileType userId now r = (res, r') ->
  skillsKeys r' = skillsKeys r
  /\ (dashboardKeys r' = dashboardKeys r
      \/ exists d,
           dashboardKeys r'
           = <["dashboard:" +:+ userId := {| cached := Json d; ex := Some 3600 |}]>
               (dashboardKeys r)
           /\ 70 <= score d <= 100
           /\ strengths d <> []
           /\ improvements d <> []
           /\ (length (keywords d) <= 20)%nat
           /\ (length (importantPhrases d) <= 10)%nat
           /\ lastUpdated d = Some now).
Proof.
  unfold analyse, bind at 1, lift.
  destruct (extractTextFromFile _ _ _ _ _) as [text|m];
    [|intros [= <- <-]; split; [done|by left]].
  unfold bind at 1.
  pose proof (extractEntities_frame skillsKeys inference (NerProcessor.Str text) r
                (fun _ _ => eq_refl) (fun _ _ => eq_refl)) as Hs.
  pose proof (extractEntities_frame dashboardKeys inference (NerProcessor.Str text) r
                (fun _ _ => eq_refl) (fun _ _ => eq_refl)) as Hd.
  destruct (NerProcessor.extractEntities inference _ r) as [[e|m] r1];
    cbn [snd] in Hs, Hd; [|intros [= <- <-]; split; [done|by left]].
  unfold bind at 1.
  destruct (calculateReadability _ _ _ _) as [rd|m];
    [|intros [= <- <-]; split; [done|by left]].
  unfold bind at 1.
  destruct (extractImportantPhrases text) as [phrases|m];
    [|intros [= <- <-]; split; [done|by left]].
  unfold bind at 1.
  match goal with
  | |- context [UserDashboardCache.setDashboard userId ?d now r1] =>
      destruct (setDashboard_effect userId d now r1) as [Hs2 Hd2];
      assert (70 <= score d <= 100 /\ strengths d <> [] /\ improvements d <> []
              /\ (length (keywords d) <= 20)%nat
              /\ (length (importantPhrases d) <= 10)%nat
              /\ lastUpdated d = Some now) as Hrange;
      [|destruct (UserDashboardCache.setDashboard userId d now r1) as [[b|m] r2]]
  end.
  { cbn. split; [apply round_range; apply calculateScore_range|].
    split; [apply findStrengths_not_empty|].
    split; [apply findImprovements_not_empty|].
    rewrite !length_take. split; [lia|]. split; [lia|done]. }
  - unfold bind at 1. rewrite setSkillProgress_detached. intros [= <- <-].
    cbn [snd] in *. rewrite Hs2, Hs. split; [done|].
    destruct Hd2 as [->| ->]; rewrite Hd; [by left|right; eauto].
  - intros [= <- <-]. cbn [snd] in *. rewrite Hs2, Hs. split; [done|].
    destruct Hd2 as [->| ->]; rewrite Hd; [by left|right; eauto].
Qed.

(** X19.  [processResume] never writes the skills of the user, and the
    dashboard key of the user is left as it was or holds, with an expiry of
    one hour, a computed dashboard: a score between 70 and 100, at least one
    strength and one improvement, at most 20 keywords and at most 10
    phrases, stamped with the time of the call. *)
Theorem processResume_cached_dashboard_in_range filePath fileType userId now r :
  skillsKeys
    (processResume readPdf readDocx readPlain sentimentService inference
       sentenceTokenize wordTokenize textStatistics tokenize stopwords
       extractImportantPhrases random filePath fileType userId now r).2
  = skillsKeys r
  /\ (dashboardKeys
        (processResume readPdf readDocx readPlain sentimentService inference
           sentenceTokenize wordTokenize textStatistics tokenize stopwords
           extractImportantPhrases random filePath fileType userId now r).2
      = dashboardKeys r
      \/ exists d,
           dashboardKeys
             (processResume readPdf readDocx readPlain sentimentService inference
                sentenceTokenize wordTokenize textStatistics tokenize stopwords
                extractImportantPhrases random filePath fileType userId now r).2
           = <["dashboard:" +:+ userId := {| cached := Json d; ex := Some 3600 |}]>
               (dashboardKeys r)
           /\ 70 <= score d <= 100
           /\ strengths d <> []
           /\ improvements d <> []
           /\ (length (keywords d) <= 20)%nat
           /\ (length (importantPhrases d) <= 10)%nat
           /\ lastUpdated d = Some now).
Proof.
  pose proof (analyse_state filePath fileType userId now r) as H.
  unfold processResume, try_catch, ret.
  destruct (run filePath fileType userId now r) as [[a|m] r'];
    exact (H _ _ eq_refl).
Qed.

(** X20.  When every stage succeeds and both commands of [setDashboard] are
    accepted, the computed dashboard is cached for the user, and yet the
    caller gets the fall-back analysis: the bare call of [setSkillProgress]
    throws, and the skills of the user are not written. *)
Theorem processResume_falls_back_after_caching
    filePath fileType userId now r text e rd phrases r1 :
  extractTextFromFile readPdf readDocx readPlain filePath fileType = Ok text ->
  NerProcessor.extractEntities inference (NerProcessor.Str text) r = (Ok e, r1) ->
  calculateReadability sentenceTokenize wordTokenize textStatistics text = Ok rd ->
  extractImportantPhrases text = Ok phrases ->
  fault 0 r1 = false -> fault 1 r1 = false ->
  exists d r',
    processResume readPdf readDocx readPlain sentimentService inference
      sentenceTokenize wordTokenize textStatistics tokenize stopwords
      extractImportantPhrases random filePath fileType userId now r
    = (Ok fallbackAnalysis, r')
    /\ dashboardKeys r' !! ("dashboard:" +:+ userId)
       = Some {| cached := Json d; ex := Some 3600 |}
    /\ score d
       = round (calculateScore (analyzeSentiment sentimentService text) e rd
                  (count (extractKeywords tokenize stopwords text)))
    /\ keywords d = take 20 (extractKeywords tokenize stopwords text)
    /\ entities d = e
    /\ lastUpdated d = Some now
    /\ skillsKeys r' = skillsKeys r.
Proof.
  intros Ht He Hrd Hp Hf0 Hf1.
  pose proof (extractEntities_frame skillsKeys inference (NerProcessor.Str text) r
                (fun _ _ => eq_refl) (fun _ _ => eq_refl)) as Hs.
  rewrite He in Hs. cbn [snd] in Hs.
  unfold processResume, try_catch, analyse, bind at 1, lift. rewrite Ht.
  unfold bind at 1. rewrite He.
  unfold bind at 1. rewrite Hrd.
  unfold bind at 1. rewrite Hp.
  unfold bind at 1.
  match goal with
  | |- context [UserDashboardCache.setDashboard userId ?d now r1] =>
      destruct (setDashboard_accepted userId d now r1 Hf0 Hf1) as (r2 & -> & Hd & Hs2);
      exists d, r2
  end.
  unfold bind at 1. rewrite setSkillProgress_detached. unfold ret.
  split; [reflexivity|]. split; [exact Hd|]. rewrite Hs2, Hs. by repeat split.
Qed.

(** X21.  A file type other than PDF, DOCX and plain text gives the
    fall-back analysis, and Redis is not touched. *)
Theorem processResume_unsupported_type filePath fileType userId now r :
  fileType <> "application/pdf" ->
  fileType <> "application/vnd.openxmlformats-officedocument.wordprocessingml.document" ->
  fileType <> "text/plain" ->
  processResume readPdf readDocx readPlain sentimentService inference
    sentenceTokenize wordTokenize textStatistics tokenize stopwords
    extractImportantPhrases random filePath fileType userId now r
  = (Ok fallbackAnalysis, r).
Proof.
  intros H1 H2 H3. unfold processResume, try_catch, analyse, bind at 1, lift.
  unfold extractTextFromFile.
  apply String.eqb_neq in H1, H2, H3. by rewrite H1, H2, H3.
Qed.

End Runs.

(** X22.  With draws of [Math.random], which lie in [0,1), every assessed
    level is between 50 and 100 and the target is between the level and 100,
    above the level unless the level is 100. *)
Theorem assessSkills_levels_in_range (random : nat -> Q) (now : string)
    (names : list string) :
  (forall i, (0 <= random i)%Q /\ (random i < 1)%Q) ->
  Forall (fun s => exists l t,
              level s = Num l /\ targetLevel s = Num t
              /\ 50 <= l <= 100 /\ l <= t <= 100 /\ (l < 100 -> l < t))
         (assessSkills random now names).
Proof.
  intros Hr. unfold assessSkills. apply Forall_lookup. intros i s Hs.
  rewrite list_lookup_imap in Hs.
  destruct (names !! i) as [skill|]; [|discriminate]. injection Hs as <-. cbn.
  pose proof (calculateSkillLevel_range (random i) skill (proj1 (Hr i)) (proj2 (Hr i))).
  eexists _, _. split; [done|]. split; [done|].
  destruct (Z.ltb_spec (calculateSkillLevel (random i) skill) 80); lia.
Qed.
(** X20 on the sample resume and an empty Redis: the cached dashboard has
    score 95, the caller gets score 70. *)
Lemma processResume_falls_back_after_caching_sample :
  exists d r',
    Sample.processResume "text/plain" emptyRedis = (Ok fallbackAnalysis, r')
    /\ dashboardKeys r' !! ("dashboard:" +:+ "u1")
       = Some {| cached := Json d; ex := Some 3600 |}
    /\ score d = 95
    /\ keywords d = ["worked"; "google"; "react"]
    /\ entities d = NerProcessor.processNERResults
                      (NerProcessor.Items
                         [ {| NerProcessor.word := "React";
                              NerProcessor.entity := "B-TECH" |};
                           {| NerProcessor.word := "Google";
                              NerProcessor.entity := "B-ORG" |} ])
    /\ lastUpdated d = Some "2025-07-14T12:00:00.000Z"
    /\ skillsKeys r' = skillsKeys emptyRedis.
Proof.
  apply (processResume_falls_back_after_caching Sample.noDecoder Sample.noDecoder
           Sample.readPlain Sample.sentimentService sampleInference
           Sample.sentenceTokenize Sample.wordTokenize Sample.textStatistics
           (wordsFrom "") someStopwords Sample.extractImportantPhrases Sample.random
           "uploads/resume.txt" "text/plain" "u1" "2025-07-14T12:00:00.000Z"
           emptyRedis Sample.resume
           (NerProcessor.processNERResults
              (NerProcessor.Items
                 [ {| NerProcessor.word := "React"; NerProcessor.entity := "B-TECH" |};
                   {| NerProcessor.word := "Google"; NerProcessor.entity := "B-ORG" |} ]))
           {| Readability.sentenceCount := 1; Readability.wordCount := 5;
              Readability.avgSentenceLength := Some (5 # 1);
              Readability.avgWordLength := Some (23 # 5);
              Readability.fleschScore := Some (65 # 1);
              Readability.fleschGradeLevel := Some (8 # 1);
              Readability.difficultWords := Some (2 # 1) |}
           ["Google"; "React"]
           (NerProcessor.extractEntities sampleInference
              (NerProcessor.Str Sample.resume) emptyRedis).2);
    vm_compute; reflexivity.
Defined.

(** X21 for an image. *)
Lemma processResume_unsupported_type_png :
  Sample.processResume "image/png" emptyRedis = (Ok fallbackAnalysis, emptyRedis).
Proof.
  apply (processResume_unsupported_type Sample.noDecoder Sample.noDecoder
           Sample.readPlain Sample.sentimentService sampleInference
           Sample.sentenceTokenize Sample.wordTokenize Sample.textStatistics
           (wordsFrom "") someStopwords Sample.extractImportantPhrases Sample.random
           "uploads/resume.txt" "image/png" "u1" "2025-07-14T12:00:00.000Z" emptyRedis);
    discriminate.
Defined.

(** X22 for the skills [React] and [Go] and draws of one half. *)
Lemma assessSkills_levels_in_range_half :
  Forall (fun s => exists l t,
              level s = Num l /\ targetLevel s = Num t
              /\ 50 <= l <= 100 /\ l <= t <= 100 /\ (l < 100 -> l < t))
         (assessSkills Sample.random "2025-07-14T12:00:00.000Z" ["React"; "Go"]).
Proof.
  apply (assessSkills_levels_in_range Sample.random "2025-07-14T12:00:00.000Z"
           ["React"; "Go"]).
  intros i. split; reflexivity || (intros H; discriminate H).
Defined.

End PipelineResults.

Section JobOutcomes.
(** ** The outcome of a job *)
Import Server.

(** X23.  On a healthy connection the processor records the outcome of the
    job under [resume:{userId}:{jobId}], without expiry: the completed
    payload with the analysis when the collaborators succeed, the failed
    payload with their error otherwise.  A completed job leaves none of the
    user's four caches behind, the skills and their progress included. *)
Theorem processJob_records_outcome
    (collaborators : Result unit) (userId jobId t1 t2 : string) (r : Redis) :
  faults r = [] ->
  (processJob collaborators userId jobId t1 t2 r).1
  = match collaborators with
    | Ok _ => Ok analyzeResumeWithAI
    | Err e => Err e
    end
  /\ resumeKeys (processJob collaborators userId jobId t1 t2 r).2
       !! processorKey userId jobId
     = Some {| cached :=
                 Json (match collaborators with
                       | Ok _ => Completed analyzeResumeWithAI t1
                       | Err e => Failed e t2
                       end);
               ex := None |}
  /\ (is_ok collaborators = true ->
      let r' := (processJob collaborators userId jobId t1 t2 r).2 in
      dashboardKeys r' !! ("dashboard:" +:+ userId) = None
      /\ skillsKeys r' !! ("skills:" +:+ userId) = None
      /\ articlesKeys r' !! ("articles:" +:+ userId) = None
      /\ recommendationsKeys r' !! ("recommendations:" +:+ userId) = None).
Proof.
  intros Hf. destruct r as [a b c d e g h f]. cbn in Hf. subst f.
  unfold processJob, try_catch, UserDashboardCache.invalidateAllUserCaches,
    UserDashboardCache.invalidateDashboard, UserDashboardCache.invalidateSkillProgress,
    UserDashboardCache.invalidateArticles, UserDashboardCache.invalidateRecommendations,
    bind, settle, redisSet, redisDel, command, ret, throw.
  destruct collaborators as [[]|msg]; cbn.
  - rewrite lookup_insert_eq, !lookup_delete_eq. by repeat split.
  - rewrite lookup_insert_eq. by repeat split.
Qed.

(** X24.  A job whose analysis is done and recorded is still reported as
    failed when clearing the caches afterwards is rejected: the handler
    overwrites the completed payload with the failed one and the job
    rejects. *)
Theorem processJob_completed_then_failed
    (userId jobId t1 t2 : string) (r : Redis) :
  fault 0 r = false ->
  fault 1 r || fault 2 r || fault 3 r || fault 4 r = true ->
  fault 5 r = false ->
  exists e r',
    processJob (Ok ()) userId jobId t1 t2 r = (Err e, r')
    /\ resumeKeys r' !! processorKey userId jobId
       = Some {| cached := Json (Failed e t2); ex := None |}.
Proof.
  intros H0 H1 H5. unfold processJob, try_catch.
  unfold bind at 1, redisSet. rewrite command_eval, H0. cbn [fst snd].
  set (r1 := with_resumeKeys _ (advance 1 r)).
  assert (forall k, fault k r1 = fault (S k) r) as Hk.
  { intros k. unfold r1, fault, advance. destruct r as [a b c d e g h f]; cbn.
    by destruct f. }
  assert (faults r1 = drop 1 (faults r)) as Hf1 by (unfold r1; by destruct r).
  unfold bind at 1.
  pose proof (invalidateAllUserCaches_run userId r1) as H.
  destruct H as (Hf & _ & _ & _ & _ & _ & _ & Hok).
  rewrite !Hk, H1 in Hok.
  destruct (UserDashboardCache.invalidateAllUserCaches userId r1) as [[b|e0] r2];
    [discriminate|]. cbn [snd] in Hf. clear Hok.
  unfold bind, throw. rewrite command_eval.
  assert (fault 0 r2 = false) as ->.
  { unfold fault in *. rewrite Hf, Hf1. rewrite <- H5.
    destruct (faults r) as [|? [|? [|? [|? [|? [|? ?]]]]]]; reflexivity. }
  cbn [fst snd]. eexists _, _. split; [reflexivity|].
  cbn. by rewrite lookup_insert_eq.
Qed.

(** X23 for job [1] of user [anonymous] on an empty Redis. *)
Lemma processJob_records_outcome_empty :
  (processJob (Ok ()) "anonymous" "1" "t1" "t2" emptyRedis).1 = Ok analyzeResumeWithAI
  /\ resumeKeys (processJob (Ok ()) "anonymous" "1" "t1" "t2" emptyRedis).2
       !! processorKey "anonymous" "1"
     = Some {| cached := Json (Completed analyzeResumeWithAI "t1"); ex := None |}
  /\ (is_ok (Ok ()) = true ->
      let r' := (processJob (Ok ()) "anonymous" "1" "t1" "t2" emptyRedis).2 in
      dashboardKeys r' !! ("dashboard:" +:+ "anonymous") = None
      /\ skillsKeys r' !! ("skills:" +:+ "anonymous") = None
      /\ articlesKeys r' !! ("articles:" +:+ "anonymous") = None
      /\ recommendationsKeys r' !! ("recommendations:" +:+ "anonymous") = None).
Proof.
  apply (processJob_records_outcome (Ok ()) "anonymous" "1" "t1" "t2" emptyRedis).
  reflexivity.
Defined.

(** X24 when the first [DEL] is rejected. *)
Lemma processJob_completed_then_failed_once :
  exists e r',
    processJob (Ok ()) "anonymous" "1" "t1" "t2" (with_faults [false; true] emptyRedis)
    = (Err e, r')
    /\ resumeKeys r' !! processorKey "anonymous" "1"
       = Some {| cached := Json (Failed e "t2"); ex := None |}.
Proof.
  apply (processJob_completed_then_failed "anonymous" "1" "t1" "t2"
           (with_faults [false; true] emptyRedis)); reflexivity.
Defined.

End JobOutcomes.

Section Prioritizer.
(** ** The content prioritizer *)
Import JsString.

Lemma Sorted_take {A} (R : A -> A -> Prop) n l : Sorted R l -> Sorted R (take n l).
Proof.
  revert n. induction l as [|x l IH]; intros [|n] Hs; simpl; try constructor.
  - apply IH. by apply Sorted_inv in Hs as [? _].
  - apply Sorted_inv in Hs as [_ Hhd]. destruct Hhd; destruct n; simpl; by constructor.
Qed.

Lemma elem_take {A} n (l : list A) x : x ∈ take n l -> x ∈ l.
Proof. intros (i & Hi & _)%elem_of_take. by eapply list_elem_of_lookup_2. Qed.

Lemma toLowerCase_idempotent s : toLowerCase (toLowerCase s) = toLowerCase s.
Proof. induction s as [|c s IH]; simpl; [done|]. by rewrite lowerChar_idempotent, IH. Qed.

(** In a list sorted by descending gap, no later element has a larger gap. *)
Lemma descending_lookup (l : list FetchDevBlogs.Prioritized.t) i j a b :
  Sorted (descending FetchDevBlogs.Prioritized.gap) l ->
  (i <= j)%nat -> l !! i = Some a -> l !! j = Some b ->
  FetchDevBlogs.Prioritized.gap b <= FetchDevBlogs.Prioritized.gap a.
Proof.
  intros Hs. apply Sorted_StronglySorted in Hs;
    [|intros x y z; unfold descending; lia].
  revert i j. induction Hs as [|x l Hs IH Hall]; intros i j Hij Hi Hj; [done|].
  destruct i as [|i].
  - injection Hi as <-. destruct j as [|j]; [injection Hj as <-; lia|].
    apply (proj1 (List.Forall_forall _ _) Hall). apply list_elem_of_In.
    by eapply list_elem_of_lookup_2.
  - destruct j as [|j]; [lia|]. apply (IH i j); [lia|done|done].
Qed.

(** X25.  The skills [fetchDevBlogs] works on: at most five, in descending
    order of their gap, each with a positive gap, a lowercased name and a
    category, each made from one of the user's skills; and they are the
    largest gaps: a skill of the user with a larger gap than a chosen one is
    chosen as well. *)
Theorem prioritize_top_gaps (userSkills : list SkillRecord) :
  (length (FetchDevBlogs.prioritize userSkills) <= 5)%nat
  /\ Sorted (descending FetchDevBlogs.Prioritized.gap) (FetchDevBlogs.prioritize userSkills)
  /\ Forall (fun b => 0 < FetchDevBlogs.Prioritized.gap b
                      /\ lowercased (FetchDevBlogs.Prioritized.name b)
                      /\ FetchDevBlogs.Prioritized.category b <> ""
                      /\ exists u, u ∈ userSkills /\ prioritizedFrom u b)
            (FetchDevBlogs.prioritize userSkills)
  /\ (forall u b, u ∈ userSkills -> b ∈ FetchDevBlogs.prioritize userSkills ->
        FetchDevBlogs.Prioritized.gap b < gapOf u ->
        exists b', b' ∈ FetchDevBlogs.prioritize userSkills /\ prioritizedFrom u b').
Proof.
  unfold FetchDevBlogs.prioritize.
  set (entries := map _ userSkills).
  set (positive := List.filter _ entries).
  set (sorted := sort _ positive).
  assert (Sorted (descending FetchDevBlogs.Prioritized.gap) sorted) as Hsorted by apply sort_sorted.
  assert (forall b, b ∈ sorted ->
            0 < FetchDevBlogs.Prioritized.gap b
            /\ exists u, u ∈ userSkills /\ prioritizedFrom u b
                         /\ FetchDevBlogs.Prioritized.category b <> "") as Hfrom.
  { intros b Hb. apply sort_elem, list_elem_of_In, filter_In in Hb as [Hb Hpos].
    apply Z.ltb_lt in Hpos. split; [done|].
    apply in_map_iff in Hb as (u & <- & Hu). exists u.
    split; [by apply list_elem_of_In|]. split; [by split|]. cbn.
    destruct (category u) as [c|]; [|done].
    destruct (String.eqb_spec c ""); done. }
  split; [rewrite length_take; lia|]. split; [by apply Sorted_take|]. split.
  - apply Forall_forall. intros b Hb.
    assert (b ∈ sorted) as Hin by (by eapply elem_take).
    destruct (Hfrom b Hin) as (Hpos & u & Hu & [Hname Hgap] & Hcat).
    split; [done|]. split; [|split; [done|by exists u]].
    unfold lowercased. rewrite Hname. apply toLowerCase_idempotent.
  - intros u b Hu Hb Hlt.
    set (c := {| FetchDevBlogs.Prioritized.name := toLowerCase (name u);
                 FetchDevBlogs.Prioritized.gap := gapOf u;
                 FetchDevBlogs.Prioritized.category :=
                   match category u with
                   | Some c => if String.eqb c "" then "other" else c
                   | None => "other"
                   end |}).
    assert (c ∈ sorted) as Hc.
    { apply sort_elem, list_elem_of_In, filter_In. split.
      - apply in_map_iff. exists u. split; [done|by apply list_elem_of_In].
      - apply Z.ltb_lt. cbn.
        assert (b ∈ sorted) as Hin by (by eapply elem_take).
        destruct (Hfrom b Hin) as [? _]. lia. }
    apply list_elem_of_lookup in Hc as [j Hj].
    apply list_elem_of_lookup in Hb as [i Hi].
    apply lookup_take_Some in Hi as [Hi Hi5].
    exists c. split; [|by split].
    destruct (decide (j < 5)%nat) as [Hj5|Hj5].
    + apply list_elem_of_lookup. exists j. by apply lookup_take_Some.
    + exfalso.
      pose proof (descending_lookup sorted i j b c Hsorted ltac:(lia) Hi Hj) as Hle.
      cbn in Hle. lia.
Qed.


Lemma deduplicateFrom_spec (seen : gset string) (articles : list FetchDevBlogs.Article) :
  NoDup (map FetchDevBlogs.url (FetchDevBlogs.deduplicateFrom seen articles))
  /\ (forall a, a ∈ FetchDevBlogs.deduplicateFrom seen articles ->
                FetchDevBlogs.url a ∉ seen)
  /\ FetchDevBlogs.deduplicateFrom seen articles `sublist_of` articles
  /\ (forall a, a ∈ articles ->
        FetchDevBlogs.url a ∈ seen
        \/ exists b, b ∈ FetchDevBlogs.deduplicateFrom seen articles
                     /\ FetchDevBlogs.url b = FetchDevBlogs.url a).
Proof.
  revert seen. induction articles as [|x l IH]; intros seen; simpl.
  - split; [constructor|]. split; [intros a H; by apply elem_of_nil in H|].
    split; [done|]. intros a H; by apply elem_of_nil in H.
  - destruct (bool_decide_reflect (FetchDevBlogs.url x ∈ seen)) as [Hx|Hx].
    + destruct (IH seen) as (Hnd & Hnew & Hsub & Hall).
      split; [done|]. split; [done|]. split; [by apply sublist_cons|].
      intros a [->|Ha]%elem_of_cons; [by left|by apply Hall].
    + destruct (IH ({[FetchDevBlogs.url x]} ∪ seen)) as (Hnd & Hnew & Hsub & Hall).
      split; [|split; [|split]].
      * simpl. constructor; [|done]. intros Hin.
        apply list_elem_of_fmap in Hin as (b & Hb & Hin).
        apply (Hnew b Hin). rewrite Hb. apply elem_of_union. left. by apply elem_of_singleton.
      * intros a [->|Ha]%elem_of_cons; [done|]. intros Hs. apply (Hnew a Ha), elem_of_union. by right.
      * by apply sublist_skip.
      * intros a [->|Ha]%elem_of_cons.
        -- right. exists x. split; [left|done].
        -- destruct (Hall a Ha) as [Hs|(b & Hb & Hu)].
           ++ apply elem_of_union in Hs as [Hs|Hs]; [|by left].
              apply elem_of_singleton in Hs. right. exists x. split; [left|done].
           ++ right. exists b. split; [by right|done].
Qed.

Lemma deduplicateFrom_fixed (seen : gset string) (articles : list FetchDevBlogs.Article) :
  NoDup (map FetchDevBlogs.url articles) ->
  (forall a, a ∈ articles -> FetchDevBlogs.url a ∉ seen) ->
  FetchDevBlogs.deduplicateFrom seen articles = articles.
Proof.
  revert seen. induction articles as [|x l IH]; intros seen Hnd Hnew; simpl; [done|].
  apply NoDup_cons in Hnd as [Hx Hnd].
  rewrite bool_decide_eq_false_2 by (apply Hnew; left).
  f_equal. apply IH; [done|]. intros a Ha.
  intros [Hs|Hs]%elem_of_union.
  - apply elem_of_singleton in Hs. apply Hx. rewrite <- Hs.
    apply list_elem_of_fmap. eauto.
  - apply (Hnew a); [by right|done].
Qed.

(** X27.  [deduplicateArticles] keeps articles of its input in their order,
    no two with the same url, at least one for every url of the input, and
    leaves a list it has produced as it is. *)
Theorem deduplicateArticles_unique_urls (articles : list FetchDevBlogs.Article) :
  NoDup (map FetchDevBlogs.url (FetchDevBlogs.deduplicateArticles articles))
  /\ FetchDevBlogs.deduplicateArticles articles `sublist_of` articles
  /\ (forall a, a ∈ articles ->
        exists b, b ∈ FetchDevBlogs.deduplicateArticles articles
                  /\ FetchDevBlogs.url b = FetchDevBlogs.url a)
  /\ FetchDevBlogs.deduplicateArticles (FetchDevBlogs.deduplicateArticles articles)
     = FetchDevBlogs.deduplicateArticles articles.
Proof.
  unfold FetchDevBlogs.deduplicateArticles.
  destruct (deduplicateFrom_spec ∅ articles) as (Hnd & Hnew & Hsub & Hall).
  split; [done|]. split; [done|]. split.
  - intros a Ha. destruct (Hall a Ha) as [H|H]; [by apply elem_of_empty in H|done].
  - by apply deduplicateFrom_fixed.
Qed.

(** X28.  [fetchDevBlogs] takes [redisGet] from [userDashboardCache.js],
    which does not export it: the first call of it throws, the handler
    returns the empty list, and so [fetchDevBlogs] resolves to the empty
    list for every user, whatever skills are cached or passed and whatever
    the rest of its body would do. *)
Theorem fetchDevBlogs_always_empty
    (rest : list FetchDevBlogs.Prioritized.t -> M (list FetchDevBlogs.Candidate))
    (userId : string) (skills : option (list SkillRecord)) (r : Redis) :
  (FetchDevBlogs.fetchDevBlogs rest userId skills r).1 = Ok [].
Proof.
  unfold FetchDevBlogs.fetchDevBlogs, try_catch, bind.
  destruct (UserDashboardCache.getSkillProgress userId r) as [[cached|m] r1]; [|done].
  destruct (FetchDevBlogs.prioritize _); [done|].
  assert (FetchDevBlogs.imported "redisGet" = false) as -> by reflexivity.
  done.
Qed.

End Prioritizer.

Section KeywordSet.
(** ** The set of keywords *)
Import ProcessResume.

(** The own property names of the counter after one more word. *)
Lemma countWord_names words o w :
  NoDup (map fst o) ->
  (forall k, k ∈ map fst o <-> k ∈ words /\ k <> "__proto__") ->
  NoDup (map fst (countWord o w))
  /\ (forall k, k ∈ map fst (countWord o w) <-> k ∈ words ++ [w] /\ k <> "__proto__").
Proof.
  intros Hnd Hkeys. unfold countWord.
  destruct (String.eqb_spec w "__proto__") as [->|Hp].
  { split; [done|]. intros k. rewrite Hkeys, elem_of_app, list_elem_of_singleton.
    intuition congruence. }
  assert (forall v, w ∈ map fst o ->
            NoDup (map fst (setProperty w v o))
            /\ (forall k, k ∈ map fst (setProperty w v o)
                          <-> k ∈ words ++ [w] /\ k <> "__proto__")) as Hold.
  { intros v Hin. rewrite setProperty_same_keys by done. split; [done|].
    intros k. rewrite Hkeys, elem_of_app, list_elem_of_singleton.
    apply Hkeys in Hin. intuition congruence. }
  assert (forall v, w ∉ map fst o ->
            NoDup (map fst (setProperty w v o))
            /\ (forall k, k ∈ map fst (setProperty w v o)
                          <-> k ∈ words ++ [w] /\ k <> "__proto__")) as Hnew.
  { intros v Hin. rewrite setProperty_new by done. rewrite map_app. cbn [map fst]. split.
    - apply NoDup_app. split; [done|]. split; [|apply NoDup_singleton].
      intros k Hk ->%list_elem_of_singleton. done.
    - intros k. rewrite !elem_of_app, list_elem_of_singleton, Hkeys.
      intuition congruence. }
  destruct (lookupAssoc w o) as [[n|s]|] eqn:E.
  - apply Hold. apply lookupAssoc_Some in E. apply list_elem_of_fmap. by eexists (_, _).
  - apply Hold. apply lookupAssoc_Some in E. apply list_elem_of_fmap. by eexists (_, _).
  - apply lookupAssoc_None in E. destruct (lookupAssoc w objectPrototype); by apply Hnew.
Qed.

Lemma foldl_countWord_names words pre o :
  NoDup (map fst o) ->
  (forall k, k ∈ map fst o <-> k ∈ pre /\ k <> "__proto__") ->
  NoDup (map fst (foldl countWord o words))
  /\ (forall k, k ∈ map fst (foldl countWord o words)
                <-> k ∈ pre ++ words /\ k <> "__proto__").
Proof.
  revert pre o. induction words as [|w words IH]; intros pre o Hnd Hkeys; simpl.
  - rewrite app_nil_r. by split.
  - destruct (countWord_names pre o w Hnd Hkeys) as [Hnd' Hkeys'].
    destruct (IH (pre ++ [w]) _ Hnd' Hkeys') as [H1 H2]. split; [done|].
    intros k. rewrite H2, <- app_assoc. done.
Qed.

(** X29.  For every text, [extractKeywords] returns the filtered words
    other than [__proto__], each once. *)
Theorem extractKeywords_distinct_words
    (tokenize : string -> list string) (stopwords : list string) (text : string) :
  NoDup (extractKeywords tokenize stopwords text)
  /\ (forall word, word ∈ extractKeywords tokenize stopwords text
                   <-> word ∈ filteredWords tokenize stopwords text
                       /\ word <> "__proto__").
Proof.
  unfold extractKeywords, wordFreq.
  destruct (foldl_countWord_names (filteredWords tokenize stopwords text) [] [])
    as [Hnd Hkeys].
  { apply NoDup_nil_2. }
  { intros k. split; [intros H; by apply elem_of_nil in H|by intros [H%elem_of_nil _]]. }
  assert (Permutation
            (map fst (sort byCountDescending
                        (foldl countWord [] (filteredWords tokenize stopwords text))))
            (map fst (foldl countWord [] (filteredWords tokenize stopwords text)))) as Hp
    by apply Permutation_map, sort_perm.
  split.
  - by rewrite Hp.
  - intros word. rewrite Hp. apply Hkeys.
Qed.

End KeywordSet.

Section Reconnection.
(** ** Reconnection *)

(** X30.  The reconnection delay is never capped: the strategy gives up
    after ten retries, so a delay it returns is 100 ms per retry and at most
    one second; the limit of five seconds is never reached. *)
Lemma reconnectStrategy_never_capped (retries delay : Z) :
  RedisClient.reconnectStrategy retries = Ok delay ->
  retries <= 10 /\ delay = retries * 100 /\ delay <= 1000.
Proof.
  unfold RedisClient.reconnectStrategy.
  destruct (Z.ltb_spec 10 retries); [discriminate|]. intros [= <-]. lia.
Qed.

(** X30 at the tenth retry. *)
Lemma reconnectStrategy_never_capped_tenth :
  RedisClient.reconnectStrategy 10 = Ok 1000
  /\ 10 <= 10 /\ 1000 = 10 * 100 /\ 1000 <= 1000.
Proof.
  split; [reflexivity|].
  apply (reconnectStrategy_never_capped 10 1000). reflexivity.
Defined.

End Reconnection.
